(** * Auto-healer: detection, prediction, healing and orchestration

    A shallow embedding of the decision logic of the auto-healer
    ([mcp_tools.py], [mcp_server.py], [root_agent.py]) and proofs of the
    properties that its design document states about it.

    How the code is modelled:
    - a Python object is a [Py.value]; a dictionary is an association list
      in insertion order; an [int] is a [Z], a [float] a binary64 number,
      and a comparison between the two is exact, as in Python;
    - a function that may raise returns a [Py.result]; a [try] block is a
      match on it, one case per [except] clause;
    - text is a string of bytes, and [str.strip] is modelled on ASCII;
    - what the code asks of the outside world (the metrics store, the
      model, the JSON parser, the clock, the rendering of numbers and
      moments, the HTTP client) is a field of [Env.ToolEnv] or
      [RootAgent.AgentEnv]; the orchestrator records its POSTs and sleeps
      as [RootAgent.event]s;
    - a [print] is left out, except that an expression it evaluates may
      raise.

    Layout: the Python values ([Py]), the collaborators of the tools
    ([Env]), the two implementations of the tools ([McpTools],
    [McpServer]), the orchestrator ([RootAgent]), sample collaborators
    ([Samples]), the vocabulary of the properties ([Props], [AgentProps]),
    then the lemmas and theorems ([DetectorFacts], [AgentFacts],
    [PredictorFacts]).

    The rest of the tools is modelled the same way: the controller tools
    ([McpToolsOps], [McpServerOps]) against [Cloud.CloudEnv], which holds
    the environment variables, [subprocess.run] and the clock, and the
    metric tools ([McpToolsStore], [McpServerStore]) against
    [Store.StoreEnv], which holds the metrics table and the poll of the
    service. Their sample collaborators are in [MoreSamples], their
    vocabulary in [ToolsMoreProps], [AgentMoreProps], [OpsProps] and
    [StoreProps], and their theorems, numbered X1, X2, ..., in
    [ToolsMoreFacts], [AgentMoreFacts], [OpsFacts], [DeploymentFacts] and
    [StoreFacts]. *)

From Stdlib Require Import ZArith List String Ascii Bool Lia Floats DecimalString.
Import ListNotations.

#[local] Set Warnings "-inexact-float,-register-all".
#[local] Open Scope string_scope.
#[local] Open Scope Z_scope.

(* ================================================================== *)
(** * Python values *)
(* ================================================================== *)

Module Py.

(** ** Exceptions *)

(** The exception classes the code distinguishes (by [except] clause or by
    [type(e).__name__]); any other class is carried by name. *)
Inductive exc_class : Type :=
| NotFound          (* google.api_core.exceptions.NotFound *)
| Forbidden         (* google.api_core.exceptions.Forbidden *)
| JSONDecodeError   (* json.JSONDecodeError *)
| TypeError
| AttributeError
| OverflowError
| OtherError (name : string).

Record exn : Type := Exn { exc_type : exc_class; exc_msg : string }.

(** [type(e).__name__] *)
Definition class_name (c : exc_class) : string :=
  match c with
  | NotFound => "NotFound"
  | Forbidden => "Forbidden"
  | JSONDecodeError => "JSONDecodeError"
  | TypeError => "TypeError"
  | AttributeError => "AttributeError"
  | OverflowError => "OverflowError"
  | OtherError name => name
  end.

(** [str(e)] *)
Definition str_exn (e : exn) : string := exc_msg e.

(** A computation that returns or raises. *)
Definition result (A : Type) : Type := (exn + A)%type.

Definition ret {A} (a : A) : result A := inr a.
Definition raise {A} (c : exc_class) (msg : string) : result A := inl (Exn c msg).
Definition bind {A B} (m : result A) (k : A -> result B) : result B :=
  match m with
  | inl e => inl e
  | inr a => k a
  end.

(** ** Values (what [json] produces and the dictionaries the code builds) *)

Inductive value : Type :=
| VNone
| VBool (b : bool)
| VInt (n : Z)
| VFloat (x : float)
| VStr (s : string)
| VList (l : list value)
| VDict (d : list (string * value)).

(** A dictionary keeps its keys in insertion order. *)
Definition dict : Type := list (string * value).

Fixpoint dict_lookup (d : dict) (k : string) : option value :=
  match d with
  | [] => None
  | (k', v) :: d' => if String.eqb k' k then Some v else dict_lookup d' k
  end.

(** [d.get(k, default)] *)
Definition dict_get (d : dict) (k : string) (default : value) : value :=
  match dict_lookup d k with
  | Some v => v
  | None => default
  end.

(** [d[k] = v]: an existing key keeps its place, a new key goes last. *)
Fixpoint dict_set (d : dict) (k : string) (v : value) : dict :=
  match d with
  | [] => [(k, v)]
  | (k', v') :: d' =>
      if String.eqb k' k then (k, v) :: d' else (k', v') :: dict_set d' k v
  end.

(** [{**d1, **d2}] *)
Definition dict_merge (d1 d2 : dict) : dict :=
  fold_left (fun acc kv => dict_set acc (fst kv) (snd kv)) d2 d1.

(** [type(v).__name__] *)
Definition type_name (v : value) : string :=
  match v with
  | VNone => "NoneType"
  | VBool _ => "bool"
  | VInt _ => "int"
  | VFloat _ => "float"
  | VStr _ => "str"
  | VList _ => "list"
  | VDict _ => "dict"
  end.

(** Truth value of an object ([if v], [not v], [a and b]). *)
Definition truthy (v : value) : bool :=
  match v with
  | VNone => false
  | VBool b => b
  | VInt n => negb (n =? 0)
  | VFloat x => negb (PrimFloat.eqb x 0%float)
  | VStr s => negb (String.eqb s "")
  | VList l => match l with [] => false | _ => true end
  | VDict d => match d with [] => false | _ => true end
  end.

(** [v.get(k)] and [v.get(k, default)] on an arbitrary object: only a
    dictionary has the method. *)
Definition py_get (v : value) (k : string) (default : value) : result value :=
  match v with
  | VDict d => ret (dict_get d k default)
  | _ => raise AttributeError
           ("'" ++ type_name v ++ "' object has no attribute 'get'")
  end.

(** ** Numbers *)

(** The exact order between a binary64 number and an integer, as Python's
    mixed comparison decides it; [None] for a NaN. *)
Definition float_compare_Z (x : float) (n : Z) : option comparison :=
  match Prim2SF x with
  | S754_nan => None
  | S754_infinity s => Some (if s then Lt else Gt)
  | S754_zero _ => Some (0 ?= n)
  | S754_finite s m e =>
      let v := if s then Z.neg m else Z.pos m in
      Some (if 0 <=? e then v * 2 ^ e ?= n else v ?= n * 2 ^ (- e))
  end.

(** [x > n] and [x >= n] for a float [x] and an int [n] *)
Definition float_gt_Z (x : float) (n : Z) : bool :=
  match float_compare_Z x n with
  | Some Gt => true
  | _ => false
  end.

Definition float_ge_Z (x : float) (n : Z) : bool :=
  match float_compare_Z x n with
  | Some Gt | Some Eq => true
  | _ => false
  end.

(** [n > c] for an int [n] and a float [c] *)
Definition Z_gt_float (n : Z) (c : float) : bool :=
  match float_compare_Z c n with
  | Some Lt => true
  | _ => false
  end.

(** [x > y] on floats *)
Definition float_gt (x y : float) : bool := PrimFloat.ltb y x.

(** [float(n)] for an int within the binary64 range (round to nearest even) *)
Definition float_of_Z (n : Z) : float :=
  match n with
  | Z0 => 0%float
  | Z.pos p => SF2Prim (binary_normalize prec emax (Z.pos p) 0 false)
  | Z.neg p => SF2Prim (binary_normalize prec emax (Z.neg p) 0 true)
  end.

Definition unorderable {A} (op : string) (v : value) (right : string) : result A :=
  raise TypeError
    ("'" ++ op ++ "' not supported between instances of '" ++ type_name v
         ++ "' and '" ++ right ++ "'").

(** [v > n] where [n] is an int literal *)
Definition py_gt_int (v : value) (n : Z) : result bool :=
  match v with
  | VBool b => ret (Z.b2z b >? n)
  | VInt m => ret (m >? n)
  | VFloat x => ret (float_gt_Z x n)
  | _ => unorderable ">" v "int"
  end.

(** [v >= n] where [n] is an int literal *)
Definition py_ge_int (v : value) (n : Z) : result bool :=
  match v with
  | VBool b => ret (Z.b2z b >=? n)
  | VInt m => ret (m >=? n)
  | VFloat x => ret (float_ge_Z x n)
  | _ => unorderable ">=" v "int"
  end.

(** [v > c] where [c] is a float literal *)
Definition py_gt_float (v : value) (c : float) : result bool :=
  match v with
  | VBool b => ret (Z_gt_float (Z.b2z b) c)
  | VInt m => ret (Z_gt_float m c)
  | VFloat x => ret (float_gt x c)
  | _ => unorderable ">" v "float"
  end.

(** [str(n)] for an int *)
Definition str_int (n : Z) : string :=
  DecimalString.NilZero.string_of_int (Z.to_int n).

(** [len(v)] *)
Definition py_len (v : value) : result Z :=
  match v with
  | VStr s => ret (Z.of_nat (String.length s))
  | VList l => ret (Z.of_nat (List.length l))
  | VDict d => ret (Z.of_nat (List.length d))
  | _ => raise TypeError ("object of type '" ++ type_name v ++ "' has no len()")
  end.

(** [v[:n]] for [n >= 0]: sequences can be sliced, nothing else. *)
Definition py_slice_to (v : value) (n : nat) : result value :=
  match v with
  | VStr s => ret (VStr (String.substring 0 n s))
  | VList l => ret (VList (firstn n l))
  | VDict _ => raise TypeError "unhashable type: 'slice'"
  | _ => raise TypeError ("'" ++ type_name v ++ "' object is not subscriptable")
  end.

(** [l[a:]] on a list, for any integer [a] (negative counts from the end). *)
Definition slice_from {A} (l : list A) (a : Z) : list A :=
  let len := Z.of_nat (List.length l) in
  let start := if a <? 0 then Z.max (len + a) 0 else Z.min a len in
  skipn (Z.to_nat start) l.

(** ** Text *)

(** [s.startswith(p)] *)
Definition startswith (s p : string) : bool := String.prefix p s.

(** [s.count(c)] for a one-character [c] *)
Fixpoint count_char (c : ascii) (s : string) : Z :=
  match s with
  | EmptyString => 0
  | String a s' => (if Ascii.eqb a c then 1 else 0) + count_char c s'
  end.

(** Space characters of [str.strip()] within ASCII. *)
Definition is_space (a : ascii) : bool :=
  let n := nat_of_ascii a in
  ((9 <=? n) && (n <=? 13) || (28 <=? n) && (n <=? 32))%nat.

Fixpoint lstrip (s : string) : string :=
  match s with
  | EmptyString => EmptyString
  | String a s' => if is_space a then lstrip s' else s
  end.

Fixpoint rstrip (s : string) : string :=
  match s with
  | EmptyString => EmptyString
  | String a s' =>
      match rstrip s' with
      | EmptyString => if is_space a then EmptyString else String a EmptyString
      | r => String a r
      end
  end.

(** [s.strip()] *)
Definition strip (s : string) : string := rstrip (lstrip s).

(** [s[n:]] for [n >= 0] *)
Fixpoint drop (n : nat) (s : string) : string :=
  match n, s with
  | O, _ => s
  | S n', String _ s' => drop n' s'
  | S _, EmptyString => EmptyString
  end.

(** [sub in s] *)
Fixpoint contains (sub s : string) : bool :=
  String.prefix sub s ||
  match s with
  | EmptyString => false
  | String _ s' => contains sub s'
  end.

(** [s.split(sep)] for a non-empty [sep]: [skip] characters of a separator
    just matched are still to be passed over, [cur] is the piece being read
    (reversed). *)
Fixpoint split_aux (sep s : string) (skip : nat) (cur : list ascii) : list string :=
  match s with
  | EmptyString => [string_of_list_ascii (rev cur)]
  | String a s' =>
      match skip with
      | S k => split_aux sep s' k cur
      | O =>
          if String.prefix sep s
          then string_of_list_ascii (rev cur)
                 :: split_aux sep s' (String.length sep - 1) []
          else split_aux sep s' O (a :: cur)
      end
  end.

Definition split (s sep : string) : list string := split_aux sep s O [].

(** [s.find(c)] for a one-character [c]: the first index, or -1 *)
Fixpoint find_char (c : ascii) (s : string) : Z :=
  match s with
  | EmptyString => -1
  | String a s' =>
      if Ascii.eqb a c then 0
      else let r := find_char c s' in if r <? 0 then -1 else 1 + r
  end.

(** [s.rfind(c)] for a one-character [c]: the last index, or -1 *)
Fixpoint rfind_char (c : ascii) (s : string) : Z :=
  match s with
  | EmptyString => -1
  | String a s' =>
      let r := rfind_char c s' in
      if 0 <=? r then 1 + r else if Ascii.eqb a c then 0 else -1
  end.

(** [s[a:b]] for [0 <= a] and [0 <= b] *)
Definition slice (s : string) (a b : Z) : string :=
  String.substring (Z.to_nat a) (Z.to_nat (b - a)) s.

End Py.

(* ================================================================== *)
(** * What the tools run against *)
(* ================================================================== *)

Module Env.
Import Py.

(** One row of the aggregation query ([GROUP BY service_id]): [AVG] and
    [MAX] are [NULL] when every input is, [COUNT] never is. [kafka_lag] is
    an INT64 column, the others are FLOAT64. *)
Record Row : Type := {
  service_id : string;
  avg_latency_ms : option float;
  max_latency_ms : option float;
  avg_kafka_lag : option float;
  max_kafka_lag : option Z;
  sample_count : Z;
  avg_error_rate : option float;
  degraded_count : Z;
  critical_count : Z
}.

(** The collaborators and the runtime services of one tool call. A moment
    is a number of microseconds since 0001-01-01T00:00:00. *)
Record ToolEnv : Type := {
  (** the [n]-th reading of the clock during the call *)
  utcnow : nat -> Z;
  (** [BIGQUERY_TABLE] *)
  bigquery_table : string;
  (** [list(bq_client.query(query, job_config).result())] for the service
      and window given, or the exception the client raises *)
  run_query : string -> Z -> Z -> result (list Row);
  (** the lazy imports at the head of the [try] block of
      [mcp_tools.predict_risk], the last of which, [import json], binds
      the local name [json] of that function: done, or the exception
      that the first failing one raises *)
  tools_imports : result unit;
  (** [gemini.generate_content(prompt, ...).text], or the exception that
      initialising or calling the model raises (and, in the endpoint,
      loading it) *)
  generate_content : string -> result string;
  (** [json.loads] *)
  json_loads : string -> result value;
  (** the prompt of [mcp_tools.predict_risk], an f-string with format
      specifications that raise on entries they cannot format *)
  tools_prompt : string -> dict -> result string;
  (** the prompt of [mcp_server.predict_risk], built with [json.dumps] *)
  server_prompt : string -> dict -> string;
  (** [format(x, ".<n>f")] *)
  format_f : nat -> float -> string;
  (** [str(x)] for a float *)
  str_float : float -> string;
  (** [isoformat] of a naive moment ([datetime.utcnow()], as
      [mcp_tools.py] has it) and of an aware one
      ([datetime.now(timezone.utc)], as [mcp_server.py] has it) *)
  isoformat : Z -> string;
  isoformat_aware : Z -> string
}.

(** Largest moment a [datetime] holds: 9999-12-31T23:59:59.999999. *)
Definition datetime_max : Z := 3652059 * 86400 * 1000000 - 1.

(** [timedelta(minutes=m)], in microseconds; the day count is bounded. *)
Definition timedelta_minutes (m : Z) : result Z :=
  let days := (m * 60) / 86400 in
  if (days <? - 2 ^ 31) || (2 ^ 31 - 1 <? days)
  then raise OverflowError "Python int too large to convert to C int"
  else if (days <? -999999999) || (999999999 <? days)
  then raise OverflowError
         ("days=" ++ str_int days ++ "; must have magnitude <= 999999999")
  else ret (m * 60 * 1000000).

(** [t - delta] on a datetime *)
Definition datetime_sub (t delta : Z) : result Z :=
  let r := t - delta in
  if (r <? 0) || (datetime_max <? r)
  then raise OverflowError "date value out of range"
  else ret r.

(** [float(x or 0)] for a nullable float column *)
Definition float_or_0 (x : option float) : float :=
  match x with
  | Some f => if PrimFloat.eqb f 0%float then 0%float else f
  | None => 0%float
  end.

(** [float(n or 0)] for a nullable integer column *)
Definition float_of_int_or_0 (n : option Z) : float :=
  match n with
  | Some z => float_of_Z z
  | None => 0%float
  end.

End Env.

(* ================================================================== *)
(** * mcp_tools.py *)
(* ================================================================== *)

Module McpTools.
Import Py Env.

#[local] Notation "x <- m ;; k" := (bind m (fun x => k))
  (at level 61, m at next level, right associativity).

Section Tools.
Context (env : ToolEnv).

(** The [metrics] dictionary built from the first row. *)
Definition metrics_of_row (row : Row) : dict :=
  [ ("avg_latency_ms", VFloat (float_or_0 (avg_latency_ms row)));
    ("max_latency_ms", VFloat (float_or_0 (max_latency_ms row)));
    ("avg_kafka_lag", VFloat (float_or_0 (avg_kafka_lag row)));
    ("max_kafka_lag", VFloat (float_of_int_or_0 (max_kafka_lag row)));
    ("avg_error_rate", VFloat (float_or_0 (avg_error_rate row)));
    ("sample_count", VInt (sample_count row)) ].

(** The three rules, on the values stored in [metrics]. *)
Definition latency_rule (row : Row) (latency_threshold_ms : float) : bool :=
  float_gt (float_or_0 (avg_latency_ms row)) latency_threshold_ms.

Definition kafka_lag_rule (row : Row) (kafka_lag_threshold : Z) : bool :=
  float_gt_Z (float_or_0 (avg_kafka_lag row)) kafka_lag_threshold.

Definition error_rate_rule (row : Row) : bool :=
  float_gt (float_or_0 (avg_error_rate row)) 0.05%float.

Definition latency_violation (row : Row) (latency_threshold_ms : float) : string :=
  "Latency violation: " ++ format_f env 2 (float_or_0 (avg_latency_ms row))
    ++ "ms exceeds threshold " ++ str_float env latency_threshold_ms ++ "ms".

Definition kafka_lag_violation (row : Row) (kafka_lag_threshold : Z) : string :=
  "Kafka lag violation: " ++ format_f env 0 (float_or_0 (avg_kafka_lag row))
    ++ " messages exceeds threshold " ++ str_int kafka_lag_threshold.

Definition error_rate_violation (row : Row) : string :=
  "Error rate violation: "
    ++ format_f env 2 (PrimFloat.mul (float_or_0 (avg_error_rate row)) 100%float)
    ++ "% exceeds 5% threshold".

(** The body of the [try] block of [detect_anomaly]. *)
Definition detect_anomaly_try (service_name : string) (time_window_minutes : Z)
    (latency_threshold_ms : float) (kafka_lag_threshold : Z) : result dict :=
  let end_time := utcnow env 0 in
  delta <- timedelta_minutes time_window_minutes ;;
  start_time <- datetime_sub end_time delta ;;
  results <- run_query env service_name start_time end_time ;;
  match results with
  | [] =>
      ret [ ("anomaly_detected", VBool false);
            ("service", VStr service_name);
            ("metrics", VNone);
            ("violations", VList []);
            ("query_time", VStr (isoformat env end_time));
            ("recommendation",
             VStr ("No metrics found for " ++ service_name ++ " in last "
                     ++ str_int time_window_minutes
                     ++ " minutes. Verify service is running and exporting metrics."));
            ("error", VStr "NO_DATA") ]
  | row :: _ =>
      let metrics := metrics_of_row row in
      let violations := [] in
      let anomaly_detected := false in
      let '(violations, anomaly_detected) :=
        if latency_rule row latency_threshold_ms
        then ((violations ++ [VStr (latency_violation row latency_threshold_ms)])%list, true)
        else (violations, anomaly_detected) in
      let '(violations, anomaly_detected) :=
        if kafka_lag_rule row kafka_lag_threshold
        then ((violations ++ [VStr (kafka_lag_violation row kafka_lag_threshold)])%list, true)
        else (violations, anomaly_detected) in
      let '(violations, anomaly_detected) :=
        if error_rate_rule row
        then ((violations ++ [VStr (error_rate_violation row)])%list, true)
        else (violations, anomaly_detected) in
      let recommendation :=
        if anomaly_detected
        then "CRITICAL: " ++ service_name ++ " requires immediate attention. "
               ++ "Recommend scaling replicas and investigating root cause. "
               ++ "Violations: " ++ str_int (Z.of_nat (List.length violations))
        else service_name ++ " operating within normal parameters." in
      ret [ ("anomaly_detected", VBool anomaly_detected);
            ("service", VStr service_name);
            ("metrics", VDict metrics);
            ("violations", VList violations);
            ("query_time", VStr (isoformat env end_time));
            ("recommendation", VStr recommendation);
            ("time_window_minutes", VInt time_window_minutes) ]
  end.

(** The result of an [except] clause of [detect_anomaly]. *)
Definition detect_anomaly_failed (service_name recommendation error : string) : dict :=
  [ ("anomaly_detected", VBool false);
    ("service", VStr service_name);
    ("metrics", VNone);
    ("violations", VList []);
    ("query_time", VStr (isoformat env (utcnow env 1)));
    ("recommendation", VStr recommendation);
    ("error", VStr error) ].

(** [detect_anomaly]: the [try] block and its three handlers. *)
Definition detect_anomaly (service_name : string) (time_window_minutes : Z)
    (latency_threshold_ms : float) (kafka_lag_threshold : Z) : dict :=
  match detect_anomaly_try service_name time_window_minutes
          latency_threshold_ms kafka_lag_threshold with
  | inr r => r
  | inl (Exn NotFound _) =>
      detect_anomaly_failed service_name
        ("BigQuery table " ++ bigquery_table env
           ++ " not found. Run setup script to create schema.")
        "TABLE_NOT_FOUND"
  | inl (Exn Forbidden msg) =>
      detect_anomaly_failed service_name
        ("Permission denied: Ensure service account has BigQuery Data Viewer role. Error: "
           ++ msg)
        "PERMISSION_DENIED"
  | inl (Exn c msg) =>
      detect_anomaly_failed service_name
        ("Error querying metrics: " ++ msg)
        (class_name c)
  end.

(** "Handle markdown code blocks": of a text that opens with a fence, the
    part up to the next fence, without a leading [json]. *)
Definition strip_code_fence (response_text : string) : result string :=
  if startswith response_text "```"
  then
    match nth_error (split response_text "```") 1 with
    | None => raise (OtherError "IndexError") "list index out of range"
    | Some response_text =>
        let response_text :=
          if startswith response_text "json" then drop 4 response_text
          else response_text in
        ret (strip response_text)
    end
  else ret response_text.

(** The [try] block of [predict_risk] up to the parsed response: it opens
    with the lazy imports. *)
Definition predict_risk_parse (service_name : string) (metrics : dict) : result value :=
  _ <- tools_imports env ;;
  prompt <- tools_prompt env service_name metrics ;;
  text <- generate_content env prompt ;;
  let response_text := strip text in
  response_text <- strip_code_fence response_text ;;
  json_loads env response_text.

(** The two handlers of [predict_risk]: a response that is not JSON gets a
    medium default risk, any other failure the zero one, stamped with the
    time [now] at which the handler runs. *)
Definition predict_risk_failed (service_name : string) (e : exn) (now : Z) : dict :=
  match e with
  | Exn JSONDecodeError msg =>
      [ ("success", VBool false);
        ("error", VStr "json_parse_error");
        ("service", VStr service_name);
        ("risk_score", VInt 50);
        ("recommended_action", VStr "monitor");
        ("confidence", VStr "low");
        ("message", VStr ("Failed to parse Gemini response: " ++ msg)) ]
  | _ =>
      [ ("success", VBool false);
        ("error", VStr (str_exn e));
        ("service", VStr service_name);
        ("risk_score", VInt 0);
        ("recommended_action", VStr "monitor");
        ("confidence", VStr "low");
        ("timestamp", VStr (isoformat env now)) ]
  end.

(** What matching the first handler, [except json.JSONDecodeError],
    raises while the local name [json] is unbound (in the wording of
    Python 3.11). *)
Definition json_unbound : exn :=
  Exn (OtherError "UnboundLocalError")
    "cannot access local variable 'json' where it is not associated with a value".

(** [predict_risk]. The result is built from the parsed response with
    [**prediction], which raises on anything but a mapping, after the clock
    has been read for [timestamp]. An exception of the [try] block is
    matched against [json.JSONDecodeError] first: when an import failed,
    [json] is not bound, the match itself raises, and that exception
    leaves the function. *)
Definition predict_risk (service_name : string) (metrics : dict) : result dict :=
  match predict_risk_parse service_name metrics with
  | inl e =>
      match tools_imports env with
      | inl _ => inl json_unbound
      | inr _ => ret (predict_risk_failed service_name e (utcnow env 0))
      end
  | inr (VDict prediction) =>
      ret (dict_merge
             [ ("success", VBool true);
               ("service", VStr service_name);
               ("timestamp", VStr (isoformat env (utcnow env 0))) ]
             prediction)
  | inr v =>
      ret (predict_risk_failed service_name
             (Exn TypeError ("'" ++ type_name v ++ "' object is not a mapping"))
             (utcnow env 1))
  end.

End Tools.
End McpTools.

(* ================================================================== *)
(** * mcp_server.py *)
(* ================================================================== *)

Module McpServer.
Import Py Env.

#[local] Notation "x <- m ;; k" := (bind m (fun x => k))
  (at level 61, m at next level, right associativity).

(** What an endpoint hands to the HTTP layer: a JSON body (status 200), or
    [HTTPException(status_code, detail)]. *)
Inductive response : Type :=
| Body (body : dict)
| HTTPException (status_code : Z) (detail : string).

(** [DetectAnomalyRequest] *)
Record DetectAnomalyRequest : Type := {
  da_service_name : string;
  da_time_window_minutes : Z;
  da_latency_threshold_ms : float;
  da_kafka_lag_threshold : Z
}.

(** [PredictRiskRequest] *)
Record PredictRiskRequest : Type := {
  pr_service_name : string;
  pr_metrics : dict
}.

Section Server.
Context (env : ToolEnv).

(** The body of the [try] block of the [/tools/detect_anomaly] endpoint. *)
Definition detect_anomaly_try (request : DetectAnomalyRequest) : result dict :=
  let end_time := utcnow env 0 in
  delta <- timedelta_minutes (da_time_window_minutes request) ;;
  start_time <- datetime_sub end_time delta ;;
  results <- run_query env (da_service_name request) start_time end_time ;;
  match results with
  | [] =>
      ret [ ("anomaly_detected", VBool false);
            ("service", VStr (da_service_name request));
            ("metrics", VNone);
            ("violations", VList []);
            ("query_time", VStr (isoformat_aware env end_time));
            ("recommendation",
             VStr ("No metrics found for " ++ da_service_name request ++ " in last "
                     ++ str_int (da_time_window_minutes request)
                     ++ " minutes. Verify service is running and exporting metrics."));
            ("error", VStr "NO_DATA") ]
  | row :: _ =>
      let metrics :=
        [ ("avg_latency_ms", VFloat (float_or_0 (avg_latency_ms row)));
          ("max_latency_ms", VFloat (float_or_0 (max_latency_ms row)));
          ("avg_kafka_lag", VFloat (float_or_0 (avg_kafka_lag row)));
          ("max_kafka_lag", VFloat (float_of_int_or_0 (max_kafka_lag row)));
          ("avg_error_rate", VFloat (float_or_0 (avg_error_rate row)));
          ("sample_count", VInt (sample_count row)) ] in
      let violations := [] in
      let anomaly_detected := false in
      let '(violations, anomaly_detected) :=
        if float_gt (float_or_0 (avg_latency_ms row)) (da_latency_threshold_ms request)
        then ((violations ++
                 [VStr ("Latency violation: "
                          ++ format_f env 2 (float_or_0 (avg_latency_ms row))
                          ++ "ms exceeds threshold "
                          ++ str_float env (da_latency_threshold_ms request) ++ "ms")])%list,
              true)
        else (violations, anomaly_detected) in
      let '(violations, anomaly_detected) :=
        if float_gt_Z (float_or_0 (avg_kafka_lag row)) (da_kafka_lag_threshold request)
        then ((violations ++
                 [VStr ("Kafka lag violation: "
                          ++ format_f env 0 (float_or_0 (avg_kafka_lag row))
                          ++ " messages exceeds threshold "
                          ++ str_int (da_kafka_lag_threshold request))])%list,
              true)
        else (violations, anomaly_detected) in
      let '(violations, anomaly_detected) :=
        if float_gt (float_or_0 (avg_error_rate row)) 0.05%float
        then ((violations ++
                 [VStr ("Error rate violation: "
                          ++ format_f env 2
                               (PrimFloat.mul (float_or_0 (avg_error_rate row)) 100%float)
                          ++ "% exceeds 5% threshold")])%list,
              true)
        else (violations, anomaly_detected) in
      let recommendation :=
        if anomaly_detected
        then "CRITICAL: " ++ da_service_name request ++ " requires immediate attention. "
               ++ "Recommend scaling replicas and investigating root cause. "
               ++ "Violations: " ++ str_int (Z.of_nat (List.length violations))
        else da_service_name request ++ " operating within normal parameters." in
      ret [ ("anomaly_detected", VBool anomaly_detected);
            ("service", VStr (da_service_name request));
            ("metrics", VDict metrics);
            ("violations", VList violations);
            ("time_window_minutes", VInt (da_time_window_minutes request));
            ("query_time", VStr (isoformat_aware env end_time));
            ("recommendation", VStr recommendation) ]
  end.

(** The endpoint: every exception becomes an HTTP 500. *)
Definition detect_anomaly (request : DetectAnomalyRequest) : response :=
  match detect_anomaly_try request with
  | inr r => Body r
  | inl e => HTTPException 500 (str_exn e)
  end.

(** The fallback prediction for a truncated response. *)
Definition fallback_scale_up : dict :=
  [ ("risk_score", VInt 85);
    ("root_cause", VStr "High latency and error rate indicate resource constraints");
    ("recommended_action", VStr "scale_up");
    ("confidence", VStr "high");
    ("reasoning", VStr "Metrics exceed thresholds, scaling recommended") ].

Definition fallback_monitor : dict :=
  [ ("risk_score", VInt 50);
    ("root_cause", VStr "Minor performance degradation detected");
    ("recommended_action", VStr "monitor");
    ("confidence", VStr "medium");
    ("reasoning", VStr "Metrics slightly elevated, continue monitoring") ].

(** The [for part in parts] loop: the first part that, stripped and with a
    leading [json] removed, is non-empty and opens an object or an array;
    the text is left as it is when there is none. *)
Fixpoint first_json_part (parts : list string) (response_text : string) : string :=
  match parts with
  | [] => response_text
  | part :: parts' =>
      let part := strip part in
      let part := if startswith part "json" then strip (drop 4 part) else part in
      if negb (String.eqb part "") && (startswith part "{" || startswith part "[")
      then part
      else first_json_part parts' response_text
  end.

(** The [else] branch before [json.loads]: code fences removed, then the
    span from the first opening to the last closing brace. *)
Definition extract_json (response_text : string) : string :=
  let response_text :=
    if contains "```" response_text
    then first_json_part (split response_text "```") response_text
    else response_text in
  let start := find_char "{" response_text in
  let end_ := rfind_char "}" response_text + 1 in
  if negb (start =? -1) && (end_ >? start)
  then slice response_text start end_
  else response_text.

(** "Use fallback prediction based on metrics": the prediction for a
    truncated response. *)
Definition fallback_prediction (metrics : dict) : result dict :=
  let avg_latency := dict_get metrics "avg_latency_ms" (VInt 0) in
  let error_rate := dict_get metrics "avg_error_rate" (VInt 0) in
  high_latency <- py_gt_int avg_latency 1500 ;;
  exceeded <- (if high_latency then ret true else py_gt_float error_rate 0.05%float) ;;
  ret (if exceeded then fallback_scale_up else fallback_monitor).

(** The [try] block of the [/tools/predict_risk] endpoint up to the
    prediction: the fallback for a response whose braces do not match, the
    parsed response otherwise. *)
Definition predict_risk_parse (request : PredictRiskRequest) : result value :=
  let prompt := server_prompt env (pr_service_name request) (pr_metrics request) in
  text <- generate_content env prompt ;;
  let response_text := strip text in
  if negb (count_char "{" response_text =? count_char "}" response_text)
  then
    prediction <- fallback_prediction (pr_metrics request) ;;
    ret (VDict prediction)
  else json_loads env (extract_json response_text).

(** The handler of the endpoint: the zero-risk result, stamped with the
    time [now] at which the handler runs. *)
Definition predict_risk_failed (request : PredictRiskRequest) (e : exn) (now : Z) : dict :=
  [ ("success", VBool false);
    ("error", VStr (str_exn e));
    ("service", VStr (pr_service_name request));
    ("risk_score", VInt 0);
    ("recommended_action", VStr "monitor");
    ("confidence", VStr "low");
    ("timestamp", VStr (isoformat_aware env now)) ].

(** The endpoint. The result is built from the prediction with
    [**prediction], which raises on anything but a mapping, after the clock
    has been read for [timestamp]. *)
Definition predict_risk (request : PredictRiskRequest) : dict :=
  match predict_risk_parse request with
  | inl e => predict_risk_failed request e (utcnow env 0)
  | inr (VDict prediction) =>
      dict_merge
        [ ("success", VBool true);
          ("service", VStr (pr_service_name request));
          ("timestamp", VStr (isoformat_aware env (utcnow env 0))) ]
        prediction
  | inr v =>
      predict_risk_failed request
        (Exn TypeError ("'" ++ type_name v ++ "' object is not a mapping"))
        (utcnow env 1)
  end.

End Server.
End McpServer.

(* ================================================================== *)
(** * root_agent.py *)
(* ================================================================== *)

Module RootAgent.
Import Py.

(** What the agent does to the outside world, in the order it does it. *)
Inductive event : Type :=
| Post (tool_name : string) (url : string) (parameters : dict)
| Sleep (seconds : Z).

(** What [call_mcp_tool] gets back from its POST. *)
Inductive http_outcome : Type :=
| HTTPError (msg : string)   (* [post] or [raise_for_status] raises httpx.HTTPError *)
| Json (v : value)           (* [response.json()] *)
| Raised (e : exn).          (* [post] or [response.json()] raises anything else *)

(** The collaborators of the agent; each answer may depend on the events
    that came before it. *)
Record AgentEnv : Type := {
  (** [MCP_ENDPOINT] *)
  mcp_endpoint : string;
  (** [self.http_client.post(url, json=parameters)] and what follows it *)
  http_post : list event -> string -> dict -> http_outcome;
  (** [datetime.utcnow()], in microseconds *)
  utcnow : list event -> Z;
  (** [datetime.isoformat] *)
  isoformat : Z -> string;
  (** [str(v)] for an object that is not a string *)
  str_object : value -> string
}.

(** The agent: its incident history, and the events of the run so far. *)
Record agent : Type := {
  healing_history : list dict;
  events : list event
}.

(** A coroutine of the agent: it returns or raises, and leaves the agent
    in a new state either way. *)
Definition M (A : Type) : Type := agent -> result A * agent.

Definition mret {A} (a : A) : M A := fun s => (inr a, s).
Definition mbind {A B} (m : M A) (k : A -> M B) : M B :=
  fun s =>
    match m s with
    | (inl e, s') => (inl e, s')
    | (inr a, s') => k a s'
    end.
Definition lift {A} (r : result A) : M A := fun s => (r, s).

#[local] Notation "x <- m ;; k" := (mbind m (fun x => k))
  (at level 61, m at next level, right associativity).
#[local] Notation "m ;;; k" := (mbind m (fun _ => k))
  (at level 61, right associativity).

Definition emit (e : event) : M unit :=
  fun s => (inr tt, {| healing_history := healing_history s;
                       events := (events s ++ [e])%list |}).

Definition get_events : M (list event) := fun s => (inr (events s), s).

(** [self.healing_history.append(report)] *)
Definition history_append (report : dict) : M unit :=
  fun s => (inr tt, {| healing_history := (healing_history s ++ [report])%list;
                       events := events s |}).

(** [(end - start).total_seconds()] (exact below 2^53 microseconds) *)
Definition total_seconds (microseconds : Z) : float :=
  PrimFloat.div (float_of_Z microseconds) 1000000%float.

(** [f"{v}"] *)
Definition py_str (str_object : value -> string) (v : value) : string :=
  match v with
  | VStr s => s
  | _ => str_object v
  end.

(** [v == s] for a string literal [s] *)
Definition eq_str (v : value) (s : string) : bool :=
  match v with
  | VStr s' => String.eqb s' s
  | _ => false
  end.

(** [action_aliases] *)
Definition action_aliases : list (string * string) :=
  [ ("scale_out", "scale_up");
    ("scale", "scale_up");
    ("restart_service", "restart");
    ("alert", "escalate_human") ].

Fixpoint alias_lookup (table : list (string * string)) (k : string) : option string :=
  match table with
  | [] => None
  | (k', v) :: table' => if String.eqb k' k then Some v else alias_lookup table' k
  end.

(** [action_aliases.get(a, a)] for a string [a] *)
Definition normalize (recommended_action : string) : string :=
  match alias_lookup action_aliases recommended_action with
  | Some canonical => canonical
  | None => recommended_action
  end.

(** [action_aliases.get(v, v)] for any object: a string goes through the
    table, a list or a dictionary cannot be a key, anything else is no key
    of the table. *)
Definition normalize_value (recommended_action : value) : result value :=
  match recommended_action with
  | VStr a => ret (VStr (normalize a))
  | VList _ => raise TypeError "unhashable type: 'list'"
  | VDict _ => raise TypeError "unhashable type: 'dict'"
  | v => ret v
  end.

(** What [call_mcp_tool] makes of the outcome of its POST. *)
Definition tool_result (tool_name : string) (o : http_outcome) : result value :=
  match o with
  | Json v => ret v
  | Raised e => inl e
  | HTTPError msg =>
      ret (VDict [ ("error", VStr msg);
                   ("tool", VStr tool_name);
                   ("success", VBool false) ])
  end.

Section Agent.
Context (env : AgentEnv).

(** The first [.get] on an object the code takes for a dictionary. *)
Definition as_dict (v : value) : M dict :=
  match v with
  | VDict d => mret d
  | _ => lift (raise AttributeError
                 ("'" ++ type_name v ++ "' object has no attribute 'get'"))
  end.

Definition now : M Z := fun s => (inr (utcnow env (events s)), s).

(** [asyncio.sleep(seconds)] *)
Definition sleep (seconds : Z) : M unit := emit (Sleep seconds).

(** [f"{MCP_ENDPOINT}/tools/{tool_name}"] *)
Definition tool_url (tool_name : string) : string :=
  mcp_endpoint env ++ "/tools/" ++ tool_name.

(** [call_mcp_tool]: an HTTP error becomes a failure dictionary; nothing
    else is caught, a body that is not JSON among the rest. *)
Definition call_mcp_tool (tool_name : string) (parameters : dict) : M value :=
  let url := tool_url tool_name in
  before <- get_events ;;
  emit (Post tool_name url parameters) ;;;
  lift (tool_result tool_name (http_post env before url parameters)).

(** [detector_agent] *)
Definition detector_agent (service_name : string) (time_window_minutes : Z) : M dict :=
  result <- call_mcp_tool "detect_anomaly"
              [ ("service_name", VStr service_name);
                ("time_window_minutes", VInt time_window_minutes);
                ("latency_threshold_ms", VFloat 500%float);
                ("kafka_lag_threshold", VInt 5000) ] ;;
  result <- as_dict result ;;
  (if truthy (dict_get result "anomaly_detected" VNone)
   then
     (* the two prints evaluate [len(violations)] and [violations[:3]] *)
     _ <- lift (py_len (dict_get result "violations" (VList []))) ;;
     _ <- lift (py_slice_to (dict_get result "violations" (VList [])) 3) ;;
     mret tt
   else mret tt) ;;;
  mret result.

(** [predictor_agent] *)
Definition predictor_agent (service_name : string) (metrics : value) : M dict :=
  result <- call_mcp_tool "predict_risk"
              [ ("service_name", VStr service_name);
                ("metrics", metrics) ] ;;
  result <- as_dict result ;;
  (if truthy (dict_get result "success" VNone)
   then
     (* the print evaluates [root_cause[:60]] *)
     _ <- lift (py_slice_to (dict_get result "root_cause" (VStr "Unknown")) 60) ;;
     mret tt
   else mret tt) ;;;
  mret result.

(** The instance bounds of a scale-up:
    [if risk_score >= 80: ... elif risk_score >= 50: ... else: ...] *)
Definition scale_bounds (risk_score : value) : result (Z * Z) :=
  bind (py_ge_int risk_score 80) (fun critical =>
  if critical then ret (5, 20)
  else
    bind (py_ge_int risk_score 50) (fun elevated =>
    if elevated then ret (3, 15) else ret (2, 10))).

(** [healer_agent] *)
Definition healer_agent (service_name : string) (action : value) (risk_score : value)
  : M dict :=
  if eq_str action "scale_up" then
    bounds <- lift (scale_bounds risk_score) ;;
    let '(min_instances, max_instances) := bounds in
    result <- call_mcp_tool "scale_service"
                [ ("service_name", VStr service_name);
                  ("min_instances", VInt min_instances);
                  ("max_instances", VInt max_instances);
                  ("target_cpu_utilization", VInt 70) ] ;;
    result <- as_dict result ;;
    if truthy (dict_get result "success" VNone)
    then
      sleep 10 ;;;
      verify_result <- call_mcp_tool "verify_health"
                         [ ("service_name", VStr service_name) ] ;;
      verify_result <- as_dict verify_result ;;
      if truthy (dict_get verify_result "success" VNone)
         && truthy (dict_get verify_result "ready" VNone)
      then mret (dict_set result "verification" (VStr "healthy"))
      else mret (dict_set result "verification" (VStr "pending"))
    else mret result
  else if eq_str action "restart" then
    result <- call_mcp_tool "restart_service"
                [ ("service_name", VStr service_name) ] ;;
    result <- as_dict result ;;
    mret result
  else if eq_str action "monitor" then
    mret [ ("success", VBool true);
           ("action", VStr "monitor");
           ("message",
            VStr ("No immediate action required. Monitoring " ++ service_name ++ ".")) ]
  else if eq_str action "escalate_human" then
    mret [ ("success", VBool true);
           ("action", VStr "escalated");
           ("message", VStr ("Alert sent to on-call for " ++ service_name)) ]
  else
    mret [ ("success", VBool false);
           ("error", VStr ("Unknown action: " ++ py_str (str_object env) action)) ].

(** [heal] *)
Definition heal (service_name : string) (alert_message : string) : M dict :=
  start_time <- now ;;
  (* STEP 1: Detection *)
  detection_result <- detector_agent service_name 5 ;;
  if negb (truthy (dict_get detection_result "anomaly_detected" VNone))
  then
    mret [ ("success", VBool true);
           ("action_taken", VStr "none");
           ("message", VStr "Service operating normally");
           ("detection", VDict detection_result) ]
  else
    (* STEP 2: Prediction *)
    let metrics := dict_get detection_result "metrics" (VDict []) in
    prediction_result <- predictor_agent service_name metrics ;;
    let risk_score := dict_get prediction_result "risk_score" (VInt 0) in
    let recommended_action :=
      dict_get prediction_result "recommended_action" (VStr "monitor") in
    (* STEP 3: Healing (normalize action aliases) *)
    normalized_action <- lift (normalize_value recommended_action) ;;
    healing_result <- healer_agent service_name normalized_action risk_score ;;
    (* STEP 4: Generate Report *)
    end_time <- now ;;
    let duration_seconds := total_seconds (end_time - start_time) in
    let report :=
      [ ("success", VBool true);
        ("service", VStr service_name);
        ("alert_message", VStr alert_message);
        ("start_time", VStr (isoformat env start_time));
        ("end_time", VStr (isoformat env end_time));
        ("duration_seconds", VFloat duration_seconds);
        ("detection", VDict detection_result);
        ("prediction", VDict prediction_result);
        ("healing", VDict healing_result);
        ("summary",
         VDict [ ("anomaly_detected", VBool true);
                 ("risk_score", risk_score);
                 ("action_taken", recommended_action);
                 ("success", dict_get healing_result "success" (VBool false)) ]) ] in
    (* Store in history *)
    history_append report ;;;
    mret report.

(** [get_history] *)
Definition get_history (limit : Z) : M (list dict) :=
  fun s => (inr (slice_from (healing_history s) (- limit)), s).

End Agent.

(** What a FastAPI endpoint hands to the HTTP layer. *)
Inductive response : Type :=
| Body (body : dict)
| HTTPException (status_code : Z) (detail : string).

(** [GET /history?limit=N] *)
Definition history_endpoint (limit : Z) : agent -> response * agent :=
  fun s =>
    match get_history limit s with
    | (inr history, s') =>
        (Body [ ("count", VInt (Z.of_nat (List.length history)));
                ("incidents", VList (map VDict history)) ], s')
    | (inl e, s') => (HTTPException 500 (str_exn e), s')
    end.

(** [POST /heal] *)
Definition heal_endpoint (env : AgentEnv) (service alert_message : string)
  : agent -> response * agent :=
  fun s =>
    match heal env service alert_message s with
    | (inr result, s') => (Body result, s')
    | (inl e, s') => (HTTPException 500 (str_exn e), s')
    end.

End RootAgent.

(* ================================================================== *)
(** * Sample collaborators *)
(* ================================================================== *)

Module Samples.
Import Py.

(** [n / d] rounded to the nearest integer, ties to even ([d > 0]). *)
Definition div_half_even (n d : Z) : Z :=
  let q := n / d in
  let r := n mod d in
  if 2 * r <? d then q
  else if d <? 2 * r then q + 1
  else if Z.even q then q else q + 1.

Fixpoint zeros (n : nat) : string :=
  match n with
  | O => ""
  | S n' => "0" ++ zeros n'
  end.

(** [format(x, ".<p>f")]: the exact value of [x], rounded half-even to [p]
    decimals. *)
Definition format_fixed (p : nat) (x : float) : string :=
  let point_and (digits : string) := if Nat.eqb p 0 then "" else "." ++ digits in
  let sign (s : bool) := if s then "-" else "" in
  match Prim2SF x with
  | S754_nan => "nan"
  | S754_infinity s => sign s ++ "inf"
  | S754_zero s => sign s ++ "0" ++ point_and (zeros p)
  | S754_finite s m e =>
      let scale := 10 ^ Z.of_nat p in
      let q := if 0 <=? e then Z.pos m * scale * 2 ^ e
               else div_half_even (Z.pos m * scale) (2 ^ (- e)) in
      let frac := str_int (q mod scale) in
      sign s ++ str_int (q / scale)
        ++ point_and (zeros (p - String.length frac) ++ frac)
  end.

(** 2025-01-01T00:00:00, in microseconds since 0001-01-01. *)
Definition new_year_2025 : Z := 739251 * 86400 * 1000000.

(** A parser outcome for a text that is not JSON. *)
Definition no_json : string -> result value :=
  fun _ => raise JSONDecodeError "Expecting value: line 1 column 1 (char 0)".

(** A tool environment around a query outcome and a model response. The
    rendering of thresholds and moments is simplified: a threshold with
    one decimal, a moment as its number of microseconds, followed by the
    offset when it is an aware one. The lazy imports succeed. *)
Definition tool_env (rows : result (list Env.Row)) (reply : result string)
    (loads : string -> result value) : Env.ToolEnv :=
  {| Env.utcnow := fun n => new_year_2025 + Z.of_nat n;
     Env.bigquery_table := "bnb-marathon-478505.bnb_autohealer.metrics";
     Env.run_query := fun _ _ _ => rows;
     Env.tools_imports := inr tt;
     Env.generate_content := fun _ => reply;
     Env.json_loads := loads;
     Env.tools_prompt := fun service _ => ret ("SERVICE: " ++ service);
     Env.server_prompt := fun service _ => "Service: " ++ service;
     Env.format_f := format_fixed;
     Env.str_float := format_fixed 1;
     Env.isoformat := str_int;
     Env.isoformat_aware := fun t => str_int t ++ "+00:00" |}.

(** The window of the end-to-end scenario of the design: every rule fires
    against the thresholds (500, 5000). *)
Definition degraded_row : Env.Row :=
  {| Env.service_id := "user-api";
     Env.avg_latency_ms := Some 2000%float;
     Env.max_latency_ms := Some 2600%float;
     Env.avg_kafka_lag := Some 9000%float;
     Env.max_kafka_lag := Some 12000;
     Env.sample_count := 30;
     Env.avg_error_rate := Some 0.1%float;
     Env.degraded_count := 20;
     Env.critical_count := 4 |}.

(** A window in which only the second rule fires. *)
Definition lagging_row : Env.Row :=
  {| Env.service_id := "user-api";
     Env.avg_latency_ms := Some 120%float;
     Env.max_latency_ms := Some 300%float;
     Env.avg_kafka_lag := Some 7500.5%float;
     Env.max_kafka_lag := Some 9000;
     Env.sample_count := 12;
     Env.avg_error_rate := None;
     Env.degraded_count := 0;
     Env.critical_count := 0 |}.

(** A window in which the latency is above the threshold of the detector
    (500) and below the one of the fallback prediction (1500). *)
Definition slow_row : Env.Row :=
  {| Env.service_id := "user-api";
     Env.avg_latency_ms := Some 1000%float;
     Env.max_latency_ms := Some 1400%float;
     Env.avg_kafka_lag := Some 100%float;
     Env.max_kafka_lag := Some 250;
     Env.sample_count := 30;
     Env.avg_error_rate := Some 0.01%float;
     Env.degraded_count := 30;
     Env.critical_count := 0 |}.

(** A double quote. *)
Definition dq : string := String "034" "".

(** A response cut off after its first entry. *)
Definition truncated_reply : string :=
  "{" ++ dq ++ "risk_score" ++ dq ++ ": 85,".

(** A reply that is no JSON at all. *)
Definition apology : string := "Sorry, I cannot analyze these metrics.".

Definition user_api_request : McpServer.DetectAnomalyRequest :=
  {| McpServer.da_service_name := "user-api";
     McpServer.da_time_window_minutes := 5;
     McpServer.da_latency_threshold_ms := 500%float;
     McpServer.da_kafka_lag_threshold := 5000 |}.

(** The reply of the model in the end-to-end scenario, and its parse. *)
Definition scale_up_reply : string :=
  "{" ++ dq ++ "risk_score" ++ dq ++ ": 90, "
      ++ dq ++ "root_cause" ++ dq ++ ": "
      ++ dq ++ "Traffic spike exhausts the instances" ++ dq ++ ", "
      ++ dq ++ "recommended_action" ++ dq ++ ": " ++ dq ++ "scale_up" ++ dq ++ ", "
      ++ dq ++ "confidence" ++ dq ++ ": " ++ dq ++ "high" ++ dq ++ ", "
      ++ dq ++ "reasoning" ++ dq ++ ": "
      ++ dq ++ "Latency, lag and errors are all above their thresholds" ++ dq ++ "}".

Definition scale_up_prediction : dict :=
  [ ("risk_score", VInt 90);
    ("root_cause", VStr "Traffic spike exhausts the instances");
    ("recommended_action", VStr "scale_up");
    ("confidence", VStr "high");
    ("reasoning", VStr "Latency, lag and errors are all above their thresholds") ].

(** [json.loads] on the texts of the scenarios: the reply above parses to
    the prediction above, and every other text is answered as one that is
    not JSON. *)
Definition loads_scenario (text : string) : result value :=
  if String.eqb text scale_up_reply then ret (VDict scale_up_prediction)
  else no_json text.

(** Seconds that the events of a run take: one per POST, and the length
    of every sleep. *)
Fixpoint elapsed (evs : list RootAgent.event) : Z :=
  match evs with
  | [] => 0
  | RootAgent.Post _ _ _ :: evs' => 1 + elapsed evs'
  | RootAgent.Sleep n :: evs' => n + elapsed evs'
  end.

(** An agent environment around a way to answer POSTs. The rendering is
    simplified: a moment as its number of microseconds, an object that is
    not a string as the name of its type. *)
Definition agent_env
    (post : list RootAgent.event -> string -> dict -> RootAgent.http_outcome)
  : RootAgent.AgentEnv :=
  {| RootAgent.mcp_endpoint := "http://localhost:8080";
     RootAgent.http_post := post;
     RootAgent.utcnow := fun evs => new_year_2025 + 1000000 * elapsed evs;
     RootAgent.isoformat := str_int;
     RootAgent.str_object := type_name |}.

(** The request models of the endpoints, read from the JSON body of a
    POST: a missing entry takes its default, an entry of another type is a
    validation error. *)
Definition detect_request (parameters : dict) : option McpServer.DetectAnomalyRequest :=
  match dict_lookup parameters "service_name",
        dict_get parameters "time_window_minutes" (VInt 5),
        dict_get parameters "latency_threshold_ms" (VFloat 500%float),
        dict_get parameters "kafka_lag_threshold" (VInt 5000) with
  | Some (VStr service), VInt window, VFloat latency, VInt kafka_lag =>
      Some {| McpServer.da_service_name := service;
              McpServer.da_time_window_minutes := window;
              McpServer.da_latency_threshold_ms := latency;
              McpServer.da_kafka_lag_threshold := kafka_lag |}
  | _, _, _, _ => None
  end.

Definition predict_request (parameters : dict) : option McpServer.PredictRiskRequest :=
  match dict_lookup parameters "service_name", dict_lookup parameters "metrics" with
  | Some (VStr service), Some (VDict metrics) =>
      Some {| McpServer.pr_service_name := service; McpServer.pr_metrics := metrics |}
  | _, _ => None
  end.

(** A deployment in which the POSTs of the agent reach the endpoints of
    [mcp_server.py] running against [tenv]; the controller endpoints answer
    [scaled] and [verified]. A request that does not validate, and an
    endpoint that raises, reach the agent as an HTTP error. *)
Definition deployment (tenv : Env.ToolEnv) (scaled verified : RootAgent.http_outcome)
  : list RootAgent.event -> string -> dict -> RootAgent.http_outcome :=
  fun _ url parameters =>
    if String.eqb url "http://localhost:8080/tools/detect_anomaly" then
      match detect_request parameters with
      | Some request =>
          match McpServer.detect_anomaly tenv request with
          | McpServer.Body d => RootAgent.Json (VDict d)
          | McpServer.HTTPException _ detail =>
              RootAgent.HTTPError
                ("Server error '500 Internal Server Error': " ++ detail)
          end
      | None => RootAgent.HTTPError "Client error '422 Unprocessable Entity'"
      end
    else if String.eqb url "http://localhost:8080/tools/predict_risk" then
      match predict_request parameters with
      | Some request => RootAgent.Json (VDict (McpServer.predict_risk tenv request))
      | None => RootAgent.HTTPError "Client error '422 Unprocessable Entity'"
      end
    else if String.eqb url "http://localhost:8080/tools/scale_service" then scaled
    else if String.eqb url "http://localhost:8080/tools/verify_health" then verified
    else RootAgent.HTTPError "Client error '404 Not Found'".

Definition scaled_ok : RootAgent.http_outcome :=
  RootAgent.Json (VDict [ ("success", VBool true);
                          ("service", VStr "user-api");
                          ("action", VStr "scaled") ]).

Definition verified_ready : RootAgent.http_outcome :=
  RootAgent.Json (VDict [ ("success", VBool true);
                          ("service", VStr "user-api");
                          ("ready", VBool true) ]).

(** The end-to-end scenario of the design: a degraded [user-api], a model
    that answers [scale_up] at risk 90, a controller that scales. *)
Definition degraded_deployment : RootAgent.AgentEnv :=
  agent_env
    (deployment
       (tool_env (inr [degraded_row]) (inr scale_up_reply) loads_scenario)
       scaled_ok verified_ready).

(** A deployment whose window holds no row for the service. *)
Definition quiet_deployment : RootAgent.AgentEnv :=
  agent_env
    (deployment (tool_env (inr []) (inr scale_up_reply) no_json) scaled_ok verified_ready).

(** A deployment in which only detection works: the model is unreachable
    and the controller endpoints are down. *)
Definition failing_deployment : RootAgent.AgentEnv :=
  agent_env
    (deployment
       (tool_env (inr [degraded_row])
          (raise (OtherError "ServiceUnavailable") "503 model unavailable") no_json)
       (RootAgent.HTTPError "Server error '500 Internal Server Error'")
       (RootAgent.HTTPError "Server error '500 Internal Server Error'")).

(** An agent that has not run yet. *)
Definition fresh_agent : RootAgent.agent :=
  {| RootAgent.healing_history := []; RootAgent.events := [] |}.

(** An agent with three incidents in its history. *)
Definition incident (service : string) : dict :=
  [ ("success", VBool true); ("service", VStr service) ].

Definition seasoned_agent : RootAgent.agent :=
  {| RootAgent.healing_history :=
       [incident "user-api"; incident "payment-service"; incident "order-api"];
     RootAgent.events := [] |}.

End Samples.

(* ================================================================== *)
(** * What the controller tools run against *)
(* ================================================================== *)

Module Cloud.
Import Py.

(** [subprocess.CompletedProcess], the output captured as text. *)
Record CompletedProcess : Type := {
  returncode : Z;
  stdout : string;
  stderr : string
}.

(** The collaborators of one call of a controller tool. *)
Record CloudEnv : Type := {
  (** the module constant [PROJECT_ID] *)
  PROJECT_ID : string;
  (** [os.getenv(name)] *)
  getenv : string -> option string;
  (** [subprocess.run(cmd, capture_output=True, text=True, timeout=t)], or
      the exception it raises: [TimeoutExpired], [FileNotFoundError] when
      there is no [gcloud], or another one *)
  subprocess_run : list string -> Z -> result CompletedProcess;
  (** the [n]-th reading of the clock during the call *)
  utcnow : nat -> Z;
  (** [isoformat] of a naive moment ([datetime.utcnow()]) and of an aware
      one ([datetime.now(timezone.utc)]) *)
  isoformat : Z -> string;
  isoformat_aware : Z -> string;
  (** [int(moment.timestamp())] *)
  timestamp : Z -> Z;
  (** [json.loads] *)
  json_loads : string -> result value
}.

(** [os.getenv(name, default)] *)
Definition getenv_default (env : CloudEnv) (name default : string) : string :=
  match getenv env name with
  | Some v => v
  | None => default
  end.

(** [a or b] on strings *)
Definition or_else (a b : string) : string :=
  if String.eqb a "" then b else a.

(** [type(e).__name__ == name]: the [except] clause for a class that
    has no subclass among the exceptions of [subprocess.run]. *)
Definition is_a (e : exn) (name : string) : bool :=
  String.eqb (class_name (exc_type e)) name.

(** [v[0]] *)
Definition py_index0 (v : value) : result value :=
  match v with
  | VList [] => raise (OtherError "IndexError") "list index out of range"
  | VList (x :: _) => ret x
  | VStr EmptyString => raise (OtherError "IndexError") "string index out of range"
  | VStr (String a _) => ret (VStr (String a ""))
  | VDict _ => raise (OtherError "KeyError") "0"
  | _ => raise TypeError ("'" ++ type_name v ++ "' object is not subscriptable")
  end.

(** [iter(v)], as the list of what it yields *)
Definition py_iter (v : value) : result (list value) :=
  match v with
  | VList l => ret l
  | VStr s => ret (map (fun a => VStr (String a "")) (list_ascii_of_string s))
  | VDict d => ret (map (fun kv => VStr (fst kv)) d)
  | _ => raise TypeError ("'" ++ type_name v ++ "' object is not iterable")
  end.

End Cloud.

(* ================================================================== *)
(** * mcp_tools.py: the controller tools *)
(* ================================================================== *)

Module McpToolsOps.
Import Py Cloud.

#[local] Notation "x <- m ;; k" := (bind m (fun x => k))
  (at level 61, m at next level, right associativity).

Section Tools.
Context (env : CloudEnv).

(** [region] *)
Definition region : string := getenv_default env "CLOUD_RUN_REGION" "europe-west1".

(** The [cmd] of [scale_service]. *)
Definition scale_service_cmd (service_name : string) (min_instances max_instances : Z)
  : list string :=
  [ "gcloud"; "run"; "services"; "update"; service_name;
    "--region"; region;
    "--min-instances"; str_int min_instances;
    "--max-instances"; str_int max_instances;
    "--cpu-throttling";
    "--project"; PROJECT_ID env;
    "--format"; "json";
    "--quiet" ].

(** [scale_service]: the [try] block and its three handlers. *)
Definition scale_service (service_name : string)
    (min_instances max_instances target_cpu_utilization : Z) : dict :=
  let cmd := scale_service_cmd service_name min_instances max_instances in
  match subprocess_run env cmd 60 with
  | inr result =>
      if returncode result =? 0
      then
        [ ("success", VBool true);
          ("service", VStr service_name);
          ("action", VStr "scaled");
          ("configuration",
           VDict [ ("min_instances", VInt min_instances);
                   ("max_instances", VInt max_instances);
                   ("target_cpu_utilization", VInt target_cpu_utilization);
                   ("region", VStr region) ]);
          ("message",
           VStr ("Successfully scaled " ++ service_name ++ " to min="
                   ++ str_int min_instances ++ ", max=" ++ str_int max_instances));
          ("timestamp", VStr (isoformat env (utcnow env 0))) ]
      else
        let error_msg := or_else (stderr result) (or_else (stdout result) "Unknown error") in
        [ ("success", VBool false);
          ("service", VStr service_name);
          ("action", VStr "scale_failed");
          ("error", VStr error_msg);
          ("message", VStr ("Failed to scale " ++ service_name ++ ": " ++ error_msg));
          ("timestamp", VStr (isoformat env (utcnow env 0))) ]
  | inl e =>
      if is_a e "TimeoutExpired"
      then
        [ ("success", VBool false);
          ("service", VStr service_name);
          ("action", VStr "scale_timeout");
          ("error", VStr "Command timeout after 60 seconds");
          ("message", VStr ("Scaling operation for " ++ service_name ++ " timed out"));
          ("timestamp", VStr (isoformat env (utcnow env 0))) ]
      else if is_a e "FileNotFoundError"
      then
        [ ("success", VBool false);
          ("service", VStr service_name);
          ("action", VStr "scale_failed");
          ("error", VStr "gcloud CLI not found");
          ("message",
           VStr "gcloud CLI not installed. Install from https://cloud.google.com/sdk/docs/install");
          ("timestamp", VStr (isoformat env (utcnow env 0))) ]
      else
        [ ("success", VBool false);
          ("service", VStr service_name);
          ("action", VStr "scale_failed");
          ("error", VStr (str_exn e));
          ("message",
           VStr ("Unexpected error scaling " ++ service_name ++ ": " ++ str_exn e));
          ("timestamp", VStr (isoformat env (utcnow env 0))) ]
  end.

(** The [cmd] of [restart_service]; the clock is read for the label. *)
Definition restart_service_cmd (service_name : string) : list string :=
  [ "gcloud"; "run"; "services"; "update"; service_name;
    "--region"; region;
    "--update-labels";
    "restart-timestamp=" ++ str_int (timestamp env (utcnow env 0));
    "--project"; PROJECT_ID env;
    "--format"; "json";
    "--quiet" ].

(** [restart_service] *)
Definition restart_service (service_name : string) : dict :=
  match subprocess_run env (restart_service_cmd service_name) 60 with
  | inr result =>
      if returncode result =? 0
      then
        [ ("success", VBool true);
          ("service", VStr service_name);
          ("action", VStr "restarted");
          ("message",
           VStr ("Successfully restarted " ++ service_name
                   ++ " by deploying new revision"));
          ("timestamp", VStr (isoformat env (utcnow env 1))) ]
      else
        [ ("success", VBool false);
          ("service", VStr service_name);
          ("action", VStr "restart_failed");
          ("error", VStr (or_else (stderr result) "Unknown error"));
          ("timestamp", VStr (isoformat env (utcnow env 1))) ]
  | inl e =>
      [ ("success", VBool false);
        ("service", VStr service_name);
        ("action", VStr "restart_failed");
        ("error", VStr (str_exn e));
        ("timestamp", VStr (isoformat env (utcnow env 1))) ]
  end.

(** The [cmd] of [verify_health]. *)
Definition verify_health_cmd (service_name : string) : list string :=
  [ "gcloud"; "run"; "services"; "describe"; service_name;
    "--region"; region;
    "--project"; PROJECT_ID env;
    "--format"; "json" ].

(** [spec.get("template", {}).get("metadata", {}).get("annotations", {}).get(key)] *)
Definition annotation (spec : value) (key : string) : result value :=
  template <- py_get spec "template" (VDict []) ;;
  metadata <- py_get template "metadata" (VDict []) ;;
  annotations <- py_get metadata "annotations" (VDict []) ;;
  py_get annotations key VNone.

(** The [try] block of [verify_health]. *)
Definition verify_health_try (service_name : string) : result dict :=
  result <- subprocess_run env (verify_health_cmd service_name) 30 ;;
  if returncode result =? 0
  then
    service_info <- json_loads env (stdout result) ;;
    metadata <- py_get service_info "metadata" (VDict []) ;;
    spec <- py_get service_info "spec" (VDict []) ;;
    status <- py_get service_info "status" (VDict []) ;;
    url <- py_get status "url" VNone ;;
    conditions <- py_get status "conditions" (VList [VDict []]) ;;
    condition <- py_index0 conditions ;;
    condition_status <- py_get condition "status" VNone ;;
    latest_revision <- py_get status "latestReadyRevisionName" VNone ;;
    traffic <- py_get status "traffic" (VList []) ;;
    min_scale <- annotation spec "autoscaling.knative.dev/minScale" ;;
    max_scale <- annotation spec "autoscaling.knative.dev/maxScale" ;;
    ret [ ("success", VBool true);
          ("service", VStr service_name);
          ("url", url);
          ("ready", VBool (RootAgent.eq_str condition_status "True"));
          ("latest_revision", latest_revision);
          ("traffic", traffic);
          ("scaling", VDict [ ("min_instances", min_scale);
                              ("max_instances", max_scale) ]);
          ("timestamp", VStr (isoformat env (utcnow env 0))) ]
  else
    ret [ ("success", VBool false);
          ("service", VStr service_name);
          ("error", VStr (or_else (stderr result) "Service not found"));
          ("timestamp", VStr (isoformat env (utcnow env 0))) ].

(** [verify_health]: every exception becomes a failure result. *)
Definition verify_health (service_name : string) : dict :=
  match verify_health_try service_name with
  | inr r => r
  | inl e =>
      [ ("success", VBool false);
        ("service", VStr service_name);
        ("error", VStr (str_exn e));
        ("timestamp", VStr (isoformat env (utcnow env 0))) ]
  end.

End Tools.
End McpToolsOps.

(* ================================================================== *)
(** * mcp_server.py: the controller endpoints *)
(* ================================================================== *)

Module McpServerOps.
Import Py Cloud.

#[local] Notation "x <- m ;; k" := (bind m (fun x => k))
  (at level 61, m at next level, right associativity).

(** [ScaleServiceRequest] *)
Record ScaleServiceRequest : Type := {
  ss_service_name : string;
  ss_min_instances : Z;
  ss_max_instances : Z;
  ss_target_cpu_utilization : Z
}.

(** [RestartServiceRequest] *)
Record RestartServiceRequest : Type := {
  rs_service_name : string
}.

(** [VerifyHealthRequest] *)
Record VerifyHealthRequest : Type := {
  vh_service_name : string
}.

Section Server.
Context (env : CloudEnv).

(** [project_id] and [region] *)
Definition project_id : string := getenv_default env "GCP_PROJECT_ID" (PROJECT_ID env).

Definition region : string := getenv_default env "CLOUD_RUN_REGION" "europe-west1".

(** The [cmd] of the [/tools/scale_service] endpoint. *)
Definition scale_service_cmd (request : ScaleServiceRequest) : list string :=
  [ "gcloud"; "run"; "services"; "update"; ss_service_name request;
    "--region"; region;
    "--project"; project_id;
    "--min-instances"; str_int (ss_min_instances request);
    "--max-instances"; str_int (ss_max_instances request);
    "--cpu-throttling";
    "--format"; "json" ].

(** The [/tools/scale_service] endpoint. *)
Definition scale_service (request : ScaleServiceRequest) : McpServer.response :=
  match subprocess_run env (scale_service_cmd request) 60 with
  | inr result =>
      if returncode result =? 0
      then
        McpServer.Body
          [ ("success", VBool true);
            ("service", VStr (ss_service_name request));
            ("action", VStr "scaled");
            ("min_instances", VInt (ss_min_instances request));
            ("max_instances", VInt (ss_max_instances request));
            ("region", VStr region);
            ("timestamp", VStr (isoformat_aware env (utcnow env 0))) ]
      else
        McpServer.Body
          [ ("success", VBool false);
            ("service", VStr (ss_service_name request));
            ("error", VStr (stderr result));
            ("timestamp", VStr (isoformat_aware env (utcnow env 0))) ]
  | inl e => McpServer.HTTPException 500 (str_exn e)
  end.

(** The [cmd] of the [/tools/restart_service] endpoint; the clock is read
    for the variable. *)
Definition restart_service_cmd (request : RestartServiceRequest) : list string :=
  [ "gcloud"; "run"; "services"; "update"; rs_service_name request;
    "--region"; region;
    "--project"; project_id;
    "--update-env-vars"; "RESTART_TIME=" ++ isoformat_aware env (utcnow env 0);
    "--format"; "json" ].

(** The [/tools/restart_service] endpoint. *)
Definition restart_service (request : RestartServiceRequest) : McpServer.response :=
  match subprocess_run env (restart_service_cmd request) 60 with
  | inr result =>
      if returncode result =? 0
      then
        McpServer.Body
          [ ("success", VBool true);
            ("service", VStr (rs_service_name request));
            ("action", VStr "restarted");
            ("region", VStr region);
            ("timestamp", VStr (isoformat_aware env (utcnow env 1))) ]
      else
        McpServer.Body
          [ ("success", VBool false);
            ("service", VStr (rs_service_name request));
            ("error", VStr (stderr result));
            ("timestamp", VStr (isoformat_aware env (utcnow env 1))) ]
  | inl e => McpServer.HTTPException 500 (str_exn e)
  end.

(** The [cmd] of the [/tools/verify_health] endpoint. *)
Definition verify_health_cmd (request : VerifyHealthRequest) : list string :=
  [ "gcloud"; "run"; "services"; "describe"; vh_service_name request;
    "--region"; region;
    "--project"; project_id;
    "--format"; "json" ].

(** [any(c.get("type") == "Ready" and c.get("status") == "True" for c in
    conditions)]: the conditions are looked at in turn, up to the first
    that is ready. *)
Fixpoint any_ready (conditions : list value) : result bool :=
  match conditions with
  | [] => ret false
  | c :: conditions' =>
      type <- py_get c "type" VNone ;;
      if RootAgent.eq_str type "Ready"
      then
        status <- py_get c "status" VNone ;;
        if RootAgent.eq_str status "True" then ret true else any_ready conditions'
      else any_ready conditions'
  end.

(** The [try] block of the [/tools/verify_health] endpoint. *)
Definition verify_health_endpoint_try (request : VerifyHealthRequest) : result dict :=
  result <- subprocess_run env (verify_health_cmd request) 30 ;;
  if returncode result =? 0
  then
    service_info <- json_loads env (stdout result) ;;
    status <- py_get service_info "status" (VDict []) ;;
    conditions <- py_get status "conditions" (VList []) ;;
    each <- py_iter conditions ;;
    ready <- any_ready each ;;
    status' <- py_get service_info "status" (VDict []) ;;
    url <- py_get status' "url" VNone ;;
    ret [ ("success", VBool true);
          ("service", VStr (vh_service_name request));
          ("ready", VBool ready);
          ("url", url);
          ("region", VStr region);
          ("conditions", conditions);
          ("timestamp", VStr (isoformat_aware env (utcnow env 0))) ]
  else
    ret [ ("success", VBool false);
          ("service", VStr (vh_service_name request));
          ("error", VStr (stderr result));
          ("timestamp", VStr (isoformat_aware env (utcnow env 0))) ].

(** The endpoint: every exception becomes an HTTP 500. *)
Definition verify_health_endpoint (request : VerifyHealthRequest) : McpServer.response :=
  match verify_health_endpoint_try request with
  | inr r => McpServer.Body r
  | inl e => McpServer.HTTPException 500 (str_exn e)
  end.

End Server.
End McpServerOps.

(* ================================================================== *)
(** * What the metric tools run against *)
(* ================================================================== *)

Module Store.
Import Py.

(** One row of the metrics table as [get_metrics] selects it; a column
    may hold [NULL]. [request_count] is selected by the endpoint only. *)
Record Metric : Type := {
  timestamp : option Z;
  service_id : option string;
  latency_ms : option float;
  kafka_lag : option Z;
  status : option string;
  error_rate : option float;
  cpu_usage : option float;
  memory_usage : option float;
  request_count : option Z
}.

(** The collaborators of one call of [get_metrics] or [ingest_metrics]. *)
Record StoreEnv : Type := {
  (** [BIGQUERY_TABLE] *)
  bigquery_table : string;
  (** [list(bq_client.query(query, job_config).result())] for the service
      and the limit given, or the exception the client raises *)
  query_metrics : string -> Z -> result (list Metric);
  (** [httpx.get(url, timeout=10.0)], [raise_for_status] and
      [response.json()] *)
  http_get : string -> RootAgent.http_outcome;
  (** [bq_client.insert_rows_json(table, rows)]: the errors of the rows *)
  insert_rows_json : string -> list dict -> result (list value);
  (** the [n]-th reading of the clock during the call *)
  utcnow : nat -> Z;
  (** [isoformat] of a naive moment and of an aware one *)
  isoformat : Z -> string;
  isoformat_aware : Z -> string;
  (** [float(s)] and [int(s)] for a string *)
  float_of_str : string -> result float;
  int_of_str : string -> result Z;
  (** [str(v)] for an object that is not a string *)
  str_object : value -> string
}.

(** [float(n)] for an int *)
Definition float_of_int (n : Z) : result float :=
  let x := float_of_Z n in
  if PrimFloat.is_infinity x
  then raise OverflowError "int too large to convert to float"
  else ret x.

(** [int(x)] for a float: towards zero *)
Definition int_of_float (x : float) : result Z :=
  match Prim2SF x with
  | S754_nan => raise (OtherError "ValueError") "cannot convert float NaN to integer"
  | S754_infinity _ => raise OverflowError "cannot convert float infinity to integer"
  | S754_zero _ => ret 0
  | S754_finite s m e =>
      let magnitude := if 0 <=? e then Z.pos m * 2 ^ e else Z.pos m / 2 ^ (- e) in
      ret (if s then - magnitude else magnitude)
  end.

(** [float(v)] *)
Definition py_float (env : StoreEnv) (v : value) : result float :=
  match v with
  | VBool b => ret (if b then 1%float else 0%float)
  | VInt n => float_of_int n
  | VFloat x => ret x
  | VStr s => float_of_str env s
  | _ => raise TypeError
           ("float() argument must be a string or a real number, not '"
              ++ type_name v ++ "'")
  end.

(** [int(v)] *)
Definition py_int (env : StoreEnv) (v : value) : result Z :=
  match v with
  | VBool b => ret (Z.b2z b)
  | VInt n => ret n
  | VFloat x => int_of_float x
  | VStr s => int_of_str env s
  | _ => raise TypeError
           ("int() argument must be a string, a bytes-like object or a real number, not '"
              ++ type_name v ++ "'")
  end.

(** A nullable string column as an object. *)
Definition nullable_str (s : option string) : value :=
  match s with
  | Some s => VStr s
  | None => VNone
  end.

(** A float column is not [NULL] and not zero. *)
Definition float_truthy (x : option float) : bool :=
  match x with
  | Some f => negb (PrimFloat.eqb f 0%float)
  | None => false
  end.

(** [int(n or 0)], and [int(n) if n else 0], for a nullable integer
    column *)
Definition int_or_0 (n : option Z) : Z :=
  match n with
  | Some z => z
  | None => 0
  end.

End Store.

(* ================================================================== *)
(** * mcp_tools.py: the metric tools *)
(* ================================================================== *)

Module McpToolsStore.
Import Py Store.

#[local] Notation "x <- m ;; k" := (bind m (fun x => k))
  (at level 61, m at next level, right associativity).

Section Tools.
Context (env : StoreEnv).

(** [float(x) if x else 0] for a float column *)
Definition float_if (x : option float) : value :=
  match x with
  | Some f => if float_truthy x then VFloat f else VInt 0
  | None => VInt 0
  end.

(** The dictionary that [get_metrics] makes of a row. *)
Definition metric_entry (row : Metric) : dict :=
  [ ("timestamp",
     match timestamp row with
     | Some t => VStr (isoformat_aware env t)
     | None => VNone
     end);
    ("service_id", nullable_str (service_id row));
    ("latency_ms", float_if (latency_ms row));
    ("kafka_lag", VInt (int_or_0 (kafka_lag row)));
    ("status", nullable_str (status row));
    ("error_rate", float_if (error_rate row));
    ("cpu_usage", float_if (cpu_usage row));
    ("memory_usage", float_if (memory_usage row)) ].

(** [get_metrics] *)
Definition get_metrics (service_name : string) (limit : Z) : dict :=
  match query_metrics env service_name limit with
  | inr [] =>
      [ ("service", VStr service_name);
        ("metrics", VList []);
        ("count", VInt 0);
        ("message", VStr "No recent metrics found") ]
  | inr results =>
      let metrics := map (fun row => VDict (metric_entry row)) results in
      [ ("service", VStr service_name);
        ("metrics", VList metrics);
        ("count", VInt (Z.of_nat (List.length metrics)));
        ("message",
         VStr ("Retrieved " ++ str_int (Z.of_nat (List.length metrics))
                 ++ " recent metric entries")) ]
  | inl e =>
      [ ("service", VStr service_name);
        ("metrics", VList []);
        ("count", VInt 0);
        ("error", VStr (str_exn e)) ]
  end.

(** The [row] that [ingest_metrics] makes of the metrics it polled. *)
Definition ingest_row (service_name : string) (metrics_data : value) : result dict :=
  let timestamp := isoformat env (utcnow env 0) in
  latency_ms <- (v <- py_get metrics_data "latency_ms" (VInt 0) ;; py_float env v) ;;
  kafka_lag <- (v <- py_get metrics_data "kafka_lag" (VInt 0) ;; py_int env v) ;;
  degraded <- (v <- py_get metrics_data "latency_ms" (VInt 0) ;; py_gt_int v 500) ;;
  error_rate <- (v <- py_get metrics_data "error_rate" (VInt 0) ;; py_float env v) ;;
  cpu_usage <- (v <- py_get metrics_data "cpu_usage" (VInt 0) ;; py_float env v) ;;
  memory_usage <- (v <- py_get metrics_data "memory_usage" (VInt 0) ;; py_float env v) ;;
  request_count <- (v <- py_get metrics_data "request_count" (VInt 0) ;; py_int env v) ;;
  ret [ ("timestamp", VStr timestamp);
        ("service_id", VStr service_name);
        ("latency_ms", VFloat latency_ms);
        ("kafka_lag", VInt kafka_lag);
        ("status", VStr (if degraded then "DEGRADED" else "OK"));
        ("error_rate", VFloat error_rate);
        ("cpu_usage", VFloat cpu_usage);
        ("memory_usage", VFloat memory_usage);
        ("request_count", VInt request_count) ].

(** The result of the handler of [ingest_metrics] for an HTTP error of
    the poll, and of the one for any other exception. *)
Definition ingest_http_error (service_url service_name msg : string) : dict :=
  [ ("success", VBool false);
    ("service", VStr service_name);
    ("error", VStr msg);
    ("message", VStr ("HTTP error polling " ++ service_url ++ "/metrics: " ++ msg)) ].

Definition ingest_failed (service_name : string) (e : exn) : dict :=
  [ ("success", VBool false);
    ("service", VStr service_name);
    ("error", VStr (str_exn e));
    ("message", VStr ("Error ingesting metrics: " ++ str_exn e)) ].

(** [ingest_metrics] *)
Definition ingest_metrics (service_url service_name : string) : dict :=
  match http_get env (service_url ++ "/metrics") with
  | RootAgent.HTTPError msg => ingest_http_error service_url service_name msg
  | RootAgent.Raised e => ingest_failed service_name e
  | RootAgent.Json metrics_data =>
      match ingest_row service_name metrics_data with
      | inl e => ingest_failed service_name e
      | inr row =>
          match insert_rows_json env (bigquery_table env) [row] with
          | inl e => ingest_failed service_name e
          | inr [] =>
              [ ("success", VBool true);
                ("service", VStr service_name);
                ("rows_inserted", VInt 1);
                ("timestamp", dict_get row "timestamp" VNone);
                ("message",
                 VStr ("Successfully ingested metrics for " ++ service_name)) ]
          | inr errors =>
              [ ("success", VBool false);
                ("service", VStr service_name);
                ("errors", VList errors);
                ("message",
                 VStr ("Failed to insert metrics: " ++ str_object env (VList errors))) ]
          end
      end
  end.

End Tools.
End McpToolsStore.

(* ================================================================== *)
(** * mcp_server.py: the metric endpoints *)
(* ================================================================== *)

Module McpServerStore.
Import Py Store.

#[local] Notation "x <- m ;; k" := (bind m (fun x => k))
  (at level 61, m at next level, right associativity).

Section Server.
Context (env : StoreEnv).

(** [float(x or 0)] for a float column *)
Definition float_or (x : option float) : float :=
  match x with
  | Some f => if float_truthy x then f else 0%float
  | None => 0%float
  end.

(** The dictionary that the [/tools/get_metrics] endpoint makes of a
    row. *)
Definition metric_entry (row : Metric) : dict :=
  [ ("timestamp",
     match timestamp row with
     | Some t => VStr (isoformat_aware env t)
     | None => VNone
     end);
    ("service_id", nullable_str (service_id row));
    ("latency_ms", VFloat (float_or (latency_ms row)));
    ("kafka_lag", VInt (int_or_0 (kafka_lag row)));
    ("status", nullable_str (status row));
    ("error_rate", VFloat (float_or (error_rate row)));
    ("cpu_usage", VFloat (float_or (cpu_usage row)));
    ("memory_usage", VFloat (float_or (memory_usage row)));
    ("request_count", VInt (int_or_0 (request_count row))) ].

(** The [/tools/get_metrics] endpoint. *)
Definition get_metrics (service_name : string) (limit : Z) : McpServer.response :=
  match query_metrics env service_name limit with
  | inr results =>
      let metrics := map (fun row => VDict (metric_entry row)) results in
      McpServer.Body
        [ ("success", VBool true);
          ("service", VStr service_name);
          ("count", VInt (Z.of_nat (List.length metrics)));
          ("metrics", VList metrics) ]
  | inl e => McpServer.HTTPException 500 (str_exn e)
  end.

(** The [row] that the [/tools/ingest_metrics] endpoint makes of the
    metrics it polled. *)
Definition ingest_row (service_name : string) (metrics_data : value) : result dict :=
  let timestamp := isoformat_aware env (utcnow env 0) in
  latency_ms <- (v <- py_get metrics_data "latency_ms" (VInt 0) ;; py_float env v) ;;
  kafka_lag <- (v <- py_get metrics_data "kafka_lag" (VInt 0) ;; py_int env v) ;;
  degraded <- (v <- py_get metrics_data "latency_ms" (VInt 0) ;; py_gt_int v 500) ;;
  error_rate <- (v <- py_get metrics_data "error_rate" (VInt 0) ;; py_float env v) ;;
  cpu_usage <- (v <- py_get metrics_data "cpu_usage" (VInt 0) ;; py_float env v) ;;
  memory_usage <- (v <- py_get metrics_data "memory_usage" (VInt 0) ;; py_float env v) ;;
  request_count <- (v <- py_get metrics_data "request_count" (VInt 0) ;; py_int env v) ;;
  ret [ ("timestamp", VStr timestamp);
        ("service_id", VStr service_name);
        ("latency_ms", VFloat latency_ms);
        ("kafka_lag", VInt kafka_lag);
        ("status", VStr (if degraded then "DEGRADED" else "OK"));
        ("error_rate", VFloat error_rate);
        ("cpu_usage", VFloat cpu_usage);
        ("memory_usage", VFloat memory_usage);
        ("request_count", VInt request_count) ].

(** The [try] block of the [/tools/ingest_metrics] endpoint. *)
Definition ingest_metrics_try (service_url service_name : string) : result dict :=
  metrics_data <-
    match http_get env (service_url ++ "/metrics") with
    | RootAgent.HTTPError msg => raise (OtherError "HTTPError") msg
    | RootAgent.Raised e => inl e
    | RootAgent.Json metrics_data => ret metrics_data
    end ;;
  row <- ingest_row service_name metrics_data ;;
  errors <- insert_rows_json env (bigquery_table env) [row] ;;
  match errors with
  | [] =>
      ret [ ("success", VBool true);
            ("service", VStr service_name);
            ("rows_inserted", VInt 1);
            ("timestamp", dict_get row "timestamp" VNone);
            ("message", VStr ("Successfully ingested metrics for " ++ service_name)) ]
  | _ =>
      ret [ ("success", VBool false);
            ("service", VStr service_name);
            ("errors", VList errors);
            ("message",
             VStr ("Failed to insert metrics: " ++ str_object env (VList errors))) ]
  end.

(** The endpoint: every exception becomes an HTTP 500. *)
Definition ingest_metrics (service_url service_name : string) : McpServer.response :=
  match ingest_metrics_try service_url service_name with
  | inr r => McpServer.Body r
  | inl e => McpServer.HTTPException 500 (str_exn e)
  end.

End Server.
End McpServerStore.

(* ================================================================== *)
(** * Further sample collaborators *)
(* ================================================================== *)

Module MoreSamples.
Import Py Samples.

(** A deployment whose metrics table does not exist. *)
Definition missing_table_deployment : RootAgent.AgentEnv :=
  agent_env
    (deployment
       (tool_env (raise NotFound "404 Not found: Table metrics")
          (inr scale_up_reply) loads_scenario)
       scaled_ok verified_ready).

(** The degraded deployment with another answer to the POSTs to
    [predict_risk]. *)
Definition predicting (answer : RootAgent.http_outcome) : RootAgent.AgentEnv :=
  agent_env
    (fun before url parameters =>
       if String.eqb url "http://localhost:8080/tools/predict_risk"
       then answer
       else deployment
              (tool_env (inr [degraded_row]) (inr scale_up_reply) loads_scenario)
              scaled_ok verified_ready before url parameters).

(** A deployment without the [predict_risk] endpoint. *)
Definition no_predictor_deployment : RootAgent.AgentEnv :=
  predicting (RootAgent.HTTPError "Client error '404 Not Found'").

(** A deployment whose model recommends a scale-up and words the risk. *)
Definition worded_risk_deployment : RootAgent.AgentEnv :=
  predicting
    (RootAgent.Json
       (VDict [ ("success", VBool true);
                ("risk_score", VStr "high");
                ("root_cause", VStr "Traffic spike");
                ("recommended_action", VStr "scale_out") ])).

(** A deployment whose model recommends the alias [scale_out]. *)
Definition alias_deployment : RootAgent.AgentEnv :=
  predicting
    (RootAgent.Json
       (VDict [ ("success", VBool true);
                ("risk_score", VInt 60);
                ("root_cause", VStr "Traffic spike");
                ("recommended_action", VStr "scale_out") ])).

(** A model whose response carries a [success] and a [service] of its
    own. *)
Definition overriding_reply : string :=
  "{" ++ dq ++ "success" ++ dq ++ ": false, "
      ++ dq ++ "service" ++ dq ++ ": " ++ dq ++ "billing" ++ dq ++ ", "
      ++ dq ++ "risk_score" ++ dq ++ ": 90}".

Definition overriding_prediction : dict :=
  [ ("success", VBool false); ("service", VStr "billing"); ("risk_score", VInt 90) ].

Definition overriding_env : Env.ToolEnv :=
  tool_env (inr [degraded_row]) (inr overriding_reply)
    (fun text =>
       if String.eqb text overriding_reply then ret (VDict overriding_prediction)
       else no_json text).




(** A service description with the condition [Ready] first, one with
    another condition first, and one with no condition. *)
Definition condition (type status : string) : dict :=
  [ ("type", VStr type); ("status", VStr status) ].

Definition description (conditions : list dict) : value :=
  VDict [ ("metadata", VDict [ ("name", VStr "user-api") ]);
          ("status",
           VDict [ ("url", VStr "https://user-api.run.app");
                   ("conditions", VList (map VDict conditions)) ]) ].

Definition rolling_out : list dict :=
  [ condition "ConfigurationsReady" "True";
    condition "Ready" "Unknown";
    condition "RoutesReady" "Unknown" ].

Definition serving : list dict :=
  [ condition "Ready" "True";
    condition "ConfigurationsReady" "True";
    condition "RoutesReady" "True" ].

(** A controller environment around the outcomes of the two kinds of
    command: [update] for a scale or a restart, [describe] for a
    verification, whose output parses to [service_info]. The rendering
    is simplified: a moment as its number of microseconds. *)
Definition exited (code : Z) (out err : string) : Cloud.CompletedProcess :=
  {| Cloud.returncode := code; Cloud.stdout := out; Cloud.stderr := err |}.

Definition cloud_env (update describe : result Cloud.CompletedProcess)
    (service_info : result value) : Cloud.CloudEnv :=
  {| Cloud.PROJECT_ID := "bnb-marathon-478505";
     Cloud.getenv := fun _ => None;
     Cloud.subprocess_run :=
       fun cmd _ =>
         match nth_error cmd 3 with
         | Some verb => if String.eqb verb "describe" then describe else update
         | None => update
         end;
     Cloud.utcnow := fun n => new_year_2025 + Z.of_nat n;
     Cloud.isoformat := str_int;
     Cloud.isoformat_aware := fun t => str_int t ++ "+00:00";
     Cloud.timestamp := fun t => t / 1000000 - 719162 * 86400;
     Cloud.json_loads := fun _ => service_info |}.

(** A controller whose commands succeed, on a service with the given
    conditions. *)
Definition controller (conditions : list dict) : Cloud.CloudEnv :=
  cloud_env (inr (exited 0 "{}" "")) (inr (exited 0 "{...}" ""))
    (inr (description conditions)).

(** The request models of the controller endpoints, read from the JSON
    body of a POST. *)
Definition scale_request_of (parameters : dict)
  : option McpServerOps.ScaleServiceRequest :=
  match dict_lookup parameters "service_name",
        dict_get parameters "min_instances" (VInt 1),
        dict_get parameters "max_instances" (VInt 10),
        dict_get parameters "target_cpu_utilization" (VInt 70) with
  | Some (VStr service), VInt min_instances, VInt max_instances, VInt target =>
      Some {| McpServerOps.ss_service_name := service;
              McpServerOps.ss_min_instances := min_instances;
              McpServerOps.ss_max_instances := max_instances;
              McpServerOps.ss_target_cpu_utilization := target |}
  | _, _, _, _ => None
  end.

Definition verify_request_of (parameters : dict)
  : option McpServerOps.VerifyHealthRequest :=
  match dict_lookup parameters "service_name" with
  | Some (VStr service) => Some {| McpServerOps.vh_service_name := service |}
  | _ => None
  end.

Definition restart_request_of (parameters : dict)
  : option McpServerOps.RestartServiceRequest :=
  match dict_lookup parameters "service_name" with
  | Some (VStr service) => Some {| McpServerOps.rs_service_name := service |}
  | _ => None
  end.

(** What reaches the agent of the answer of an endpoint. *)
Definition served (r : McpServer.response) : RootAgent.http_outcome :=
  match r with
  | McpServer.Body body => RootAgent.Json (VDict body)
  | McpServer.HTTPException _ detail =>
      RootAgent.HTTPError ("Server error '500 Internal Server Error': " ++ detail)
  end.

(** The degraded deployment, with the POSTs to the controller answered by
    the endpoints of [mcp_server.py] running against [cenv]. *)
Definition controlled_deployment (cenv : Cloud.CloudEnv) : RootAgent.AgentEnv :=
  agent_env
    (fun before url parameters =>
       if String.eqb url "http://localhost:8080/tools/scale_service" then
         match scale_request_of parameters with
         | Some request => served (McpServerOps.scale_service cenv request)
         | None => RootAgent.HTTPError "Client error '422 Unprocessable Entity'"
         end
       else if String.eqb url "http://localhost:8080/tools/verify_health" then
         match verify_request_of parameters with
         | Some request => served (McpServerOps.verify_health_endpoint cenv request)
         | None => RootAgent.HTTPError "Client error '422 Unprocessable Entity'"
         end
       else if String.eqb url "http://localhost:8080/tools/restart_service" then
         match restart_request_of parameters with
         | Some request => served (McpServerOps.restart_service cenv request)
         | None => RootAgent.HTTPError "Client error '422 Unprocessable Entity'"
         end
       else deployment
              (tool_env (inr [degraded_row]) (inr scale_up_reply) loads_scenario)
              scaled_ok verified_ready before url parameters).

(** A controller that scales, and whose description command runs into
    its timeout. *)
Definition slow_controller : Cloud.CloudEnv :=
  cloud_env (inr (exited 0 "{}" ""))
    (raise (OtherError "TimeoutExpired") "Command timed out after 30 seconds")
    (inr (description serving)).

(** A host without [gcloud]. *)
Definition no_gcloud : Cloud.CloudEnv :=
  cloud_env
    (raise (OtherError "FileNotFoundError") "[Errno 2] No such file or directory: 'gcloud'")
    (raise (OtherError "FileNotFoundError") "[Errno 2] No such file or directory: 'gcloud'")
    (inr (description serving)).

(** A metric store around a query outcome, a poll outcome and the
    errors of an insert. The rendering is simplified: a moment as its
    number of microseconds, an object as the name of its type; of the
    strings only [600] is read as a number. *)
Definition store_env (rows : result (list Store.Metric))
    (polled : RootAgent.http_outcome) (errors : result (list value)) : Store.StoreEnv :=
  {| Store.bigquery_table := "bnb-marathon-478505.bnb_autohealer.metrics";
     Store.query_metrics := fun _ _ => rows;
     Store.http_get := fun _ => polled;
     Store.insert_rows_json := fun _ _ => errors;
     Store.utcnow := fun n => new_year_2025 + Z.of_nat n;
     Store.isoformat := str_int;
     Store.isoformat_aware := fun t => str_int t ++ "+00:00";
     Store.float_of_str :=
       fun s => if String.eqb s "600" then ret 600%float
                else raise (OtherError "ValueError")
                       ("could not convert string to float: '" ++ s ++ "'");
     Store.int_of_str :=
       fun s => if String.eqb s "600" then ret 600
                else raise (OtherError "ValueError")
                       ("invalid literal for int() with base 10: '" ++ s ++ "'");
     Store.str_object := type_name |}.

(** What the mock service answers to a poll, with the given latency. *)
Definition polled_metrics (latency : value) : value :=
  VDict [ ("latency_ms", latency);
          ("kafka_lag", VInt 1200);
          ("error_rate", VFloat 0.01%float);
          ("cpu_usage", VFloat 0.5%float);
          ("memory_usage", VFloat 0.25%float);
          ("request_count", VInt 1000) ].

(** A row of the metrics table with [NULL] in every nullable column. *)
Definition sparse_metric : Store.Metric :=
  {| Store.timestamp := Some new_year_2025;
     Store.service_id := Some "user-api";
     Store.latency_ms := Some 120%float;
     Store.kafka_lag := None;
     Store.status := Some "OK";
     Store.error_rate := None;
     Store.cpu_usage := None;
     Store.memory_usage := None;
     Store.request_count := None |}.

End MoreSamples.

(* ================================================================== *)
(** * Properties: vocabulary of the tools *)
(* ================================================================== *)

Module Props.
Import Py Env.

(** The outcome of the aggregation query of one detection call: the rows
    of the window [[now - time_window_minutes, now]], or the exception that
    computing the window or running the query raised. *)
Definition window_rows (env : ToolEnv) (service_name : string)
    (time_window_minutes : Z) : result (list Row) :=
  bind (timedelta_minutes time_window_minutes) (fun delta =>
  bind (datetime_sub (utcnow env 0) delta) (fun start_time =>
  run_query env service_name start_time (utcnow env 0))).

(** Metric rows were found in the window. *)
Definition rows_found (rows : result (list Row)) : bool :=
  match rows with
  | inr (_ :: _) => true
  | _ => false
  end.

(** The invariant of a detection result. *)
Definition detection_invariant (found : bool) (r : dict) : Prop :=
  exists (anomaly : bool) (violations : list value),
    dict_lookup r "anomaly_detected" = Some (VBool anomaly) /\
    dict_lookup r "violations" = Some (VList violations) /\
    (anomaly = true <-> violations <> []) /\
    (dict_lookup r "metrics" = Some VNone <-> found = false) /\
    (found = true -> exists m, dict_lookup r "metrics" = Some (VDict m)).

(** The error kind that stands for an exception in a detection result. *)
Definition error_kind (e : exn) : string :=
  match exc_type e with
  | NotFound => "TABLE_NOT_FOUND"
  | Forbidden => "PERMISSION_DENIED"
  | c => class_name c
  end.

(** A detection result that encodes a failure of the given kind. *)
Definition encodes_failure (kind : string) (r : dict) : Prop :=
  dict_lookup r "anomaly_detected" = Some (VBool false) /\
  dict_lookup r "metrics" = Some VNone /\
  dict_lookup r "violations" = Some (VList []) /\
  dict_lookup r "error" = Some (VStr kind) /\
  exists text, dict_lookup r "recommendation" = Some (VStr text).

(** An object that can be measured and sliced. *)
Definition sliceable (v : value) : bool :=
  match v with
  | VStr _ | VList _ => true
  | _ => false
  end.

(** A number. *)
Definition numeric (v : value) : bool :=
  match v with
  | VBool _ | VInt _ | VFloat _ => true
  | _ => false
  end.

(** An object that can be looked up in a dictionary. *)
Definition hashable (v : value) : bool :=
  match v with
  | VList _ | VDict _ => false
  | _ => true
  end.

(** A dictionary. *)
Definition is_dict (v : value) : bool :=
  match v with
  | VDict _ => true
  | _ => false
  end.

(** [v > n] and [v > c] for a number [v]. *)
Definition number_gt_int (v : value) (n : Z) : bool :=
  match py_gt_int v n with
  | inr b => b
  | inl _ => false
  end.

Definition number_gt_float (v : value) (c : float) : bool :=
  match py_gt_float v c with
  | inr b => b
  | inl _ => false
  end.

(** The failure result of a prediction. *)
Definition failed_prediction (risk_score : Z) (error : string) (r : dict) : Prop :=
  dict_lookup r "success" = Some (VBool false)
  /\ dict_lookup r "risk_score" = Some (VInt risk_score)
  /\ dict_lookup r "recommended_action" = Some (VStr "monitor")
  /\ dict_lookup r "confidence" = Some (VStr "low")
  /\ dict_lookup r "error" = Some (VStr error).

(** The environment with another JSON parser. *)
Definition with_json_loads (env : ToolEnv) (loads : string -> result value) : ToolEnv :=
  {| utcnow := utcnow env;
     bigquery_table := bigquery_table env;
     run_query := run_query env;
     tools_imports := tools_imports env;
     generate_content := generate_content env;
     json_loads := loads;
     tools_prompt := tools_prompt env;
     server_prompt := server_prompt env;
     format_f := format_f env;
     str_float := str_float env;
     isoformat := isoformat env;
     isoformat_aware := isoformat_aware env |}.

(** The environment with another outcome of the lazy imports of the
    tool. *)
Definition with_tools_imports (env : ToolEnv) (imports : result unit) : ToolEnv :=
  {| utcnow := utcnow env;
     bigquery_table := bigquery_table env;
     run_query := run_query env;
     tools_imports := imports;
     generate_content := generate_content env;
     json_loads := json_loads env;
     tools_prompt := tools_prompt env;
     server_prompt := server_prompt env;
     format_f := format_f env;
     str_float := str_float env;
     isoformat := isoformat env;
     isoformat_aware := isoformat_aware env |}.

(** One violation per rule that fires, in the order of the rules. *)
Definition fired (env : ToolEnv) (row : Row) (latency_threshold_ms : float)
    (kafka_lag_threshold : Z) : list value :=
  ((if McpTools.latency_rule row latency_threshold_ms
    then [VStr (McpTools.latency_violation env row latency_threshold_ms)] else [])
   ++ (if McpTools.kafka_lag_rule row kafka_lag_threshold
       then [VStr (McpTools.kafka_lag_violation env row kafka_lag_threshold)] else [])
   ++ (if McpTools.error_rate_rule row
       then [VStr (McpTools.error_rate_violation env row)] else []))%list.

(** The verdict: the disjunction of the three rules. *)
Definition verdict (row : Row) (latency_threshold_ms : float)
    (kafka_lag_threshold : Z) : bool :=
  McpTools.latency_rule row latency_threshold_ms
  || McpTools.kafka_lag_rule row kafka_lag_threshold
  || McpTools.error_rate_rule row.

(** The request the endpoint receives for the arguments of the tool. *)
Definition request_of (service_name : string) (time_window_minutes : Z)
    (latency_threshold_ms : float) (kafka_lag_threshold : Z)
  : McpServer.DetectAnomalyRequest :=
  {| McpServer.da_service_name := service_name;
     McpServer.da_time_window_minutes := time_window_minutes;
     McpServer.da_latency_threshold_ms := latency_threshold_ms;
     McpServer.da_kafka_lag_threshold := kafka_lag_threshold |}.

End Props.

(* ================================================================== *)
(** * Properties: vocabulary of the orchestrator *)
(* ================================================================== *)

Module AgentProps.
Import Py RootAgent Props.

(** A coroutine that leaves the incident history alone. *)
Definition keeps_history {A} (m : M A) : Prop :=
  forall s r s', m s = (r, s') -> healing_history s' = healing_history s.

(** The POST of the detector. *)
Definition detect_call (env : AgentEnv) (service : string) (window : Z) : event :=
  Post "detect_anomaly" (tool_url env "detect_anomaly")
    [ ("service_name", VStr service);
      ("time_window_minutes", VInt window);
      ("latency_threshold_ms", VFloat 500%float);
      ("kafka_lag_threshold", VInt 5000) ].

(** The POSTs of a scale-up. *)
Definition scale_call (env : AgentEnv) (service : string) (bounds : Z * Z) : event :=
  Post "scale_service" (tool_url env "scale_service")
    [ ("service_name", VStr service);
      ("min_instances", VInt (fst bounds));
      ("max_instances", VInt (snd bounds));
      ("target_cpu_utilization", VInt 70) ].

Definition verify_call (env : AgentEnv) (service : string) : event :=
  Post "verify_health" (tool_url env "verify_health")
    [ ("service_name", VStr service) ].

(** What a tool answered to a POST made after the events [before]. *)
Definition answer (env : AgentEnv) (before : list event) (call : event) : result value :=
  match call with
  | Post tool url parameters => tool_result tool (http_post env before url parameters)
  | Sleep _ => ret VNone
  end.

(** The verify operation reports the service ready. *)
Definition reports_ready (verify_result : dict) : bool :=
  truthy (dict_get verify_result "success" VNone)
  && truthy (dict_get verify_result "ready" VNone).

(** The instance bounds of a risk tier. *)
Definition tier (risk_score : Z) : Z * Z :=
  if 80 <=? risk_score then (5, 20)
  else if 50 <=? risk_score then (3, 15)
  else (2, 10).

(** The entries the agent computes with have the types it expects, where
    they are present. *)
Definition fields_ok (d : dict) : bool :=
  sliceable (dict_get d "violations" (VList []))
  && sliceable (dict_get d "root_cause" (VStr "Unknown"))
  && hashable (dict_get d "recommended_action" (VStr "monitor"))
  && numeric (dict_get d "risk_score" (VInt 0)).

(** A POST fails with an HTTP error, or answers with such a JSON object. *)
Definition reply_ok (o : http_outcome) : bool :=
  match o with
  | HTTPError _ => true
  | Json (VDict d) => fields_ok d
  | _ => false
  end.

(** What a run that returned [report] did to the agent. *)
Definition run_recorded (env : AgentEnv) (s : agent) (report : dict) (s' : agent)
  : Prop :=
  exists detection,
    dict_lookup report "detection" = Some (VDict detection)
    /\ if truthy (dict_get detection "anomaly_detected" VNone)
       then
         healing_history s' = (healing_history s ++ [report])%list
         /\ dict_lookup report "start_time"
            = Some (VStr (isoformat env (utcnow env (events s))))
         /\ dict_lookup report "end_time"
            = Some (VStr (isoformat env (utcnow env (events s'))))
         /\ (exists prediction healing,
                dict_lookup report "prediction" = Some (VDict prediction)
                /\ dict_lookup report "healing" = Some (VDict healing))
         /\ get_history 1 s' = (inr [report], s')
       else
         healing_history s' = healing_history s
         /\ dict_lookup report "action_taken" = Some (VStr "none")
         /\ dict_lookup report "start_time" = None
         /\ dict_lookup report "end_time" = None.

End AgentProps.

(* ================================================================== *)
(** * Properties: further vocabulary of the tools *)
(* ================================================================== *)

Module ToolsMoreProps.
Import Py Env Props.

(** The entries that [predict_risk] sets before it spreads the parsed
    response over them: in the tool, and in the endpoint, whose moments
    are aware. *)
Definition envelope (env : ToolEnv) (service_name : string) : dict :=
  [ ("success", VBool true);
    ("service", VStr service_name);
    ("timestamp", VStr (isoformat env (utcnow env 0))) ].

Definition server_envelope (env : ToolEnv) (service_name : string) : dict :=
  [ ("success", VBool true);
    ("service", VStr service_name);
    ("timestamp", VStr (isoformat_aware env (utcnow env 0))) ].

(** Every key of a dictionary occurs once, as in a Python [dict]. *)
Fixpoint unique_keys (d : dict) : bool :=
  match d with
  | [] => true
  | (k, _) :: d' =>
      match dict_lookup d' k with
      | Some _ => false
      | None => unique_keys d'
      end
  end.

(** The entry for [k] when the entries of [d2] are laid over those of
    [d1]. *)
Definition laid_over (d1 d2 : dict) (k : string) : option value :=
  match dict_lookup d2 k with
  | Some v => Some v
  | None => dict_lookup d1 k
  end.

(** The request the [/tools/predict_risk] endpoint receives for the
    arguments of the tool. *)
Definition predict_request_of (service_name : string) (metrics : dict)
  : McpServer.PredictRiskRequest :=
  {| McpServer.pr_service_name := service_name; McpServer.pr_metrics := metrics |}.

(** A code fence, and a text without a backtick. *)
Definition fence : string := "```".





End ToolsMoreProps.
(* ================================================================== *)
(** * Properties: further vocabulary of the orchestrator *)
(* ================================================================== *)

Module AgentMoreProps.
Import Py RootAgent Props AgentProps.

(** The POSTs of the predictor and of a restart. *)
Definition predict_call (env : AgentEnv) (service : string) (metrics : value) : event :=
  Post "predict_risk" (tool_url env "predict_risk")
    [ ("service_name", VStr service); ("metrics", metrics) ].

Definition restart_call (env : AgentEnv) (service : string) : event :=
  Post "restart_service" (tool_url env "restart_service")
    [ ("service_name", VStr service) ].

(** What an event is: the tool that was called, or a sleep of so many
    seconds. *)
Definition label (e : event) : string :=
  match e with
  | Post tool _ _ => tool
  | Sleep seconds => "sleep " ++ str_int seconds
  end.

(** The sequences of events that a healer may add. *)
Definition healer_sequences : list (list string) :=
  [ [];
    ["scale_service"];
    ["scale_service"; "sleep 10"; "verify_health"];
    ["restart_service"] ].

(** The sequences of events that a run of [heal] may add. *)
Definition heal_sequences : list (list string) :=
  [ ["detect_anomaly"];
    ["detect_anomaly"; "predict_risk"];
    ["detect_anomaly"; "predict_risk"; "scale_service"];
    ["detect_anomaly"; "predict_risk"; "scale_service"; "sleep 10"; "verify_health"];
    ["detect_anomaly"; "predict_risk"; "restart_service"] ].

(** The dictionary that [call_mcp_tool] returns for an HTTP error. *)
Definition http_failure (tool msg : string) : dict :=
  [ ("error", VStr msg); ("tool", VStr tool); ("success", VBool false) ].

(** The result of the healer for [monitor]. *)
Definition monitoring (service : string) : dict :=
  [ ("success", VBool true);
    ("action", VStr "monitor");
    ("message", VStr ("No immediate action required. Monitoring " ++ service ++ ".")) ].

(** An action is one of the two that reach the controller. *)
Definition reaches_controller (action : value) : bool :=
  eq_str action "scale_up" || eq_str action "restart".

(** The report that [heal] builds from the results of its stages, with
    the clock read at [start_time] and [end_time]. *)
Definition incident_report (env : AgentEnv) (service alert : string)
    (start_time end_time : Z) (detection prediction healing : dict) : dict :=
  [ ("success", VBool true);
    ("service", VStr service);
    ("alert_message", VStr alert);
    ("start_time", VStr (isoformat env start_time));
    ("end_time", VStr (isoformat env end_time));
    ("duration_seconds", VFloat (total_seconds (end_time - start_time)));
    ("detection", VDict detection);
    ("prediction", VDict prediction);
    ("healing", VDict healing);
    ("summary",
     VDict [ ("anomaly_detected", VBool true);
             ("risk_score", dict_get prediction "risk_score" (VInt 0));
             ("action_taken", dict_get prediction "recommended_action" (VStr "monitor"));
             ("success", dict_get healing "success" (VBool false)) ]) ].

(** The report of a run that found no anomaly. *)
Definition no_action_report (detection : dict) : dict :=
  [ ("success", VBool true);
    ("action_taken", VStr "none");
    ("message", VStr "Service operating normally");
    ("detection", VDict detection) ].

End AgentMoreProps.
(* ================================================================== *)
(** * Properties: vocabulary of the controller tools *)
(* ================================================================== *)

Module OpsProps.
Import Py Cloud.

(** A command ran and exited with status 0. *)
Definition exit_0 (ran : result CompletedProcess) : bool :=
  match ran with
  | inr result => returncode result =? 0
  | inl _ => false
  end.

(** A command ran into its timeout. *)
Definition timed_out (ran : result CompletedProcess) : bool :=
  match ran with
  | inl e => is_a e "TimeoutExpired"
  | inr _ => false
  end.

(** What an endpoint around one command answers: an HTTP 500 with the
    message of the exception when the command could not be run, and a
    body whose [success] tells whether it exited with status 0 when it
    could. *)
Definition answers_for (ran : result CompletedProcess) (r : McpServer.response) : Prop :=
  match ran with
  | inl e => r = McpServer.HTTPException 500 (str_exn e)
  | inr result =>
      exists body,
        r = McpServer.Body body
        /\ dict_lookup body "success" = Some (VBool (returncode result =? 0))
        /\ (returncode result <> 0 ->
            dict_lookup body "error" = Some (VStr (stderr result)))
  end.

(** The service description that [gcloud run services describe] printed,
    when the command exited with status 0 and printed a JSON object. *)
Definition described (env : CloudEnv) (cmd : list string) : option dict :=
  match subprocess_run env cmd 30 with
  | inr result =>
      if returncode result =? 0
      then
        match json_loads env (stdout result) with
        | inr (VDict service_info) => Some service_info
        | _ => None
        end
      else None
  | inl _ => None
  end.

(** A condition of a service is the one named [Ready], with the status
    [True]. *)
Definition ready_condition (c : dict) : bool :=
  RootAgent.eq_str (dict_get c "type" VNone) "Ready"
  && RootAgent.eq_str (dict_get c "status" VNone) "True".

(** The status of a condition is [True], whatever its type. *)
Definition status_true (c : dict) : bool :=
  RootAgent.eq_str (dict_get c "status" VNone) "True".

(** The scaling annotations of a description can be read: no entry on
    the way to them is something else than an object. *)
Definition scaling_readable (service_info : dict) : bool :=
  match McpToolsOps.annotation (dict_get service_info "spec" (VDict []))
          "autoscaling.knative.dev/minScale" with
  | inr _ => true
  | inl _ => false
  end.

(** The requests that the endpoints receive from the healer. *)
Definition scale_request (service : string) (bounds : Z * Z)
  : McpServerOps.ScaleServiceRequest :=
  {| McpServerOps.ss_service_name := service;
     McpServerOps.ss_min_instances := fst bounds;
     McpServerOps.ss_max_instances := snd bounds;
     McpServerOps.ss_target_cpu_utilization := 70 |}.

Definition verify_request (service : string) : McpServerOps.VerifyHealthRequest :=
  {| McpServerOps.vh_service_name := service |}.

Definition restart_request (service : string) : McpServerOps.RestartServiceRequest :=
  {| McpServerOps.rs_service_name := service |}.

(** The outcome of a POST that an endpoint answered with [r]: the body
    as JSON, or the HTTP error that [raise_for_status] makes of a status
    500. *)
Definition delivered (o : RootAgent.http_outcome) (r : McpServer.response) : Prop :=
  match r with
  | McpServer.Body body => o = RootAgent.Json (VDict body)
  | McpServer.HTTPException _ _ => exists msg, o = RootAgent.HTTPError msg
  end.

(** The outcome of the POST of [call], made after the events [before]. *)
Definition outcome (env : RootAgent.AgentEnv) (before : list RootAgent.event)
    (call : RootAgent.event) : RootAgent.http_outcome :=
  match call with
  | RootAgent.Post _ url parameters => RootAgent.http_post env before url parameters
  | RootAgent.Sleep _ => RootAgent.Json VNone
  end.

(** An endpoint answered with a body that reports the service ready. *)
Definition ready_reported (r : McpServer.response) : bool :=
  match r with
  | McpServer.Body body => AgentProps.reports_ready body
  | McpServer.HTTPException _ _ => false
  end.

End OpsProps.
(* ================================================================== *)
(** * Properties: vocabulary of the metric tools *)
(* ================================================================== *)

Module StoreProps.
Import Py Store Props.

(** The number of rows that a query returned. *)
Definition rows_returned (rows : result (list Metric)) : nat :=
  match rows with
  | inr rows => List.length rows
  | inl _ => 0%nat
  end.

(** The numeric entries that both implementations give for a row. *)
Definition numeric_keys : list string :=
  [ "latency_ms"; "kafka_lag"; "error_rate"; "cpu_usage"; "memory_usage" ].

(** An entry of [metrics] is a dictionary with a number, not a null, at
    each numeric key. *)
Definition complete_entry (entry : value) : bool :=
  match entry with
  | VDict entry => forallb (fun k => numeric (dict_get entry k VNone)) numeric_keys
  | _ => false
  end.

(** A result lists [entries] and counts them. *)
Definition lists_and_counts (r : dict) (entries : list value) : Prop :=
  dict_lookup r "metrics" = Some (VList entries)
  /\ dict_lookup r "count" = Some (VInt (Z.of_nat (List.length entries)))
  /\ forallb complete_entry entries = true.

(** The label of a sample by its latency. *)
Definition label_of (latency : value) : string :=
  if number_gt_int latency 500 then "DEGRADED" else "OK".


End StoreProps.

(* ================================================================== *)
(** * Properties of the detector *)
(* ================================================================== *)

Module DetectorFacts.
Import Py Env Props.

(** Every exception of the [try] block is answered by a failure result of
    its kind. *)
Lemma tools_detect_handler (env : ToolEnv) (service : string) (e : exn) :
  encodes_failure (error_kind e)
    (match e with
     | Exn NotFound _ =>
         McpTools.detect_anomaly_failed env service
           ("BigQuery table " ++ bigquery_table env
              ++ " not found. Run setup script to create schema.")
           "TABLE_NOT_FOUND"
     | Exn Forbidden msg =>
         McpTools.detect_anomaly_failed env service
           ("Permission denied: Ensure service account has BigQuery Data Viewer role. Error: "
              ++ msg)
           "PERMISSION_DENIED"
     | Exn c msg =>
         McpTools.detect_anomaly_failed env service
           ("Error querying metrics: " ++ msg) (class_name c)
     end).
Proof.
  destruct e as [c msg]; destruct c; unfold encodes_failure, error_kind;
    cbn; repeat split; eauto.
Qed.

(** Splitting a run of the [try] block at the query. *)
Ltac split_window H :=
  unfold window_rows in H;
  match type of H with
  | context [timedelta_minutes ?m] =>
      destruct (timedelta_minutes m) as [? | ?]; cbn [bind] in H |- *;
      [ try discriminate H; try (injection H as <-); try reflexivity | ]
  end;
  match type of H with
  | context [datetime_sub ?t ?d] =>
      destruct (datetime_sub t d) as [? | ?]; cbn [bind] in H |- *;
      [ try discriminate H; try (injection H as <-); try reflexivity | ]
  end;
  rewrite H; cbn [bind].

Lemma tools_try_raises (env : ToolEnv) service m lat kaf e :
  window_rows env service m = inl e ->
  McpTools.detect_anomaly_try env service m lat kaf = inl e.
Proof.
  intros H. unfold McpTools.detect_anomaly_try.
  split_window H. reflexivity.
Qed.

Lemma tools_try_empty (env : ToolEnv) service m lat kaf :
  window_rows env service m = inr [] ->
  exists r, McpTools.detect_anomaly_try env service m lat kaf = inr r
            /\ encodes_failure "NO_DATA" r.
Proof.
  intros H. unfold McpTools.detect_anomaly_try.
  split_window H. eexists; split; [reflexivity |].
  unfold encodes_failure; cbn; repeat split; eauto.
Qed.

Lemma tools_try_rows (env : ToolEnv) service m lat kaf row rest :
  window_rows env service m = inr (row :: rest) ->
  McpTools.detect_anomaly_try env service m lat kaf
  = inr [ ("anomaly_detected", VBool (verdict row lat kaf));
          ("service", VStr service);
          ("metrics", VDict (McpTools.metrics_of_row row));
          ("violations", VList (fired env row lat kaf));
          ("query_time", VStr (isoformat env (utcnow env 0)));
          ("recommendation",
           VStr (if verdict row lat kaf
                 then "CRITICAL: " ++ service ++ " requires immediate attention. "
                        ++ "Recommend scaling replicas and investigating root cause. "
                        ++ "Violations: "
                        ++ str_int (Z.of_nat (List.length (fired env row lat kaf)))
                 else service ++ " operating within normal parameters."));
          ("time_window_minutes", VInt m) ].
Proof.
  intros H. unfold McpTools.detect_anomaly_try.
  split_window H. unfold verdict, fired.
  destruct (McpTools.latency_rule row lat),
           (McpTools.kafka_lag_rule row kaf),
           (McpTools.error_rate_rule row); reflexivity.
Qed.

Lemma server_try_raises (env : ToolEnv) service m lat kaf e :
  window_rows env service m = inl e ->
  McpServer.detect_anomaly_try env (request_of service m lat kaf) = inl e.
Proof.
  intros H. unfold McpServer.detect_anomaly_try, request_of; cbn [McpServer.da_service_name
    McpServer.da_time_window_minutes McpServer.da_latency_threshold_ms
    McpServer.da_kafka_lag_threshold].
  split_window H. reflexivity.
Qed.

Lemma server_try_empty (env : ToolEnv) service m lat kaf :
  window_rows env service m = inr [] ->
  exists r, McpServer.detect_anomaly_try env (request_of service m lat kaf) = inr r
            /\ encodes_failure "NO_DATA" r.
Proof.
  intros H. unfold McpServer.detect_anomaly_try, request_of; cbn [McpServer.da_service_name
    McpServer.da_time_window_minutes McpServer.da_latency_threshold_ms
    McpServer.da_kafka_lag_threshold].
  split_window H. eexists; split; [reflexivity |].
  unfold encodes_failure; cbn; repeat split; eauto.
Qed.

Lemma server_try_rows (env : ToolEnv) service m lat kaf row rest :
  window_rows env service m = inr (row :: rest) ->
  McpServer.detect_anomaly_try env (request_of service m lat kaf)
  = inr [ ("anomaly_detected", VBool (verdict row lat kaf));
          ("service", VStr service);
          ("metrics", VDict (McpTools.metrics_of_row row));
          ("violations", VList (fired env row lat kaf));
          ("time_window_minutes", VInt m);
          ("query_time", VStr (isoformat_aware env (utcnow env 0)));
          ("recommendation",
           VStr (if verdict row lat kaf
                 then "CRITICAL: " ++ service ++ " requires immediate attention. "
                        ++ "Recommend scaling replicas and investigating root cause. "
                        ++ "Violations: "
                        ++ str_int (Z.of_nat (List.length (fired env row lat kaf)))
                 else service ++ " operating within normal parameters.")) ].
Proof.
  intros H. unfold McpServer.detect_anomaly_try, request_of; cbn [McpServer.da_service_name
    McpServer.da_time_window_minutes McpServer.da_latency_threshold_ms
    McpServer.da_kafka_lag_threshold].
  split_window H. unfold verdict, fired, McpTools.latency_rule,
    McpTools.kafka_lag_rule, McpTools.error_rate_rule.
  destruct (float_gt (float_or_0 (avg_latency_ms row)) lat),
           (float_gt_Z (float_or_0 (avg_kafka_lag row)) kaf),
           (float_gt (float_or_0 (avg_error_rate row)) 0.05%float); reflexivity.
Qed.

(** The verdict is true exactly when some rule left a violation. *)
Lemma verdict_iff_fired (env : ToolEnv) row lat kaf :
  verdict row lat kaf = true <-> fired env row lat kaf <> [].
Proof.
  unfold verdict, fired.
  destruct (McpTools.latency_rule row lat),
           (McpTools.kafka_lag_rule row kaf),
           (McpTools.error_rate_rule row); cbn; split; congruence.
Qed.

Lemma failure_invariant kind r :
  encodes_failure kind r -> detection_invariant false r.
Proof.
  intros (Ha & Hm & Hv & _). exists false, []. repeat split; auto; try congruence.
Qed.

(** C1. In every detection result that [detect_anomaly] returns (the tool
    always returns one, the endpoint returns one unless it answers with an
    HTTP error), [anomaly_detected] is true exactly when [violations] is
    non-empty, and [metrics] is null exactly when the query of the window
    found no row; when rows were found [metrics] is a dictionary. *)
Theorem detection_result_invariant (env : ToolEnv) (service : string) (m : Z)
    (lat : float) (kaf : Z) :
  detection_invariant (rows_found (window_rows env service m))
    (McpTools.detect_anomaly env service m lat kaf)
  /\ (forall r,
        McpServer.detect_anomaly env (request_of service m lat kaf) = McpServer.Body r ->
        detection_invariant (rows_found (window_rows env service m)) r).
Proof.
  destruct (window_rows env service m) as [e | [| row rest]] eqn:W; cbn [rows_found].
  - (* the window or the query raised *)
    split.
    + unfold McpTools.detect_anomaly.
      rewrite (tools_try_raises env service m lat kaf e W).
      eapply failure_invariant. apply tools_detect_handler.
    + intros r. unfold McpServer.detect_anomaly.
      rewrite (server_try_raises env service m lat kaf e W). discriminate.
  - (* no row *)
    split.
    + unfold McpTools.detect_anomaly.
      destruct (tools_try_empty env service m lat kaf W) as (r & -> & Hr).
      eapply failure_invariant; eassumption.
    + intros r. unfold McpServer.detect_anomaly.
      destruct (server_try_empty env service m lat kaf W) as (r' & -> & Hr).
      intros [= <-]. eapply failure_invariant; eassumption.
  - (* rows *)
    split.
    + unfold McpTools.detect_anomaly.
      rewrite (tools_try_rows env service m lat kaf row rest W).
      exists (verdict row lat kaf), (fired env row lat kaf).
      split; [reflexivity |]. split; [reflexivity |].
      split; [apply verdict_iff_fired |].
      split; [split; intros [=] | intros _; eexists; reflexivity].
    + intros r. unfold McpServer.detect_anomaly.
      rewrite (server_try_rows env service m lat kaf row rest W).
      intros [= <-].
      exists (verdict row lat kaf), (fired env row lat kaf).
      split; [reflexivity |]. split; [reflexivity |].
      split; [apply verdict_iff_fired |].
      split; [split; intros [=] | intros _; eexists; reflexivity].
Qed.

(** The invariant at the end-to-end scenario of the design: rows are
    found, and the endpoint answers with a body. *)
Lemma detection_result_invariant_witness :
  let env := Samples.tool_env (inr [Samples.degraded_row]) (inr "") Samples.no_json in
  detection_invariant true
    (McpTools.detect_anomaly env "user-api" 5 500%float 5000)
  /\ match McpServer.detect_anomaly env (request_of "user-api" 5 500%float 5000) with
     | McpServer.Body r => detection_invariant true r
     | McpServer.HTTPException _ _ => False
     end.
Proof.
  cbv zeta.
  destruct (detection_result_invariant
              (Samples.tool_env (inr [Samples.degraded_row]) (inr "") Samples.no_json)
              "user-api" 5 500%float 5000) as [Htool Hserver].
  split; [exact Htool | exact (Hserver _ eq_refl)].
Defined.

Example three_violations :
  let env := Samples.tool_env (inr [Samples.degraded_row]) (inr "") Samples.no_json in
  let r := McpTools.detect_anomaly env "user-api" 5 500%float 5000 in
  dict_lookup r "anomaly_detected" = Some (VBool true)
  /\ dict_lookup r "violations"
     = Some (VList
               [ VStr "Latency violation: 2000.00ms exceeds threshold 500.0ms";
                 VStr "Kafka lag violation: 9000 messages exceeds threshold 5000";
                 VStr "Error rate violation: 10.00% exceeds 5% threshold" ]).
Proof. split; reflexivity. Qed.

Example no_samples :
  let env := Samples.tool_env (inr []) (inr "") Samples.no_json in
  let r := McpTools.detect_anomaly env "user-api" 5 500%float 5000 in
  dict_lookup r "anomaly_detected" = Some (VBool false)
  /\ dict_lookup r "metrics" = Some VNone
  /\ dict_lookup r "error" = Some (VStr "NO_DATA").
Proof. repeat split. Qed.

(** C9. When the query finds rows, [detect_anomaly] applies three rules to
    the first row, each to its own entry of [metrics]: the average latency
    against [latency_threshold_ms], the average Kafka lag against
    [kafka_lag_threshold], the average error rate against the constant
    0.05, whatever the two thresholds are. [violations] holds one message
    per rule that fired, in that order, and [anomaly_detected] is the
    disjunction of the three outcomes. *)
Theorem detection_rules (env : ToolEnv) (service : string) (m : Z)
    (lat : float) (kaf : Z) (row : Row) (rest : list Row) :
  window_rows env service m = inr (row :: rest) ->
  let r := McpTools.detect_anomaly env service m lat kaf in
  let latency := float_or_0 (avg_latency_ms row) in
  let kafka_lag := float_or_0 (avg_kafka_lag row) in
  let error_rate := float_or_0 (avg_error_rate row) in
  let rule1 := float_gt latency lat in
  let rule2 := float_gt_Z kafka_lag kaf in
  let rule3 := float_gt error_rate 0.05%float in
  (exists metrics,
      dict_lookup r "metrics" = Some (VDict metrics)
      /\ dict_lookup metrics "avg_latency_ms" = Some (VFloat latency)
      /\ dict_lookup metrics "avg_kafka_lag" = Some (VFloat kafka_lag)
      /\ dict_lookup metrics "avg_error_rate" = Some (VFloat error_rate))
  /\ dict_lookup r "violations"
     = Some (VList
               ((if rule1 then [VStr (McpTools.latency_violation env row lat)] else [])
                ++ (if rule2 then [VStr (McpTools.kafka_lag_violation env row kaf)] else [])
                ++ (if rule3 then [VStr (McpTools.error_rate_violation env row)] else []))%list)
  /\ dict_lookup r "anomaly_detected" = Some (VBool (rule1 || rule2 || rule3)).
Proof.
  intros W. cbv zeta. unfold McpTools.detect_anomaly.
  rewrite (tools_try_rows env service m lat kaf row rest W).
  split; [eexists; repeat split; reflexivity |].
  split; reflexivity.
Qed.

(** The rules at a window in which only the Kafka lag is high. *)
Lemma detection_rules_witness :
  let env := Samples.tool_env (inr [Samples.lagging_row]) (inr "") Samples.no_json in
  let r := McpTools.detect_anomaly env "user-api" 5 500%float 5000 in
  dict_lookup r "violations"
  = Some (VList [VStr "Kafka lag violation: 7500 messages exceeds threshold 5000"])
  /\ dict_lookup r "anomaly_detected" = Some (VBool true).
Proof.
  pose proof (detection_rules
                (Samples.tool_env (inr [Samples.lagging_row]) (inr "") Samples.no_json)
                "user-api" 5 500%float 5000 Samples.lagging_row [] eq_refl) as H.
  cbv zeta in H. destruct H as (_ & Hv & Ha).
  split; [exact Hv | exact Ha].
Defined.

(** C3, as the code has it. The tool never raises: an empty window, a
    missing table, a denied permission and any other exception each give a
    result with [anomaly_detected] false, null [metrics], no violation and
    the error kind [NO_DATA], [TABLE_NOT_FOUND], [PERMISSION_DENIED] or the
    name of the exception class. The endpoint of the HTTP server encodes
    only the empty window; an exception it answers with an HTTP 500 whose
    detail is the message of the exception. *)
Theorem detect_anomaly_failure_modes (env : ToolEnv) (service : string) (m : Z)
    (lat : float) (kaf : Z) :
  let r := McpTools.detect_anomaly env service m lat kaf in
  let http := McpServer.detect_anomaly env (request_of service m lat kaf) in
  match window_rows env service m with
  | inr [] =>
      encodes_failure "NO_DATA" r
      /\ exists body, http = McpServer.Body body /\ encodes_failure "NO_DATA" body
  | inr (row :: _) =>
      dict_lookup r "error" = None
      /\ dict_lookup r "anomaly_detected" = Some (VBool (verdict row lat kaf))
      /\ exists body, http = McpServer.Body body /\ dict_lookup body "error" = None
  | inl e =>
      encodes_failure (error_kind e) r
      /\ http = McpServer.HTTPException 500 (str_exn e)
  end.
Proof.
  cbv zeta.
  destruct (window_rows env service m) as [e | [| row rest]] eqn:W.
  - unfold McpTools.detect_anomaly, McpServer.detect_anomaly.
    rewrite (tools_try_raises env service m lat kaf e W).
    rewrite (server_try_raises env service m lat kaf e W).
    split; [apply tools_detect_handler | reflexivity].
  - unfold McpTools.detect_anomaly, McpServer.detect_anomaly.
    destruct (tools_try_empty env service m lat kaf W) as (r & -> & Hr).
    destruct (server_try_empty env service m lat kaf W) as (r' & -> & Hr').
    split; [exact Hr | eexists; split; [reflexivity | exact Hr']].
  - unfold McpTools.detect_anomaly, McpServer.detect_anomaly.
    rewrite (tools_try_rows env service m lat kaf row rest W).
    rewrite (server_try_rows env service m lat kaf row rest W).
    split; [reflexivity |]. split; [reflexivity |].
    eexists; split; reflexivity.
Qed.

(** C3 fails on the endpoint: when the table does not exist, the endpoint
    of the HTTP server raises an HTTP 500 instead of returning a detection
    result. *)
Lemma server_detect_anomaly_raises :
  McpServer.detect_anomaly
    (Samples.tool_env (raise NotFound "404 Not found: Table metrics")
       (inr "") Samples.no_json)
    Samples.user_api_request
  = McpServer.HTTPException 500 "404 Not found: Table metrics".
Proof. reflexivity. Qed.

End DetectorFacts.

(* ================================================================== *)
(** * Properties of the orchestrator *)
(* ================================================================== *)

Module AgentFacts.
Import Py RootAgent Props AgentProps.

(** ** The action normalizer and the history query *)

(** C8. The normalizer sends [scale_out] and [scale] to [scale_up],
    [restart_service] to [restart] and [alert] to [escalate_human], by
    exact match; every other string, the four canonical actions among
    them, is returned as it is; so normalizing twice is normalizing once. *)
Theorem normalize_aliases :
  normalize "scale_out" = "scale_up"
  /\ normalize "scale" = "scale_up"
  /\ normalize "restart_service" = "restart"
  /\ normalize "alert" = "escalate_human"
  /\ (forall a : string,
        a <> "scale_out" -> a <> "scale" -> a <> "restart_service" -> a <> "alert" ->
        normalize a = a)
  /\ (normalize "scale_up" = "scale_up" /\ normalize "restart" = "restart"
      /\ normalize "monitor" = "monitor"
      /\ normalize "escalate_human" = "escalate_human")
  /\ (normalize "Scale_Out" = "Scale_Out" /\ normalize "ALERT" = "ALERT")
  /\ (forall a : string, normalize (normalize a) = normalize a).
Proof.
  assert (other : forall a : string,
             a <> "scale_out" -> a <> "scale" -> a <> "restart_service" ->
             a <> "alert" -> normalize a = a).
  { intros a H1 H2 H3 H4. unfold normalize, action_aliases, alias_lookup.
    destruct (String.eqb_spec "scale_out" a); [congruence |].
    destruct (String.eqb_spec "scale" a); [congruence |].
    destruct (String.eqb_spec "restart_service" a); [congruence |].
    destruct (String.eqb_spec "alert" a); [congruence |].
    reflexivity. }
  repeat split; try reflexivity; try exact other.
  intros a.
  destruct (string_dec a "scale_out") as [-> | H1]; [reflexivity |].
  destruct (string_dec a "scale") as [-> | H2]; [reflexivity |].
  destruct (string_dec a "restart_service") as [-> | H3]; [reflexivity |].
  destruct (string_dec a "alert") as [-> | H4]; [reflexivity |].
  rewrite (other a H1 H2 H3 H4). apply (other a H1 H2 H3 H4).
Qed.

(** The normalizer at an alias, a canonical action and an unknown one. *)
Lemma normalize_aliases_witness :
  normalize "scale_out" = "scale_up"
  /\ normalize "unrecognized_xyz" = "unrecognized_xyz"
  /\ normalize (normalize "restart_service") = normalize "restart_service".
Proof.
  destruct normalize_aliases as (H1 & _ & _ & _ & Hother & _ & _ & Hidem).
  split; [exact H1 |].
  split; [apply Hother; discriminate | apply Hidem].
Defined.



Lemma slice_from_newest {A} (l : list A) (x : A) :
  slice_from (l ++ [x]) (- 1) = [x].
Proof.
  unfold slice_from. cbn [Z.opp Z.ltb Z.compare].
  rewrite length_app. cbn [List.length].
  replace (Z.to_nat (Z.max (Z.of_nat (List.length l + 1) + -1) 0))
    with (List.length l) by lia.
  rewrite skipn_app, skipn_all, Nat.sub_diag. reflexivity.
Qed.



Example get_history_last_two :
  get_history 2 Samples.seasoned_agent
  = (inr [Samples.incident "payment-service"; Samples.incident "order-api"],
     Samples.seasoned_agent).
Proof. reflexivity. Qed.

Example get_history_beyond_length :
  get_history 5 Samples.seasoned_agent
  = (inr (healing_history Samples.seasoned_agent), Samples.seasoned_agent).
Proof. reflexivity. Qed.

(** ** Runs of the coroutines *)

Lemma keeps_mret {A} (a : A) : keeps_history (mret a).
Proof. intros s r s' [= <- <-]. reflexivity. Qed.

Lemma keeps_lift {A} (x : result A) : keeps_history (lift x).
Proof. intros s r s' [= <- <-]. reflexivity. Qed.

Lemma keeps_emit (e : event) : keeps_history (emit e).
Proof. intros s r s' [= <- <-]. reflexivity. Qed.

Lemma keeps_get_events : keeps_history get_events.
Proof. intros s r s' [= <- <-]. reflexivity. Qed.

Lemma keeps_mbind {A B} (m : M A) (k : A -> M B) :
  keeps_history m -> (forall a, keeps_history (k a)) -> keeps_history (mbind m k).
Proof.
  intros Hm Hk s r s'. unfold mbind.
  destruct (m s) as [[e | a] s1] eqn:E.
  - intros [= <- <-]. eapply Hm; eassumption.
  - intros H. rewrite (Hk a _ _ _ H). eapply Hm; eassumption.
Qed.

Lemma keeps_as_dict (v : value) : keeps_history (as_dict v).
Proof. destruct v; first [apply keeps_mret | apply keeps_lift]. Qed.

Create HintDb keeps.
#[local] Hint Resolve keeps_mret keeps_lift keeps_emit keeps_get_events
  keeps_as_dict : keeps.

Ltac keeps_step :=
  first
    [ apply keeps_mbind; [| intros ?]
    | solve [auto with keeps]
    | match goal with
      | |- keeps_history (if ?b then _ else _) => destruct b
      | |- keeps_history (let '(_, _) := ?p in _) => destruct p
      end ].

Lemma keeps_call_mcp_tool (env : AgentEnv) tool parameters :
  keeps_history (call_mcp_tool env tool parameters).
Proof. unfold call_mcp_tool. repeat keeps_step. Qed.

#[local] Hint Resolve keeps_call_mcp_tool : keeps.

Lemma keeps_detector_agent (env : AgentEnv) service window :
  keeps_history (detector_agent env service window).
Proof. unfold detector_agent. repeat keeps_step. Qed.

Lemma keeps_predictor_agent (env : AgentEnv) service metrics :
  keeps_history (predictor_agent env service metrics).
Proof. unfold predictor_agent. repeat keeps_step. Qed.

Lemma keeps_healer_agent (env : AgentEnv) service action risk :
  keeps_history (healer_agent env service action risk).
Proof. unfold healer_agent, sleep. repeat keeps_step. Qed.

(** One call of a tool: the POST is recorded, the outcome is decided by
    the events before it. *)
Lemma call_mcp_tool_run (env : AgentEnv) tool parameters s :
  call_mcp_tool env tool parameters s
  = (tool_result tool (http_post env (events s) (tool_url env tool) parameters),
     {| healing_history := healing_history s;
        events := (events s ++ [Post tool (tool_url env tool) parameters])%list |}).
Proof. reflexivity. Qed.

(** The detector makes one POST, whatever comes of it. *)
Lemma detector_agent_events (env : AgentEnv) service window s r s1 :
  detector_agent env service window s = (r, s1) ->
  events s1 = (events s ++ [detect_call env service window])%list.
Proof.
  unfold detector_agent, mbind. rewrite call_mcp_tool_run.
  destruct (tool_result _ _) as [e | v]; [intros [= <- <-]; reflexivity |].
  destruct v; cbn [as_dict lift mret]; try (intros [= <- <-]; reflexivity).
  destruct (truthy _); cbn [mret lift].
  - destruct (py_len _); [intros [= <- <-]; reflexivity |].
    destruct (py_slice_to _ _); intros [= <- <-]; reflexivity.
  - intros [= <- <-]; reflexivity.
Qed.

(** C2. When the detection stage reports no anomaly, [heal] returns at
    once with [action_taken = "none"]: the only event of the run is the
    POST to [detect_anomaly], so [predict_risk], [scale_service],
    [restart_service] and [verify_health] are not called, and nothing is
    slept. *)
Theorem heal_short_circuit (env : AgentEnv) (service alert : string)
    (s s1 : agent) (detection : dict) :
  detector_agent env service 5 s = (inr detection, s1) ->
  truthy (dict_get detection "anomaly_detected" VNone) = false ->
  heal env service alert s
  = (inr [ ("success", VBool true);
           ("action_taken", VStr "none");
           ("message", VStr "Service operating normally");
           ("detection", VDict detection) ],
     s1)
  /\ events s1 = (events s ++ [detect_call env service 5])%list
  /\ (forall tool url parameters,
        In (Post tool url parameters) (skipn (List.length (events s)) (events s1)) ->
        tool = "detect_anomaly")
  /\ ~ In (Sleep 10) (skipn (List.length (events s)) (events s1)).
Proof.
  intros D Hno.
  pose proof (detector_agent_events env service 5 s _ s1 D) as Hev.
  split.
  { unfold heal, mbind, now. rewrite D, Hno. reflexivity. }
  split; [exact Hev |].
  rewrite Hev, skipn_app, skipn_all, Nat.sub_diag. cbn [skipn app].
  split.
  - intros tool url parameters [H | []]. unfold detect_call in H. congruence.
  - intros [H | []]. discriminate H.
Qed.

(** The short circuit on a deployment whose window holds no row. *)
Lemma heal_short_circuit_witness :
  heal Samples.quiet_deployment "user-api" "High latency" Samples.fresh_agent
  = (inr [ ("success", VBool true);
           ("action_taken", VStr "none");
           ("message", VStr "Service operating normally");
           ("detection",
            VDict
              [ ("anomaly_detected", VBool false);
                ("service", VStr "user-api");
                ("metrics", VNone);
                ("violations", VList []);
                ("query_time", VStr "63871286400000000+00:00");
                ("recommendation",
                 VStr "No metrics found for user-api in last 5 minutes. Verify service is running and exporting metrics.");
                ("error", VStr "NO_DATA") ]) ],
     {| healing_history := [];
        events := [detect_call Samples.quiet_deployment "user-api" 5] |}).
Proof.
  exact (proj1 (heal_short_circuit Samples.quiet_deployment "user-api" "High latency"
                  Samples.fresh_agent _ _ eq_refl eq_refl)).
Defined.

(** ** The healer *)

Lemma scale_bounds_int (risk_score : Z) :
  scale_bounds (VInt risk_score) = inr (tier risk_score).
Proof.
  unfold scale_bounds, tier, py_ge_int, bind, ret.
  rewrite !Z.geb_leb.
  destruct (80 <=? risk_score); [reflexivity |].
  destruct (50 <=? risk_score); reflexivity.
Qed.

(** Whatever comes of it, a scale-up begins with the POST of the bounds of
    the risk tier. *)
Lemma healer_scale_up_begins (env : AgentEnv) (service : string) (risk_score : Z)
    (s s' : agent) (r : result dict) :
  healer_agent env service (VStr "scale_up") (VInt risk_score) s = (r, s') ->
  exists rest,
    events s' = (events s ++ scale_call env service (tier risk_score) :: rest)%list.
Proof.
  unfold healer_agent. cbn [eq_str String.eqb Ascii.eqb Bool.eqb].
  unfold mbind at 1. unfold lift at 1. rewrite scale_bounds_int.
  unfold scale_call. destruct (tier risk_score) as [lo hi]. cbn [fst snd].
  unfold mbind at 1. rewrite call_mcp_tool_run.
  destruct (tool_result _ _) as [e | v];
    [intros [= <- <-]; exists []; reflexivity |].
  unfold mbind at 1.
  destruct v; cbn [as_dict lift mret];
    try (intros [= <- <-]; exists []; reflexivity).
  destruct (truthy _); [| intros [= <- <-]; exists []; reflexivity].
  unfold mbind at 1. unfold sleep, emit at 1. cbn [healing_history events].
  unfold mbind at 1. rewrite call_mcp_tool_run. cbn [healing_history events].
  destruct (tool_result _ _) as [e | v];
    [intros [= <- <-]; cbn [events]; rewrite <- !app_assoc; eexists; reflexivity |].
  unfold mbind at 1.
  destruct v; cbn [as_dict lift mret];
    try (intros [= <- <-]; cbn [events]; rewrite <- !app_assoc; eexists; reflexivity).
  destruct (_ && _); intros [= <- <-]; cbn [events]; rewrite <- !app_assoc;
    eexists; reflexivity.
Qed.

(** C7. For [scale_up] the healer picks the instance bounds by the risk
    score: (5, 20) from 80 up, (3, 15) from 50 to below 80, and (2, 10)
    below 50, and POSTs them to [scale_service] first of all. When that
    call succeeds, it sleeps 10 seconds, calls [verify_health] once, and
    sets [verification] to [healthy] if the verification succeeded and
    reports the service ready, to [pending] if not. When the scale call
    fails, the healer returns its result after that one POST. *)
Theorem healer_scale_up (env : AgentEnv) (service : string) (risk_score : Z)
    (s : agent) :
  let scaling := scale_call env service (tier risk_score) in
  let verifying := verify_call env service in
  scale_bounds (VInt risk_score) = inr (tier risk_score)
  /\ (80 <= risk_score -> tier risk_score = (5, 20))
  /\ (50 <= risk_score < 80 -> tier risk_score = (3, 15))
  /\ (risk_score < 50 -> tier risk_score = (2, 10))
  /\ (forall r s',
        healer_agent env service (VStr "scale_up") (VInt risk_score) s = (r, s') ->
        exists rest, events s' = (events s ++ scaling :: rest)%list)
  /\ (forall result verify_result,
        answer env (events s) scaling = inr (VDict result) ->
        truthy (dict_get result "success" VNone) = true ->
        answer env (events s ++ [scaling; Sleep 10]) verifying
        = inr (VDict verify_result) ->
        healer_agent env service (VStr "scale_up") (VInt risk_score) s
        = (inr (dict_set result "verification"
                  (VStr (if reports_ready verify_result then "healthy" else "pending"))),
           {| healing_history := healing_history s;
              events := (events s ++ [scaling; Sleep 10; verifying])%list |}))
  /\ (forall result,
        answer env (events s) scaling = inr (VDict result) ->
        truthy (dict_get result "success" VNone) = false ->
        healer_agent env service (VStr "scale_up") (VInt risk_score) s
        = (inr result,
           {| healing_history := healing_history s;
              events := (events s ++ [scaling])%list |})).
Proof.
  cbv zeta.
  split; [apply scale_bounds_int |].
  split; [intros H; unfold tier; rewrite (proj2 (Z.leb_le 80 risk_score)); [reflexivity | lia] |].
  split; [intros H; unfold tier; rewrite (proj2 (Z.leb_gt 80 risk_score)),
            (proj2 (Z.leb_le 50 risk_score)); [reflexivity | lia | lia] |].
  split; [intros H; unfold tier; rewrite (proj2 (Z.leb_gt 80 risk_score)),
            (proj2 (Z.leb_gt 50 risk_score)); [reflexivity | lia | lia] |].
  split; [intros r s'; apply healer_scale_up_begins |].
  split.
  - intros result verify_result Hscale Hok Hverify.
    unfold healer_agent. cbn [eq_str String.eqb Ascii.eqb Bool.eqb].
    unfold mbind at 1. unfold lift at 1. rewrite scale_bounds_int.
    destruct (tier risk_score) as [min_instances max_instances] eqn:T.
    unfold mbind at 1. rewrite call_mcp_tool_run.
    unfold answer, scale_call in Hscale. cbn [fst snd] in Hscale. rewrite Hscale.
    unfold mbind at 1. cbn [as_dict mret]. rewrite Hok.
    unfold mbind at 1. unfold sleep, emit at 1. cbn [healing_history events].
    unfold mbind at 1. rewrite call_mcp_tool_run. cbn [healing_history events].
    unfold answer, verify_call, scale_call in Hverify. cbn [fst snd] in Hverify.
    rewrite <- app_assoc. cbn [app]. rewrite Hverify.
    unfold mbind at 1. cbn [as_dict mret].
    unfold reports_ready, verify_call, scale_call. cbn [fst snd].
    rewrite <- app_assoc. cbn [app].
    destruct (truthy (dict_get verify_result "success" VNone)
              && truthy (dict_get verify_result "ready" VNone)); reflexivity.
  - intros result Hscale Hfailed.
    unfold healer_agent. cbn [eq_str String.eqb Ascii.eqb Bool.eqb].
    unfold mbind at 1. unfold lift at 1. rewrite scale_bounds_int.
    destruct (tier risk_score) as [min_instances max_instances] eqn:T.
    unfold mbind at 1. rewrite call_mcp_tool_run.
    unfold answer, scale_call in Hscale. cbn [fst snd] in Hscale. rewrite Hscale.
    unfold mbind at 1. cbn [as_dict mret]. rewrite Hfailed.
    reflexivity.
Qed.

(** The scale-up of the end-to-end scenario: risk 90 scales to (5, 20),
    and the service is verified healthy. *)
Lemma healer_scale_up_witness :
  80 <= 90
  /\ healer_agent Samples.degraded_deployment "user-api" (VStr "scale_up") (VInt 90)
       Samples.fresh_agent
     = (inr [ ("success", VBool true);
              ("service", VStr "user-api");
              ("action", VStr "scaled");
              ("verification", VStr "healthy") ],
        {| healing_history := [];
           events :=
             [ scale_call Samples.degraded_deployment "user-api" (5, 20);
               Sleep 10;
               verify_call Samples.degraded_deployment "user-api" ] |}).
Proof.
  split; [lia |].
  exact (proj1 (proj2 (proj2 (proj2 (proj2 (proj2
           (healer_scale_up Samples.degraded_deployment "user-api" 90
              Samples.fresh_agent))))))
           _ _ eq_refl eq_refl eq_refl).
Defined.

(** ** Reports and the history *)

Lemma tool_result_ok tool o :
  reply_ok o = true ->
  exists d, tool_result tool o = inr (VDict d) /\ fields_ok d = true.
Proof.
  destruct o as [msg | v | e]; cbn [reply_ok]; try discriminate.
  - intros _. eexists; split; reflexivity.
  - destruct v; try discriminate. intros H. eexists; split; [reflexivity | exact H].
Qed.

Lemma sliceable_len_slice v n :
  sliceable v = true ->
  (exists k, py_len v = inr k) /\ (exists w, py_slice_to v n = inr w).
Proof.
  destruct v; cbn; try discriminate; intros _; split; eexists; reflexivity.
Qed.

Lemma numeric_scale_bounds v :
  numeric v = true -> exists bounds, scale_bounds v = inr bounds.
Proof.
  destruct v; cbn [numeric]; try discriminate; intros _;
    unfold scale_bounds, py_ge_int, bind, ret.
  - destruct (Z.b2z b >=? 80); [eexists; reflexivity |].
    destruct (Z.b2z b >=? 50); eexists; reflexivity.
  - destruct (n >=? 80); [eexists; reflexivity |].
    destruct (n >=? 50); eexists; reflexivity.
  - destruct (float_ge_Z x 80); [eexists; reflexivity |].
    destruct (float_ge_Z x 50); eexists; reflexivity.
Qed.

Lemma hashable_normalize v :
  hashable v = true -> exists a, normalize_value v = inr a.
Proof.
  destruct v; cbn; try discriminate; intros _; eexists; reflexivity.
Qed.

Section WellFormedReplies.
Context (env : AgentEnv).
Hypothesis replies : forall evs url p, reply_ok (http_post env evs url p) = true.

Lemma call_returns tool parameters s :
  exists d, call_mcp_tool env tool parameters s
            = (inr (VDict d),
               {| healing_history := healing_history s;
                  events := (events s ++ [Post tool (tool_url env tool) parameters])%list |})
            /\ fields_ok d = true.
Proof.
  rewrite call_mcp_tool_run.
  destruct (tool_result_ok tool _ (replies (events s) (tool_url env tool) parameters))
    as (d & -> & Hd).
  exists d. split; [reflexivity | exact Hd].
Qed.

Lemma detector_agent_returns service window s :
  exists d s1, detector_agent env service window s = (inr d, s1) /\ fields_ok d = true.
Proof.
  unfold detector_agent. unfold mbind at 1.
  destruct (call_returns "detect_anomaly"
              [ ("service_name", VStr service);
                ("time_window_minutes", VInt window);
                ("latency_threshold_ms", VFloat 500%float);
                ("kafka_lag_threshold", VInt 5000) ] s) as (d & -> & Hd).
  unfold mbind at 1. cbn [as_dict mret].
  assert (Hs : sliceable (dict_get d "violations" (VList [])) = true).
  { unfold fields_ok in Hd. apply andb_prop in Hd as [Hd _].
    apply andb_prop in Hd as [Hd _]. apply andb_prop in Hd as [Hd _]. exact Hd. }
  destruct (sliceable_len_slice _ 3%nat Hs) as [[k Hk] [w Hw]].
  unfold mbind, lift, mret. rewrite Hk, Hw.
  destruct (truthy _); eexists; eexists; (split; [reflexivity | exact Hd]).
Qed.

Lemma predictor_agent_returns service metrics s :
  exists d s1, predictor_agent env service metrics s = (inr d, s1) /\ fields_ok d = true.
Proof.
  unfold predictor_agent. unfold mbind at 1.
  destruct (call_returns "predict_risk"
              [ ("service_name", VStr service); ("metrics", metrics) ] s)
    as (d & -> & Hd).
  unfold mbind at 1. cbn [as_dict mret].
  assert (Hs : sliceable (dict_get d "root_cause" (VStr "Unknown")) = true).
  { unfold fields_ok in Hd. apply andb_prop in Hd as [Hd _].
    apply andb_prop in Hd as [Hd _]. apply andb_prop in Hd as [_ Hd]. exact Hd. }
  destruct (sliceable_len_slice _ 60%nat Hs) as [_ [w Hw]].
  unfold mbind, lift, mret. rewrite Hw.
  destruct (truthy _); eexists; eexists; (split; [reflexivity | exact Hd]).
Qed.

Lemma healer_agent_returns service action risk_score s :
  numeric risk_score = true ->
  exists h s1, healer_agent env service action risk_score s = (inr h, s1).
Proof.
  intros Hrisk. unfold healer_agent.
  destruct (eq_str action "scale_up").
  { destruct (numeric_scale_bounds _ Hrisk) as ([lo hi] & Hb).
    unfold mbind at 1. unfold lift at 1. rewrite Hb.
    unfold mbind at 1.
    destruct (call_returns "scale_service"
                [ ("service_name", VStr service);
                  ("min_instances", VInt lo);
                  ("max_instances", VInt hi);
                  ("target_cpu_utilization", VInt 70) ] s) as (d & -> & _).
    unfold mbind at 1. cbn [as_dict mret].
    destruct (truthy (dict_get d "success" VNone)); [| eexists; eexists; reflexivity].
    unfold mbind at 1. unfold sleep, emit at 1.
    unfold mbind at 1.
    match goal with
    | |- context [call_mcp_tool env ?t ?p ?st] =>
        destruct (call_returns t p st) as (v & -> & _)
    end.
    unfold mbind at 1. cbn [as_dict mret].
    destruct (_ && _); eexists; eexists; reflexivity. }
  destruct (eq_str action "restart").
  { unfold mbind at 1.
    destruct (call_returns "restart_service" [ ("service_name", VStr service) ] s)
      as (d & -> & _).
    unfold mbind at 1. cbn [as_dict mret]. eexists; eexists; reflexivity. }
  destruct (eq_str action "monitor"); [eexists; eexists; reflexivity |].
  destruct (eq_str action "escalate_human"); eexists; eexists; reflexivity.
Qed.

(** With such replies a run of [heal] returns a report. *)
Lemma heal_returns service alert s :
  exists report s', heal env service alert s = (inr report, s').
Proof.
  unfold heal. unfold mbind at 1. unfold now at 1.
  unfold mbind at 1.
  destruct (detector_agent_returns service 5 s) as (d & s1 & -> & Hd).
  destruct (truthy (dict_get d "anomaly_detected" VNone)); cbn [negb];
    [| eexists; eexists; reflexivity].
  unfold mbind at 1.
  destruct (predictor_agent_returns service (dict_get d "metrics" (VDict [])) s1)
    as (p & s2 & -> & Hp).
  unfold fields_ok in Hp. apply andb_prop in Hp as [Hp Hnum].
  apply andb_prop in Hp as [_ Hhash].
  destruct (hashable_normalize _ Hhash) as (a & Ha).
  unfold mbind at 1. unfold lift at 1. rewrite Ha.
  unfold mbind at 1.
  destruct (healer_agent_returns service a _ s2 Hnum) as (h & s3 & ->).
  eexists; eexists; reflexivity.
Qed.

End WellFormedReplies.

(** A run of [heal] that returns has recorded what it did. *)
Lemma heal_returned (env : AgentEnv) service alert s report s' :
  heal env service alert s = (inr report, s') ->
  run_recorded env s report s'.
Proof.
  unfold heal. unfold mbind at 1. unfold now at 1. unfold mbind at 1.
  destruct (detector_agent env service 5 s) as [[e | d] s1] eqn:D; [discriminate |].
  pose proof (keeps_detector_agent env service 5 s _ s1 D) as K1.
  unfold run_recorded.
  destruct (truthy (dict_get d "anomaly_detected" VNone)) eqn:A; cbn [negb].
  - unfold mbind at 1.
    destruct (predictor_agent env service _ s1) as [[e | p] s2] eqn:P; [discriminate |].
    pose proof (keeps_predictor_agent env service _ s1 _ s2 P) as K2.
    unfold mbind at 1. unfold lift at 1.
    destruct (normalize_value _) as [e | a]; [discriminate |].
    unfold mbind at 1.
    destruct (healer_agent env service a _ s2) as [[e | h] s3] eqn:H; [discriminate |].
    pose proof (keeps_healer_agent env service a _ s2 _ s3 H) as K3.
    unfold mbind, now, history_append, mret. cbn [healing_history events].
    intros [= <- <-]. exists d. split; [reflexivity |]. rewrite A.
    cbn [healing_history events].
    split; [rewrite K3, K2, K1; reflexivity |].
    split; [reflexivity |]. split; [reflexivity |].
    split; [eexists; eexists; split; reflexivity |].
    unfold get_history. cbn [healing_history]. rewrite slice_from_newest. reflexivity.
  - unfold mret. intros [= <- <-]. exists d. split; [reflexivity |]. rewrite A.
    repeat split; auto.
Qed.

(** A run of [heal] that raises leaves the history as it was. *)
Lemma heal_raised (env : AgentEnv) service alert s e s' :
  heal env service alert s = (inl e, s') ->
  healing_history s' = healing_history s.
Proof.
  unfold heal. unfold mbind at 1. unfold now at 1. unfold mbind at 1.
  destruct (detector_agent env service 5 s) as [[e1 | d] s1] eqn:D.
  { pose proof (keeps_detector_agent env service 5 s _ s1 D) as K1.
    intros [= <- <-]. exact K1. }
  pose proof (keeps_detector_agent env service 5 s _ s1 D) as K1.
  destruct (truthy (dict_get d "anomaly_detected" VNone)); cbn [negb];
    [| discriminate].
  unfold mbind at 1.
  destruct (predictor_agent env service _ s1) as [[e2 | p] s2] eqn:P.
  { pose proof (keeps_predictor_agent env service _ s1 _ s2 P) as K2.
    intros [= <- <-]. congruence. }
  pose proof (keeps_predictor_agent env service _ s1 _ s2 P) as K2.
  unfold mbind at 1. unfold lift at 1.
  destruct (normalize_value _) as [e3 | a]; [intros [= <- <-]; congruence |].
  unfold mbind at 1.
  destruct (healer_agent env service a _ s2) as [[e4 | h] s3] eqn:H.
  { pose proof (keeps_healer_agent env service a _ s2 _ s3 H) as K3.
    intros [= <- <-]. congruence. }
  discriminate.
Qed.

(** C4, as the code has it. A run of [heal] that detects an anomaly and
    returns builds one report, with the [start_time] read before detection
    and the [end_time] read after healing, and appends it as the last
    entry of the history, which grows by exactly that entry, so that
    [get_history(1)] returns it; this holds also when prediction or
    healing failed. A run that detects no anomaly returns the short
    report, without [start_time] and [end_time], and leaves the history as
    it was; so does a run in which a stage raises. When every POST fails
    with an HTTP error or answers with a JSON object whose entries have
    the expected types, the run returns. *)
Theorem heal_report_and_history (env : AgentEnv) (service alert : string) (s : agent) :
  (forall report s',
      heal env service alert s = (inr report, s') -> run_recorded env s report s')
  /\ (forall e s',
        heal env service alert s = (inl e, s') ->
        healing_history s' = healing_history s)
  /\ ((forall evs url p, reply_ok (http_post env evs url p) = true) ->
      exists report s', heal env service alert s = (inr report, s')).
Proof.
  split; [intros report s'; apply heal_returned |].
  split; [intros e s'; apply heal_raised |].
  intros replies. apply heal_returns. exact replies.
Qed.

(** What the detection endpoint returns has entries of the expected
    types. *)
Lemma server_detect_fields_ok (tenv : Env.ToolEnv) request :
  match McpServer.detect_anomaly tenv request with
  | McpServer.Body d => fields_ok d = true
  | McpServer.HTTPException _ _ => True
  end.
Proof.
  unfold McpServer.detect_anomaly, McpServer.detect_anomaly_try.
  destruct (Env.timedelta_minutes _) as [e | delta]; cbn [bind]; [exact I |].
  destruct (Env.datetime_sub _ _) as [e | start]; cbn [bind]; [exact I |].
  destruct (Env.run_query _ _ _ _) as [e | [| row rest]]; cbn [bind];
    [exact I | reflexivity |].
  destruct (float_gt _ _), (float_gt_Z _ _), (float_gt _ _); reflexivity.
Qed.

Lemma failing_deployment_replies evs url p :
  reply_ok (http_post Samples.failing_deployment evs url p) = true.
Proof.
  unfold Samples.failing_deployment, Samples.agent_env, Samples.deployment.
  cbn [http_post].
  destruct (String.eqb url "http://localhost:8080/tools/detect_anomaly").
  { destruct (Samples.detect_request p) as [request |]; [| reflexivity].
    match goal with
    | |- context [McpServer.detect_anomaly ?tenv request] =>
        pose proof (server_detect_fields_ok tenv request) as H;
        destruct (McpServer.detect_anomaly tenv request)
    end; [exact H | reflexivity]. }
  destruct (String.eqb url "http://localhost:8080/tools/predict_risk").
  { destruct (Samples.predict_request p); reflexivity. }
  destruct (String.eqb url "http://localhost:8080/tools/scale_service");
    [reflexivity |].
  destruct (String.eqb url "http://localhost:8080/tools/verify_health");
    reflexivity.
Qed.

(** A run in which prediction failed: the report is stored all the same. *)
Lemma heal_report_and_history_witness :
  (forall evs url p, reply_ok (http_post Samples.failing_deployment evs url p) = true)
  /\ (exists report s',
         heal Samples.failing_deployment "user-api" "High latency" Samples.fresh_agent
         = (inr report, s'))
  /\ (let '(outcome, s') :=
        heal Samples.failing_deployment "user-api" "High latency" Samples.fresh_agent in
      match outcome with
      | inr report => run_recorded Samples.failing_deployment Samples.fresh_agent report s'
      | inl _ => False
      end).
Proof.
  split; [exact failing_deployment_replies |].
  split.
  - exact (proj2 (proj2 (heal_report_and_history Samples.failing_deployment
                           "user-api" "High latency" Samples.fresh_agent))
             failing_deployment_replies).
  - destruct (heal Samples.failing_deployment "user-api" "High latency"
                Samples.fresh_agent) as [[e | report] s'] eqn:E.
    + discriminate E.
    + exact (proj1 (heal_report_and_history Samples.failing_deployment
                      "user-api" "High latency" Samples.fresh_agent) report s' E).
Defined.

Example failed_prediction_is_stored :
  let '(outcome, s') :=
    heal Samples.failing_deployment "user-api" "High latency" Samples.fresh_agent in
  match outcome with
  | inr report =>
      healing_history s' = [report]
      /\ dict_lookup report "prediction"
         = Some (VDict [ ("success", VBool false);
                         ("error", VStr "503 model unavailable");
                         ("service", VStr "user-api");
                         ("risk_score", VInt 0);
                         ("recommended_action", VStr "monitor");
                         ("confidence", VStr "low");
                         ("timestamp", VStr "63871286400000000+00:00") ])
  | inl _ => False
  end.
Proof. vm_compute. split; reflexivity. Qed.

(** C4 fails on a run without anomaly: [heal] returns a report that holds
    neither [start_time] nor [end_time], and the history stays empty. *)
Lemma heal_without_anomaly_is_not_stored :
  exists report s',
    heal Samples.quiet_deployment "user-api" "High latency" Samples.fresh_agent
    = (inr report, s')
    /\ healing_history s' = []
    /\ dict_lookup report "start_time" = None
    /\ dict_lookup report "end_time" = None
    /\ get_history 10 s' = (inr [], s').
Proof.
  eexists; eexists. split; [reflexivity |]. repeat split.
Qed.

(** The end-to-end scenario of the design: three violations, a predicted
    risk of 90 with [scale_up], bounds (5, 20), a verified service, and one
    report in the history. *)
Example end_to_end_scenario :
  let '(outcome, s') :=
    heal Samples.degraded_deployment "user-api" "High latency" Samples.fresh_agent in
  match outcome with
  | inr report =>
      dict_lookup report "summary"
      = Some (VDict [ ("anomaly_detected", VBool true);
                      ("risk_score", VInt 90);
                      ("action_taken", VStr "scale_up");
                      ("success", VBool true) ])
      /\ dict_lookup report "healing"
         = Some (VDict [ ("success", VBool true);
                         ("service", VStr "user-api");
                         ("action", VStr "scaled");
                         ("verification", VStr "healthy") ])
      /\ healing_history s' = [report]
      /\ map (fun e => match e with Post tool _ _ => tool | Sleep _ => "sleep" end)
           (events s')
         = ["detect_anomaly"; "predict_risk"; "scale_service"; "sleep"; "verify_health"]
  | inl _ => False
  end.
Proof. vm_compute. repeat split. Qed.

End AgentFacts.

(* ================================================================== *)
(** * Properties of the predictor *)
(* ================================================================== *)

Module PredictorFacts.
Import Py Env Props.

(** Stripping removes no brace. *)
Lemma count_char_lstrip (c : ascii) (s : string) :
  is_space c = false -> count_char c (lstrip s) = count_char c s.
Proof.
  intros Hc. induction s as [| a s IH]; [reflexivity |].
  cbn [lstrip]. destruct (is_space a) eqn:Ha; [| reflexivity].
  rewrite IH. cbn [count_char].
  destruct (Ascii.eqb_spec a c) as [-> | _]; [congruence | reflexivity].
Qed.

Lemma count_char_rstrip (c : ascii) (s : string) :
  is_space c = false -> count_char c (rstrip s) = count_char c s.
Proof.
  intros Hc. induction s as [| a s IH]; [reflexivity |].
  cbn [rstrip count_char]. rewrite <- IH.
  destruct (rstrip s) as [| b r]; [| reflexivity].
  destruct (is_space a) eqn:Ha; [| reflexivity].
  destruct (Ascii.eqb_spec a c) as [-> | _]; [congruence | reflexivity].
Qed.

Lemma count_char_strip (c : ascii) (s : string) :
  is_space c = false -> count_char c (strip s) = count_char c s.
Proof.
  intros Hc. unfold strip.
  rewrite count_char_rstrip, count_char_lstrip by exact Hc. reflexivity.
Qed.

Lemma numeric_gt_int v n : numeric v = true -> py_gt_int v n = inr (number_gt_int v n).
Proof. destruct v; cbn; try discriminate; reflexivity. Qed.

Lemma numeric_gt_float v c :
  numeric v = true -> py_gt_float v c = inr (number_gt_float v c).
Proof. destruct v; cbn; try discriminate; reflexivity. Qed.

(** The fallback prediction on numbers. *)
Lemma fallback_prediction_numeric (metrics : dict) :
  let avg_latency := dict_get metrics "avg_latency_ms" (VInt 0) in
  let error_rate := dict_get metrics "avg_error_rate" (VInt 0) in
  numeric avg_latency = true ->
  numeric error_rate = true ->
  McpServer.fallback_prediction metrics
  = inr (if number_gt_int avg_latency 1500 || number_gt_float error_rate 0.05%float
         then McpServer.fallback_scale_up else McpServer.fallback_monitor).
Proof.
  intros avg_latency error_rate Hl He. unfold McpServer.fallback_prediction.
  fold avg_latency error_rate.
  rewrite (numeric_gt_int _ 1500 Hl). cbn [bind].
  destruct (number_gt_int avg_latency 1500); [reflexivity |].
  rewrite (numeric_gt_float _ 0.05%float He). reflexivity.
Qed.

(** A response whose braces do not match takes the endpoint to the
    fallback, and the parser is not called. *)
Lemma server_parse_truncated (env : ToolEnv) (request : McpServer.PredictRiskRequest)
    (text : string) :
  generate_content env
    (server_prompt env (McpServer.pr_service_name request) (McpServer.pr_metrics request))
  = inr text ->
  count_char "{" text <> count_char "}" text ->
  McpServer.predict_risk_parse env request
  = bind (McpServer.fallback_prediction (McpServer.pr_metrics request))
      (fun prediction => ret (VDict prediction)).
Proof.
  intros Hgen Hcut. unfold McpServer.predict_risk_parse.
  rewrite Hgen. cbn [bind].
  rewrite !count_char_strip by reflexivity.
  destruct (Z.eqb_spec (count_char "{" text) (count_char "}" text)) as [E | _];
    [contradiction | reflexivity].
Qed.

(** C5, as the code has it. When the response of the model does not have
    as many opening as closing braces, the endpoint does not parse it,
    whatever the parser would do, and answers with a prediction computed
    from [avg_latency_ms] and [avg_error_rate] alone (an absent entry
    counts as 0): risk 85 and [scale_up] when the latency is above 1500 or
    the error rate above 0.05, risk 50 and [monitor] otherwise. This needs
    the entries that are compared to be numbers: when a comparison raises,
    the endpoint returns the zero-risk failure result with the message of
    the exception. In no case does it raise. *)
Theorem truncated_response_fallback (env : ToolEnv)
    (request : McpServer.PredictRiskRequest) (text : string) :
  let metrics := McpServer.pr_metrics request in
  let avg_latency := dict_get metrics "avg_latency_ms" (VInt 0) in
  let error_rate := dict_get metrics "avg_error_rate" (VInt 0) in
  let exceeded :=
    number_gt_int avg_latency 1500 || number_gt_float error_rate 0.05%float in
  generate_content env (server_prompt env (McpServer.pr_service_name request) metrics)
  = inr text ->
  count_char "{" text <> count_char "}" text ->
  (numeric avg_latency = true ->
   numeric error_rate = true ->
   forall loads,
     let r := McpServer.predict_risk (with_json_loads env loads) request in
     r = dict_merge
           [ ("success", VBool true);
             ("service", VStr (McpServer.pr_service_name request));
             ("timestamp", VStr (isoformat_aware env (utcnow env 0))) ]
           (if exceeded then McpServer.fallback_scale_up else McpServer.fallback_monitor)
     /\ dict_lookup r "success" = Some (VBool true)
     /\ dict_lookup r "risk_score" = Some (VInt (if exceeded then 85 else 50))
     /\ dict_lookup r "recommended_action"
        = Some (VStr (if exceeded then "scale_up" else "monitor")))
  /\ (forall e,
        McpServer.fallback_prediction metrics = inl e ->
        failed_prediction 0 (str_exn e) (McpServer.predict_risk env request)).
Proof.
  intros metrics avg_latency error_rate exceeded Hgen Hcut. split.
  - intros Hl He loads r.
    assert (E : r = dict_merge
                      [ ("success", VBool true);
                        ("service", VStr (McpServer.pr_service_name request));
                        ("timestamp", VStr (isoformat_aware env (utcnow env 0))) ]
                      (if exceeded then McpServer.fallback_scale_up
                       else McpServer.fallback_monitor)).
    { unfold r, McpServer.predict_risk.
      rewrite (server_parse_truncated (with_json_loads env loads) request text Hgen Hcut).
      rewrite (fallback_prediction_numeric (McpServer.pr_metrics request) Hl He).
      reflexivity. }
    split; [exact E |]. rewrite E.
    destruct exceeded; repeat split; reflexivity.
  - intros e He. unfold McpServer.predict_risk.
    rewrite (server_parse_truncated env request text Hgen Hcut).
    fold metrics. rewrite He. cbn [bind].
    unfold failed_prediction. repeat split; reflexivity.
Qed.

(** The fallback on the metrics of the end-to-end scenario. *)
Lemma truncated_response_fallback_witness :
  let env :=
    Samples.tool_env (inr [Samples.degraded_row]) (inr Samples.truncated_reply)
      Samples.no_json in
  let request :=
    {| McpServer.pr_service_name := "user-api";
       McpServer.pr_metrics := McpTools.metrics_of_row Samples.degraded_row |} in
  (count_char "{" Samples.truncated_reply =? count_char "}" Samples.truncated_reply)
  = false
  /\ dict_lookup (McpServer.predict_risk env request) "risk_score" = Some (VInt 85)
  /\ dict_lookup (McpServer.predict_risk env request) "recommended_action"
     = Some (VStr "scale_up").
Proof.
  cbv zeta. split; [reflexivity |].
  pose proof (proj1 (truncated_response_fallback
                       (Samples.tool_env (inr [Samples.degraded_row])
                          (inr Samples.truncated_reply) Samples.no_json)
                       {| McpServer.pr_service_name := "user-api";
                          McpServer.pr_metrics :=
                            McpTools.metrics_of_row Samples.degraded_row |}
                       Samples.truncated_reply eq_refl
                       ltac:(vm_compute; discriminate))
                eq_refl eq_refl Samples.no_json) as (_ & _ & Hrisk & Haction).
  split; [exact Hrisk | exact Haction].
Defined.

(** C5 fails in two ways. A null [avg_latency_ms] cannot be compared with
    1500, and the endpoint answers a truncated response with the
    zero-risk failure result, neither 85 nor 50. And the latency
    threshold of the fallback is not the one of the detector: an average
    latency of 1000 ms violates the threshold of 500 ms, and the fallback
    answers 50 and [monitor]. *)
Lemma fallback_is_not_always_85_or_50 :
  (count_char "{" Samples.truncated_reply =? count_char "}" Samples.truncated_reply)
  = false
  /\ McpServer.predict_risk
       (Samples.tool_env (inr []) (inr Samples.truncated_reply) Samples.no_json)
       {| McpServer.pr_service_name := "user-api";
          McpServer.pr_metrics :=
            [ ("avg_latency_ms", VNone); ("avg_error_rate", VFloat 0.2%float) ] |}
     = [ ("success", VBool false);
         ("error", VStr "'>' not supported between instances of 'NoneType' and 'int'");
         ("service", VStr "user-api");
         ("risk_score", VInt 0);
         ("recommended_action", VStr "monitor");
         ("confidence", VStr "low");
         ("timestamp", VStr "63871286400000000+00:00") ]
  /\ McpTools.latency_rule Samples.slow_row 500%float = true
  /\ dict_lookup
       (McpServer.predict_risk
          (Samples.tool_env (inr [Samples.slow_row]) (inr Samples.truncated_reply)
             Samples.no_json)
          {| McpServer.pr_service_name := "user-api";
             McpServer.pr_metrics := McpTools.metrics_of_row Samples.slow_row |})
       "risk_score"
     = Some (VInt 50).
Proof. repeat split. Qed.

(** ** Failures of the prediction *)

Lemma server_predict_failed (env : ToolEnv) request e :
  McpServer.predict_risk_parse env request = inl e ->
  failed_prediction 0 (str_exn e) (McpServer.predict_risk env request).
Proof.
  intros H. unfold McpServer.predict_risk. rewrite H.
  unfold failed_prediction. repeat split; reflexivity.
Qed.

Lemma server_predict_not_a_mapping (env : ToolEnv) request v :
  McpServer.predict_risk_parse env request = inr v ->
  is_dict v = false ->
  failed_prediction 0 ("'" ++ type_name v ++ "' object is not a mapping")
    (McpServer.predict_risk env request).
Proof.
  intros H Hv. unfold McpServer.predict_risk. rewrite H.
  destruct v; try discriminate Hv; unfold failed_prediction; repeat split; reflexivity.
Qed.

(** Once the lazy imports are done, an exception of the [try] block
    reaches the handlers of the tool. *)
Lemma tools_predict_failed (env : ToolEnv) service metrics e :
  tools_imports env = inr tt ->
  McpTools.predict_risk_parse env service metrics = inl e ->
  exists r,
    McpTools.predict_risk env service metrics = inr r
    /\ match exc_type e with
       | JSONDecodeError =>
           dict_lookup r "success" = Some (VBool false)
           /\ dict_lookup r "risk_score" = Some (VInt 50)
           /\ dict_lookup r "recommended_action" = Some (VStr "monitor")
           /\ dict_lookup r "confidence" = Some (VStr "low")
           /\ dict_lookup r "error" = Some (VStr "json_parse_error")
           /\ dict_lookup r "message"
              = Some (VStr ("Failed to parse Gemini response: " ++ str_exn e))
       | _ => failed_prediction 0 (str_exn e) r
       end.
Proof.
  intros Hi H. unfold McpTools.predict_risk. rewrite H, Hi.
  eexists. split; [reflexivity |].
  destruct e as [c msg]; destruct c; unfold failed_prediction;
    cbn [exc_type]; repeat split; reflexivity.
Qed.

Lemma tools_predict_not_a_mapping (env : ToolEnv) service metrics v :
  McpTools.predict_risk_parse env service metrics = inr v ->
  is_dict v = false ->
  exists r,
    McpTools.predict_risk env service metrics = inr r
    /\ failed_prediction 0 ("'" ++ type_name v ++ "' object is not a mapping") r.
Proof.
  intros H Hv. unfold McpTools.predict_risk. rewrite H.
  destruct v; try discriminate Hv; eexists; (split; [reflexivity |]);
    unfold failed_prediction; repeat split; reflexivity.
Qed.

(** Once the lazy imports are done, the tool returns. *)
Lemma tools_predict_returns (env : ToolEnv) service metrics :
  tools_imports env = inr tt ->
  exists r, McpTools.predict_risk env service metrics = inr r.
Proof.
  intros Hi. unfold McpTools.predict_risk. rewrite Hi.
  destruct (McpTools.predict_risk_parse env service metrics) as [e | v];
    [eexists; reflexivity |].
  destruct v; eexists; reflexivity.
Qed.

(** C6, as the code has it by design. The endpoint of the HTTP server
    does not raise, and answers every exception of its [try] block (a
    failing call of the model, a response that does not parse, a parsed
    response that is no object) with [success = false], [risk_score = 0],
    [recommended_action = "monitor"], [confidence = "low"] and the message
    of the exception. The MCP tool, once the lazy imports at the head of
    its [try] block are done, does not raise either, and answers every
    exception in the same way but a JSON decoding error: a response that
    does not parse it answers with [risk_score = 50], the error
    [json_parse_error], and the message of the exception under
    [message]. *)
Theorem predict_risk_failure_modes (env : ToolEnv) (service : string) (metrics : dict) :
  let request :=
    {| McpServer.pr_service_name := service; McpServer.pr_metrics := metrics |} in
  (* the endpoint *)
  (forall e,
      McpServer.predict_risk_parse env request = inl e ->
      failed_prediction 0 (str_exn e) (McpServer.predict_risk env request))
  /\ (forall v,
        McpServer.predict_risk_parse env request = inr v ->
        is_dict v = false ->
        failed_prediction 0 ("'" ++ type_name v ++ "' object is not a mapping")
          (McpServer.predict_risk env request))
  /\ (forall e,
        generate_content env (server_prompt env service metrics) = inl e ->
        McpServer.predict_risk_parse env request = inl e)
  /\ (forall text e,
        generate_content env (server_prompt env service metrics) = inr text ->
        count_char "{" text = count_char "}" text ->
        json_loads env (McpServer.extract_json (strip text)) = inl e ->
        McpServer.predict_risk_parse env request = inl e)
  (* the tool, once its imports are done *)
  /\ (tools_imports env = inr tt ->
      (exists r, McpTools.predict_risk env service metrics = inr r)
      /\ (forall e,
            McpTools.predict_risk_parse env service metrics = inl e ->
            exists r,
              McpTools.predict_risk env service metrics = inr r
              /\ match exc_type e with
                 | JSONDecodeError =>
                     dict_lookup r "success" = Some (VBool false)
                     /\ dict_lookup r "risk_score" = Some (VInt 50)
                     /\ dict_lookup r "recommended_action" = Some (VStr "monitor")
                     /\ dict_lookup r "confidence" = Some (VStr "low")
                     /\ dict_lookup r "error" = Some (VStr "json_parse_error")
                     /\ dict_lookup r "message"
                        = Some (VStr ("Failed to parse Gemini response: "
                                        ++ str_exn e))
                 | _ => failed_prediction 0 (str_exn e) r
                 end)
      /\ (forall v,
            McpTools.predict_risk_parse env service metrics = inr v ->
            is_dict v = false ->
            exists r,
              McpTools.predict_risk env service metrics = inr r
              /\ failed_prediction 0
                   ("'" ++ type_name v ++ "' object is not a mapping") r)
      /\ (forall prompt e,
            tools_prompt env service metrics = inr prompt ->
            generate_content env prompt = inl e ->
            McpTools.predict_risk_parse env service metrics = inl e)
      /\ (forall prompt text cleaned e,
            tools_prompt env service metrics = inr prompt ->
            generate_content env prompt = inr text ->
            McpTools.strip_code_fence (strip text) = inr cleaned ->
            json_loads env cleaned = inl e ->
            McpTools.predict_risk_parse env service metrics = inl e)).
Proof.
  intros request.
  split; [intros e; apply server_predict_failed |].
  split; [intros v; apply server_predict_not_a_mapping |].
  split.
  { intros e H. unfold McpServer.predict_risk_parse. cbn [request
      McpServer.pr_service_name McpServer.pr_metrics]. rewrite H. reflexivity. }
  split.
  { intros text e Hgen Hbal Hparse. unfold McpServer.predict_risk_parse.
    cbn [request McpServer.pr_service_name McpServer.pr_metrics].
    rewrite Hgen. cbn [bind].
    rewrite !count_char_strip by reflexivity.
    rewrite Hbal, Z.eqb_refl. cbn [negb]. exact Hparse. }
  intros Hi.
  split; [apply tools_predict_returns; exact Hi |].
  split; [intros e; apply tools_predict_failed; exact Hi |].
  split; [intros v; apply tools_predict_not_a_mapping |].
  split.
  { intros prompt e Hp Hgen. unfold McpTools.predict_risk_parse.
    rewrite Hi. cbn [bind]. rewrite Hp. cbn [bind]. rewrite Hgen. reflexivity. }
  intros prompt text cleaned e Hp Hgen Hclean Hparse.
  unfold McpTools.predict_risk_parse.
  rewrite Hi. cbn [bind]. rewrite Hp. cbn [bind]. rewrite Hgen. cbn [bind].
  rewrite Hclean. cbn [bind]. exact Hparse.
Qed.

(** A reply that is no JSON, at the endpoint and at the tool: the
    zero-risk result of the one, and a result of the other. *)
Lemma predict_risk_failure_modes_witness :
  failed_prediction 0 "Expecting value: line 1 column 1 (char 0)"
    (McpServer.predict_risk
       (Samples.tool_env (inr []) (inr Samples.apology) Samples.no_json)
       {| McpServer.pr_service_name := "user-api";
          McpServer.pr_metrics := McpTools.metrics_of_row Samples.degraded_row |})
  /\ exists r,
       McpTools.predict_risk
         (Samples.tool_env (inr []) (inr Samples.apology) Samples.no_json)
         "user-api" (McpTools.metrics_of_row Samples.degraded_row) = inr r.
Proof.
  pose proof (predict_risk_failure_modes
                (Samples.tool_env (inr []) (inr Samples.apology) Samples.no_json)
                "user-api" (McpTools.metrics_of_row Samples.degraded_row))
    as (Hserver & _ & _ & _ & Htool).
  split.
  - exact (Hserver (Exn JSONDecodeError "Expecting value: line 1 column 1 (char 0)")
             eq_refl).
  - exact (proj1 (Htool eq_refl)).
Defined.

(** C6 fails on the tool: a reply that is no JSON is answered with the
    risk score 50, not 0, and the error is a fixed word, not the message. *)
Lemma tools_parse_failure_scores_50 :
  McpTools.predict_risk
    (Samples.tool_env (inr []) (inr Samples.apology) Samples.no_json)
    "user-api" (McpTools.metrics_of_row Samples.degraded_row)
  = inr [ ("success", VBool false);
          ("error", VStr "json_parse_error");
          ("service", VStr "user-api");
          ("risk_score", VInt 50);
          ("recommended_action", VStr "monitor");
          ("confidence", VStr "low");
          ("message",
           VStr "Failed to parse Gemini response: Expecting value: line 1 column 1 (char 0)") ].
Proof. reflexivity. Qed.

(** The tool where a library of the model is not installed: matching the
    first handler raises, whatever the import raised. *)
Example tools_predict_risk_without_imports :
  McpTools.predict_risk
    (with_tools_imports
       (Samples.tool_env (inr []) (inr Samples.apology) Samples.no_json)
       (raise (OtherError "ModuleNotFoundError") "No module named 'vertexai'"))
    "user-api" (McpTools.metrics_of_row Samples.degraded_row)
  = inl McpTools.json_unbound.
Proof. reflexivity. Qed.

End PredictorFacts.

(* ================================================================== *)
(** * Further properties of the tools *)
(* ================================================================== *)

Module ToolsMoreFacts.
Import Py Env Props ToolsMoreProps.

(** ** The two implementations of the detector *)

(** Looking up a key, other than the excluded one, in two dictionaries
    whose entries are given. *)
Ltac same_entries k :=
  cbn [dict_lookup];
  repeat match goal with
         | |- context [String.eqb ?a k] =>
             destruct (String.eqb_spec a k) as [<- | ?];
             [first [reflexivity | congruence] |]
         end;
  reflexivity.

(** X9. Whenever the query of the window returns, with rows or without, the
    endpoint of [mcp_server.py] answers with a body that has the keys of
    the result of the tool of [mcp_tools.py], in another order when rows
    were found, and the same value at every key but [query_time]. That
    entry is the same moment in both, the end of the window, which the
    tool renders as a naive moment and the endpoint as an aware one. *)
Theorem detect_anomaly_implementations_agree (env : ToolEnv) (service : string)
    (m : Z) (lat : float) (kaf : Z) (rows : list Row) :
  window_rows env service m = inr rows ->
  let r := McpTools.detect_anomaly env service m lat kaf in
  exists body,
    McpServer.detect_anomaly env (request_of service m lat kaf) = McpServer.Body body
    /\ List.length body = List.length r
    /\ (forall k, k <> "query_time" -> dict_lookup body k = dict_lookup r k)
    /\ dict_lookup r "query_time" = Some (VStr (isoformat env (utcnow env 0)))
    /\ dict_lookup body "query_time"
       = Some (VStr (isoformat_aware env (utcnow env 0))).
Proof.
  intros W. cbv zeta. unfold McpServer.detect_anomaly, McpTools.detect_anomaly.
  destruct rows as [| row rest].
  - unfold McpServer.detect_anomaly_try, McpTools.detect_anomaly_try, request_of;
      cbn [McpServer.da_service_name McpServer.da_time_window_minutes
           McpServer.da_latency_threshold_ms McpServer.da_kafka_lag_threshold].
    unfold window_rows in W.
    destruct (timedelta_minutes m) as [e | delta]; [discriminate W |].
    cbn [bind] in W |- *.
    destruct (datetime_sub (utcnow env 0) delta) as [e | start]; [discriminate W |].
    cbn [bind] in W |- *. rewrite W. cbn [bind ret].
    eexists. split; [reflexivity |]. split; [reflexivity |].
    split; [| split; reflexivity].
    intros k Hk. same_entries k.
  - rewrite (DetectorFacts.server_try_rows env service m lat kaf row rest W).
    rewrite (DetectorFacts.tools_try_rows env service m lat kaf row rest W).
    eexists. split; [reflexivity |]. split; [reflexivity |].
    split; [| split; reflexivity].
    intros k Hk. same_entries k.
Qed.

(** The two implementations on the window of the end-to-end scenario. *)
Lemma detect_anomaly_implementations_agree_witness :
  let env := Samples.tool_env (inr [Samples.degraded_row]) (inr "") Samples.no_json in
  let r := McpTools.detect_anomaly env "user-api" 5 500%float 5000 in
  exists body,
    McpServer.detect_anomaly env Samples.user_api_request = McpServer.Body body
    /\ dict_lookup body "anomaly_detected" = dict_lookup r "anomaly_detected"
    /\ dict_lookup body "violations" = dict_lookup r "violations"
    /\ dict_lookup r "query_time" = Some (VStr "63871286400000000")
    /\ dict_lookup body "query_time" = Some (VStr "63871286400000000+00:00").
Proof.
  cbv zeta.
  destruct (detect_anomaly_implementations_agree
              (Samples.tool_env (inr [Samples.degraded_row]) (inr "") Samples.no_json)
              "user-api" 5 500%float 5000 [Samples.degraded_row] eq_refl)
    as (body & Hbody & _ & Hsame & Htool & Hserver).
  exists body. split; [exact Hbody |].
  split; [exact (Hsame "anomaly_detected" ltac:(discriminate)) |].
  split; [exact (Hsame "violations" ltac:(discriminate)) |].
  split; [exact Htool | exact Hserver].
Defined.

(** ** The response of the model in the result of a prediction *)

Lemma dict_lookup_set (d : dict) (k : string) (v : value) (k' : string) :
  dict_lookup (dict_set d k v) k'
  = if String.eqb k k' then Some v else dict_lookup d k'.
Proof.
  induction d as [| [k0 v0] d IH]; cbn [dict_set dict_lookup]; [reflexivity |].
  destruct (String.eqb_spec k0 k) as [-> | Hne]; cbn [dict_lookup].
  - destruct (String.eqb k k'); reflexivity.
  - rewrite IH.
    destruct (String.eqb_spec k0 k') as [-> | Hne']; [| reflexivity].
    destruct (String.eqb_spec k k') as [-> | _]; [contradiction | reflexivity].
Qed.

Lemma dict_lookup_merge (d1 d2 : dict) (k : string) :
  unique_keys d2 = true ->
  dict_lookup (dict_merge d1 d2) k = laid_over d1 d2 k.
Proof.
  unfold dict_merge, laid_over. revert d1.
  induction d2 as [| [k0 v0] d2 IH]; intros d1 U; [reflexivity |].
  cbn [unique_keys] in U. destruct (dict_lookup d2 k0) eqn:L0; [discriminate U |].
  cbn [fold_left fst snd dict_lookup]. rewrite (IH _ U), dict_lookup_set.
  destruct (String.eqb_spec k0 k) as [<- | _]; [rewrite L0 |]; reflexivity.
Qed.

(** X10. The parsed response of the model is spread over the entries that
    [predict_risk] sets itself, so each of its keys wins: a response with
    its own [success], [service] or [timestamp] replaces the one of the
    tool, and every other key of the response is passed on as it is. This
    holds for the tool, which returns then, and for the endpoint. *)
Theorem predict_risk_response_overrides (env : ToolEnv) (service : string)
    (metrics prediction : dict) :
  unique_keys prediction = true ->
  (McpTools.predict_risk_parse env service metrics = inr (VDict prediction) ->
   exists r,
     McpTools.predict_risk env service metrics = inr r
     /\ forall k, dict_lookup r k = laid_over (envelope env service) prediction k)
  /\ (McpServer.predict_risk_parse env (predict_request_of service metrics)
      = inr (VDict prediction) ->
      forall k,
        dict_lookup (McpServer.predict_risk env (predict_request_of service metrics)) k
        = laid_over (server_envelope env service) prediction k).
Proof.
  intros U. split; intros P.
  - unfold McpTools.predict_risk. rewrite P.
    eexists. split; [reflexivity |].
    intros k. apply (dict_lookup_merge _ _ _ U).
  - intros k. unfold McpServer.predict_risk. rewrite P.
    apply (dict_lookup_merge _ _ _ U).
Qed.

(** A response with a [success] and a [service] of its own. *)
Lemma predict_risk_response_overrides_witness :
  let env := MoreSamples.overriding_env in
  let body := McpServer.predict_risk env (predict_request_of "user-api" []) in
  (exists r,
      McpTools.predict_risk env "user-api" [] = inr r
      /\ dict_lookup r "success" = Some (VBool false)
      /\ dict_lookup r "service" = Some (VStr "billing")
      /\ dict_lookup r "risk_score" = Some (VInt 90)
      /\ dict_lookup r "timestamp" = Some (VStr (isoformat env (utcnow env 0))))
  /\ (dict_lookup body "success" = Some (VBool false)
      /\ dict_lookup body "service" = Some (VStr "billing")
      /\ dict_lookup body "timestamp"
         = Some (VStr (isoformat_aware env (utcnow env 0)))).
Proof.
  cbv zeta.
  destruct (predict_risk_response_overrides MoreSamples.overriding_env "user-api" []
              MoreSamples.overriding_prediction eq_refl) as [Htool Hserver].
  split.
  - destruct (Htool eq_refl) as (r & Hr & Hk). exists r.
    split; [exact Hr |]. split; [exact (Hk "success") |].
    split; [exact (Hk "service") |].
    split; [exact (Hk "risk_score") | exact (Hk "timestamp")].
  - split; [exact (Hserver eq_refl "success") |].
    split; [exact (Hserver eq_refl "service") | exact (Hserver eq_refl "timestamp")].
Defined.

(** ** Text around the JSON object *)













(** ** Code fences *)

Lemma split_aux_some (sep s : string) (skip : nat) (cur : list ascii) :
  exists part parts, split_aux sep s skip cur = part :: parts.
Proof.
  revert skip cur. induction s as [| a s IH]; intros skip cur.
  - eexists. eexists. reflexivity.
  - cbn [split_aux]. destruct skip as [| k]; [| apply IH].
    destruct (String.prefix sep (String a s)); [| apply IH].
    eexists. eexists. reflexivity.
Qed.

(** X12. The markdown branch of the tool cannot fail: a text that opens with a
    fence splits into two parts at least, so that the index 1 exists, and
    the tool returns a text for every response: the response itself when
    it does not open with a fence. *)
Theorem strip_code_fence_never_raises (response_text : string) :
  exists kept,
    McpTools.strip_code_fence response_text = inr kept
    /\ (startswith response_text fence = false -> kept = response_text).
Proof.
  unfold McpTools.strip_code_fence, fence.
  destruct (startswith response_text "```") eqn:F.
  2:{ eexists. split; [reflexivity | reflexivity]. }
  unfold startswith in F. unfold split.
  destruct response_text as [| a s]; [discriminate F |].
  cbn [split_aux]. rewrite F.
  destruct (split_aux_some "```" s (String.length "```" - 1) []) as (part & parts & ->).
  cbn [nth_error]. eexists. split; [reflexivity | discriminate].
Qed.












Lemma rstrip_last (s : string) (c : ascii) :
  is_space c = false -> rstrip (s ++ String c "") = s ++ String c "".
Proof.
  intros Hc. induction s as [| a s IH].
  - cbn [append rstrip]. rewrite Hc. reflexivity.
  - cbn [append rstrip]. rewrite IH. destruct s; reflexivity.
Qed.







End ToolsMoreFacts.
(* ================================================================== *)
(** * Further properties of the orchestrator *)
(* ================================================================== *)

Module AgentMoreFacts.
Import Py RootAgent Props AgentProps AgentMoreProps AgentFacts.

(** ** The healer and the controller *)

(** X2. The healer contacts the controller for [scale_up] and [restart] only:
    for every other action, a string or not, and every risk score, a
    number or not, it returns without an event and without raising, and
    with [success] true exactly for [monitor] and [escalate_human]. *)
Theorem healer_local_actions (env : AgentEnv) (service : string)
    (action risk_score : value) (s : agent) :
  reaches_controller action = false ->
  exists result,
    healer_agent env service action risk_score s = (inr result, s)
    /\ dict_lookup result "success"
       = Some (VBool (eq_str action "monitor" || eq_str action "escalate_human"))
    /\ (eq_str action "monitor" || eq_str action "escalate_human" = false ->
        dict_lookup result "error"
        = Some (VStr ("Unknown action: " ++ py_str (str_object env) action))).
Proof.
  unfold reaches_controller. intros H.
  apply orb_false_elim in H as [Hscale Hrestart].
  unfold healer_agent. rewrite Hscale, Hrestart.
  destruct (eq_str action "monitor") eqn:Hm.
  { eexists. split; [reflexivity |]. split; [reflexivity | discriminate]. }
  destruct (eq_str action "escalate_human") eqn:He.
  { eexists. split; [reflexivity |]. split; [reflexivity | discriminate]. }
  eexists. split; [reflexivity |]. split; reflexivity.
Qed.

(** An action in another case, and one that is no string. *)
Lemma healer_local_actions_witness :
  (exists result,
      healer_agent Samples.degraded_deployment "user-api" (VStr "Scale_Up") (VInt 90)
        Samples.fresh_agent = (inr result, Samples.fresh_agent)
      /\ dict_lookup result "success" = Some (VBool false)
      /\ dict_lookup result "error" = Some (VStr "Unknown action: Scale_Up"))
  /\ (exists result,
        healer_agent Samples.degraded_deployment "user-api" (VStr "monitor")
          (VStr "high") Samples.fresh_agent = (inr result, Samples.fresh_agent)
        /\ dict_lookup result "success" = Some (VBool true)).
Proof.
  split.
  - destruct (healer_local_actions Samples.degraded_deployment "user-api"
                (VStr "Scale_Up") (VInt 90) Samples.fresh_agent eq_refl)
      as (result & Hrun & Hs & He).
    exists result. split; [exact Hrun |]. split; [exact Hs | exact (He eq_refl)].
  - destruct (healer_local_actions Samples.degraded_deployment "user-api"
                (VStr "monitor") (VStr "high") Samples.fresh_agent eq_refl)
      as (result & Hrun & Hs & _).
    exists result. split; [exact Hrun | exact Hs].
Defined.

(** What the healer adds to the events, whatever the action, the risk and
    the outcome. *)
Lemma healer_agent_events (env : AgentEnv) service action risk_score s r s' :
  healer_agent env service action risk_score s = (r, s') ->
  exists added,
    events s' = (events s ++ added)%list /\ In (map label added) healer_sequences.
Proof.
  unfold healer_agent, healer_sequences.
  destruct (eq_str action "scale_up").
  { unfold mbind at 1. unfold lift at 1.
    destruct (scale_bounds risk_score) as [e | [lo hi]].
    { intros [= <- <-]. exists []. rewrite app_nil_r. cbn. auto. }
    unfold mbind at 1. rewrite call_mcp_tool_run.
    destruct (tool_result _ _) as [e | v].
    { intros [= <- <-]. eexists. split; [reflexivity |]. cbn. auto. }
    unfold mbind at 1.
    destruct v; cbn [as_dict lift mret];
      try (intros [= <- <-]; eexists; split; [reflexivity |]; cbn; auto).
    destruct (truthy _).
    2:{ intros [= <- <-]; eexists; split; [reflexivity |]; cbn; auto. }
    unfold mbind at 1. unfold sleep, emit at 1. cbn [healing_history events].
    unfold mbind at 1. rewrite call_mcp_tool_run. cbn [healing_history events].
    assert (Hshape : forall (r0 : result dict) st,
               (r0, st) = (r, s') ->
               events st
               = (events s
                    ++ [ Post "scale_service" (tool_url env "scale_service")
                           [ ("service_name", VStr service);
                             ("min_instances", VInt lo);
                             ("max_instances", VInt hi);
                             ("target_cpu_utilization", VInt 70) ];
                         Sleep 10;
                         Post "verify_health" (tool_url env "verify_health")
                           [ ("service_name", VStr service) ] ])%list ->
               exists added,
                 events s' = (events s ++ added)%list
                 /\ In (map label added) healer_sequences).
    { intros r0 st [= <- <-] E. eexists. split; [exact E |]. cbn. auto. }
    destruct (tool_result _ _) as [e | v].
    { intros H. eapply Hshape; [exact H |]. cbn [events].
      rewrite <- !app_assoc. reflexivity. }
    unfold mbind at 1.
    destruct v; cbn [as_dict lift mret];
      try (intros H; eapply Hshape; [exact H |]; cbn [events];
           rewrite <- !app_assoc; reflexivity).
    destruct (_ && _); intros H; (eapply Hshape; [exact H |]); cbn [events];
      rewrite <- !app_assoc; reflexivity. }
  destruct (eq_str action "restart").
  { unfold mbind at 1. rewrite call_mcp_tool_run.
    destruct (tool_result _ _) as [e | v].
    { intros [= <- <-]. eexists. split; [reflexivity |]. cbn. auto. }
    unfold mbind at 1.
    destruct v; cbn [as_dict lift mret];
      intros [= <- <-]; eexists; (split; [reflexivity |]); cbn; auto. }
  destruct (eq_str action "monitor");
    [intros [= <- <-]; exists []; rewrite app_nil_r; cbn; auto |].
  destruct (eq_str action "escalate_human");
    intros [= <- <-]; exists []; rewrite app_nil_r; cbn; auto.
Qed.

(** The predictor makes one POST, whatever comes of it. *)
Lemma predictor_agent_events (env : AgentEnv) service metrics s r s1 :
  predictor_agent env service metrics s = (r, s1) ->
  events s1 = (events s ++ [predict_call env service metrics])%list.
Proof.
  unfold predictor_agent, mbind. rewrite call_mcp_tool_run.
  destruct (tool_result _ _) as [e | v]; [intros [= <- <-]; reflexivity |].
  destruct v; cbn [as_dict lift mret]; try (intros [= <- <-]; reflexivity).
  destruct (truthy _); cbn [mret lift].
  - destruct (py_slice_to _ _); intros [= <- <-]; reflexivity.
  - intros [= <- <-]; reflexivity.
Qed.

(** ** A run of [heal], stage by stage *)

Lemma heal_stages (env : AgentEnv) (service alert : string) (s : agent) :
  heal env service alert s
  = match detector_agent env service 5 s with
    | (inl e, s1) => (inl e, s1)
    | (inr detection, s1) =>
        if truthy (dict_get detection "anomaly_detected" VNone)
        then
          match predictor_agent env service
                  (dict_get detection "metrics" (VDict [])) s1 with
          | (inl e, s2) => (inl e, s2)
          | (inr prediction, s2) =>
              match normalize_value
                      (dict_get prediction "recommended_action" (VStr "monitor")) with
              | inl e => (inl e, s2)
              | inr action =>
                  match healer_agent env service action
                          (dict_get prediction "risk_score" (VInt 0)) s2 with
                  | (inl e, s3) => (inl e, s3)
                  | (inr healing, s3) =>
                      let report :=
                        incident_report env service alert
                          (utcnow env (events s)) (utcnow env (events s3))
                          detection prediction healing in
                      (inr report,
                       {| healing_history := (healing_history s3 ++ [report])%list;
                          events := events s3 |})
                  end
              end
          end
        else (inr (no_action_report detection), s1)
    end.
Proof.
  unfold heal. unfold mbind at 1. unfold now at 1. unfold mbind at 1.
  destruct (detector_agent env service 5 s) as [[e | d] s1]; [reflexivity |].
  destruct (truthy (dict_get d "anomaly_detected" VNone)); cbn [negb];
    [| reflexivity].
  unfold mbind at 1.
  destruct (predictor_agent env service _ s1) as [[e | p] s2]; [reflexivity |].
  unfold mbind at 1. unfold lift at 1.
  destruct (normalize_value _) as [e | a]; [reflexivity |].
  unfold mbind at 1.
  destruct (healer_agent env service a _ s2) as [[e | h] s3]; reflexivity.
Qed.

(** ** The order of the stages *)

Lemma heal_sequence_after_prediction (added : list event) (detect predict : event) :
  label detect = "detect_anomaly" ->
  label predict = "predict_risk" ->
  In (map label added) healer_sequences ->
  In (map label (detect :: predict :: added)) heal_sequences.
Proof.
  intros Hd Hp H. cbn [map]. rewrite Hd, Hp.
  unfold healer_sequences in H. unfold heal_sequences.
  destruct H as [<- | [<- | [<- | [<- | []]]]]; cbn; auto 6.
Qed.

(** X1. Whatever the collaborators answer and however the run ends, the
    events of a run of [heal] are, in this order: the POST to
    [detect_anomaly]; then, if at all, the POST to [predict_risk]; then,
    if at all, either the POST to [restart_service], or the POST to
    [scale_service], by itself or followed by a sleep of 10 seconds and
    the POST to [verify_health]. No stage runs twice or out of turn, and
    the controller is not reached before a prediction was asked for. *)
Theorem heal_pipeline_order (env : AgentEnv) (service alert : string)
    (s s' : agent) (r : result dict) :
  heal env service alert s = (r, s') ->
  exists added,
    events s' = (events s ++ added)%list /\ In (map label added) heal_sequences.
Proof.
  unfold heal. unfold mbind at 1. unfold now at 1. unfold mbind at 1.
  destruct (detector_agent env service 5 s) as [[e | d] s1] eqn:D;
    pose proof (detector_agent_events env service 5 s _ s1 D) as E1.
  { intros [= <- <-]. eexists. split; [exact E1 |]. cbn. auto. }
  destruct (truthy (dict_get d "anomaly_detected" VNone)); cbn [negb].
  2:{ intros [= <- <-]. eexists. split; [exact E1 |]. cbn. auto. }
  unfold mbind at 1.
  destruct (predictor_agent env service _ s1) as [[e | p] s2] eqn:P;
    pose proof (predictor_agent_events env service _ s1 _ s2 P) as E2.
  { intros [= <- <-]. eexists. split; [rewrite E2, E1, <- app_assoc; reflexivity |].
    cbn. auto. }
  unfold mbind at 1. unfold lift at 1.
  destruct (normalize_value _) as [e | a].
  { intros [= <- <-]. eexists. split; [rewrite E2, E1, <- app_assoc; reflexivity |].
    cbn. auto. }
  unfold mbind at 1.
  destruct (healer_agent env service a _ s2) as [[e | h] s3] eqn:H;
    destruct (healer_agent_events env service a _ s2 _ s3 H) as (added & E3 & Hin).
  { intros [= <- <-]. eexists.
    split; [rewrite E3, E2, E1, <- !app_assoc; reflexivity |].
    cbn [app]. apply heal_sequence_after_prediction; auto. }
  unfold mbind, now, history_append, mret. cbn [healing_history events].
  intros [= <- <-]. cbn [events]. eexists.
  split; [rewrite E3, E2, E1, <- !app_assoc; reflexivity |].
  cbn [app]. apply heal_sequence_after_prediction; auto.
Qed.

(** The order of the stages in the end-to-end scenario. *)
Lemma heal_pipeline_order_witness :
  exists added,
    events (snd (heal Samples.degraded_deployment "user-api" "High latency"
                   Samples.fresh_agent))
    = (events Samples.fresh_agent ++ added)%list
    /\ In (map label added) heal_sequences.
Proof.
  destruct (heal Samples.degraded_deployment "user-api" "High latency"
              Samples.fresh_agent) as [r s'] eqn:E.
  exact (heal_pipeline_order Samples.degraded_deployment "user-api" "High latency"
           Samples.fresh_agent s' r E).
Defined.

(** ** Outages *)

(** X3. When the POST to [detect_anomaly] ends in an HTTP error (a 500 of the
    server whose store is down, a timeout, a refused connection), [heal]
    takes the failure dictionary for a detection without anomaly: it
    reports success with [action_taken = "none"] and "Service operating
    normally", calls nothing else and stores nothing. *)
Theorem heal_reads_outage_as_healthy (env : AgentEnv) (service alert msg : string)
    (s : agent) :
  answer env (events s) (detect_call env service 5)
  = inr (VDict (http_failure "detect_anomaly" msg)) ->
  heal env service alert s
  = (inr [ ("success", VBool true);
           ("action_taken", VStr "none");
           ("message", VStr "Service operating normally");
           ("detection", VDict (http_failure "detect_anomaly" msg)) ],
     {| healing_history := healing_history s;
        events := (events s ++ [detect_call env service 5])%list |}).
Proof.
  intros H. unfold answer, detect_call in H.
  unfold heal. unfold mbind at 1. unfold now at 1. unfold mbind at 1.
  unfold detector_agent. unfold mbind at 1. rewrite call_mcp_tool_run, H.
  reflexivity.
Qed.

(** An HTTP error of the client is such an answer. *)
Lemma http_error_answer (env : AgentEnv) (before : list event) tool parameters msg :
  http_post env before (tool_url env tool) parameters = HTTPError msg ->
  answer env before (Post tool (tool_url env tool) parameters)
  = inr (VDict (http_failure tool msg)).
Proof. intros H. unfold answer. rewrite H. reflexivity. Qed.

(** A deployment whose metrics table does not exist. *)
Lemma heal_reads_outage_as_healthy_witness :
  heal MoreSamples.missing_table_deployment "user-api" "High latency" Samples.fresh_agent
  = (inr [ ("success", VBool true);
           ("action_taken", VStr "none");
           ("message", VStr "Service operating normally");
           ("detection",
            VDict (http_failure "detect_anomaly"
                     "Server error '500 Internal Server Error': 404 Not found: Table metrics")) ],
     {| healing_history := [];
        events := [detect_call MoreSamples.missing_table_deployment "user-api" 5] |}).
Proof.
  exact (heal_reads_outage_as_healthy MoreSamples.missing_table_deployment
           "user-api" "High latency"
           "Server error '500 Internal Server Error': 404 Not found: Table metrics"
           Samples.fresh_agent eq_refl).
Defined.

(** X4. When detection reports an anomaly and the POST to [predict_risk] ends
    in an HTTP error, [heal] goes on with the defaults: the risk score 0
    and the action [monitor]. The controller is not called, the healing
    counts as a success, and the report is stored. *)
Theorem heal_without_prediction_monitors (env : AgentEnv) (service alert msg : string)
    (s s1 : agent) (detection : dict) :
  detector_agent env service 5 s = (inr detection, s1) ->
  truthy (dict_get detection "anomaly_detected" VNone) = true ->
  answer env (events s1)
    (predict_call env service (dict_get detection "metrics" (VDict [])))
  = inr (VDict (http_failure "predict_risk" msg)) ->
  exists report s',
    heal env service alert s = (inr report, s')
    /\ events s'
       = (events s1
            ++ [predict_call env service (dict_get detection "metrics" (VDict []))])%list
    /\ healing_history s' = (healing_history s ++ [report])%list
    /\ dict_lookup report "prediction"
       = Some (VDict (http_failure "predict_risk" msg))
    /\ dict_lookup report "healing" = Some (VDict (monitoring service))
    /\ dict_lookup report "summary"
       = Some (VDict [ ("anomaly_detected", VBool true);
                       ("risk_score", VInt 0);
                       ("action_taken", VStr "monitor");
                       ("success", VBool true) ]).
Proof.
  intros D A P. unfold answer, predict_call in P.
  pose proof (keeps_detector_agent env service 5 s _ s1 D) as K1.
  unfold heal. unfold mbind at 1. unfold now at 1. unfold mbind at 1.
  rewrite D, A. cbn [negb].
  unfold mbind at 1. unfold predictor_agent. unfold mbind at 1.
  rewrite call_mcp_tool_run, P.
  eexists. eexists. split; [reflexivity |].
  cbn [events healing_history]. rewrite K1.
  repeat split; reflexivity.
Qed.

(** A deployment without the [predict_risk] endpoint. *)
Lemma heal_without_prediction_monitors_witness :
  exists report s',
    heal MoreSamples.no_predictor_deployment "user-api" "High latency"
      Samples.fresh_agent = (inr report, s')
    /\ healing_history s' = [report]
    /\ dict_lookup report "healing" = Some (VDict (monitoring "user-api")).
Proof.
  destruct (detector_agent MoreSamples.no_predictor_deployment "user-api" 5
              Samples.fresh_agent) as [[e | detection] s1] eqn:D;
    [discriminate D |].
  destruct (heal_without_prediction_monitors MoreSamples.no_predictor_deployment
              "user-api" "High latency" "Client error '404 Not Found'"
              Samples.fresh_agent s1 detection D)
    as (report & s' & Hrun & _ & Hhist & _ & Hheal & _).
  - injection D as <- <-. reflexivity.
  - injection D as <- <-. reflexivity.
  - exists report, s'. split; [exact Hrun |]. split; [exact Hhist | exact Hheal].
Defined.

(** ** Risk scores and actions as the model gives them *)

Lemma scale_bounds_not_numeric (risk_score : value) :
  numeric risk_score = false ->
  scale_bounds risk_score
  = inl (Exn TypeError
           ("'>=' not supported between instances of '" ++ type_name risk_score
              ++ "' and 'int'")).
Proof. destruct risk_score; cbn; try discriminate; reflexivity. Qed.

(** X5. The risk score of the prediction is not validated. When the
    recommended action is [scale_up] or one of its aliases and the risk
    score is not a number, the comparison with 80 raises a [TypeError]
    out of [heal]: the run has called detection and prediction and
    nothing else, stores no report, and the [/heal] endpoint answers with
    an HTTP 500. *)
Theorem heal_rejects_worded_risk (env : AgentEnv) (service alert : string)
    (s s1 s2 : agent) (detection prediction : dict) (action : string) :
  let metrics := dict_get detection "metrics" (VDict []) in
  let risk_score := dict_get prediction "risk_score" (VInt 0) in
  let msg :=
    "'>=' not supported between instances of '" ++ type_name risk_score
      ++ "' and 'int'" in
  detector_agent env service 5 s = (inr detection, s1) ->
  truthy (dict_get detection "anomaly_detected" VNone) = true ->
  predictor_agent env service metrics s1 = (inr prediction, s2) ->
  dict_get prediction "recommended_action" (VStr "monitor") = VStr action ->
  normalize action = "scale_up" ->
  numeric risk_score = false ->
  heal env service alert s = (inl (Exn TypeError msg), s2)
  /\ heal_endpoint env service alert s = (HTTPException 500 msg, s2)
  /\ healing_history s2 = healing_history s
  /\ events s2
     = (events s ++ [detect_call env service 5; predict_call env service metrics])%list.
Proof.
  intros metrics risk_score msg D A P Haction Hnorm Hrisk.
  assert (Hrun : heal env service alert s = (inl (Exn TypeError msg), s2)).
  { unfold heal. unfold mbind at 1. unfold now at 1. unfold mbind at 1.
    rewrite D, A. cbn [negb]. unfold mbind at 1. fold metrics. rewrite P.
    unfold mbind at 1. unfold lift at 1. rewrite Haction.
    cbn [normalize_value ret]. rewrite Hnorm.
    unfold mbind at 1. unfold healer_agent.
    cbn [eq_str String.eqb Ascii.eqb Bool.eqb].
    unfold mbind at 1. unfold lift at 1. fold risk_score.
    rewrite (scale_bounds_not_numeric risk_score Hrisk). reflexivity. }
  split; [exact Hrun |].
  split; [unfold heal_endpoint; rewrite Hrun; reflexivity |].
  split.
  - rewrite (keeps_predictor_agent env service metrics s1 _ s2 P).
    apply (keeps_detector_agent env service 5 s _ s1 D).
  - rewrite (predictor_agent_events env service metrics s1 _ s2 P).
    rewrite (detector_agent_events env service 5 s _ s1 D).
    rewrite <- app_assoc. reflexivity.
Qed.

(** A model that recommends [scale_out] and words the risk as "high". *)
Lemma heal_rejects_worded_risk_witness :
  fst (heal MoreSamples.worded_risk_deployment "user-api" "High latency"
         Samples.fresh_agent)
  = inl (Exn TypeError "'>=' not supported between instances of 'str' and 'int'")
  /\ healing_history
       (snd (heal MoreSamples.worded_risk_deployment "user-api" "High latency"
               Samples.fresh_agent)) = [].
Proof.
  destruct (detector_agent MoreSamples.worded_risk_deployment "user-api" 5
              Samples.fresh_agent) as [[e | detection] s1] eqn:D;
    [discriminate D |].
  destruct (predictor_agent MoreSamples.worded_risk_deployment "user-api"
              (dict_get detection "metrics" (VDict [])) s1)
    as [[e | prediction] s2] eqn:P.
  { injection D as <- <-. discriminate P. }
  destruct (heal_rejects_worded_risk MoreSamples.worded_risk_deployment
              "user-api" "High latency" Samples.fresh_agent s1 s2 detection
              prediction "scale_out" D) as (Hrun & _ & Hhist & _).
  - injection D as <- <-. reflexivity.
  - exact P.
  - injection D as <- <-. injection P as <- <-. reflexivity.
  - reflexivity.
  - injection D as <- <-. injection P as <- <-. reflexivity.
  - rewrite Hrun. cbn [fst snd]. split; [| exact Hhist].
    injection D as <- <-. injection P as <- <-. reflexivity.
Defined.

(** X6. The healer is given the normalized action, the summary of the report
    the action as the model recommended it: in every stored report,
    [healing] is what the healer returned for the normalized action and
    the risk score of the prediction, and [summary] holds that risk
    score, the recommended action before normalization, and the
    [success] of the healing (false when it has none). *)
Theorem heal_summary_keeps_recommendation (env : AgentEnv) (service alert : string)
    (s s' : agent) (report detection : dict) :
  heal env service alert s = (inr report, s') ->
  dict_lookup report "detection" = Some (VDict detection) ->
  truthy (dict_get detection "anomaly_detected" VNone) = true ->
  exists prediction healing normalized s2 s3,
    let recommended := dict_get prediction "recommended_action" (VStr "monitor") in
    let risk_score := dict_get prediction "risk_score" (VInt 0) in
    dict_lookup report "prediction" = Some (VDict prediction)
    /\ dict_lookup report "healing" = Some (VDict healing)
    /\ normalize_value recommended = inr normalized
    /\ healer_agent env service normalized risk_score s2 = (inr healing, s3)
    /\ dict_lookup report "summary"
       = Some (VDict [ ("anomaly_detected", VBool true);
                       ("risk_score", risk_score);
                       ("action_taken", recommended);
                       ("success", dict_get healing "success" (VBool false)) ]).
Proof.
  unfold heal. unfold mbind at 1. unfold now at 1. unfold mbind at 1.
  destruct (detector_agent env service 5 s) as [[e | d] s1]; [discriminate |].
  destruct (truthy (dict_get d "anomaly_detected" VNone)) eqn:A; cbn [negb].
  2:{ unfold mret. intros [= <- <-]. cbn. intros [= <-]. congruence. }
  unfold mbind at 1.
  destruct (predictor_agent env service _ s1) as [[e | p] s2]; [discriminate |].
  unfold mbind at 1. unfold lift at 1.
  destruct (normalize_value _) as [e | a] eqn:N; [discriminate |].
  unfold mbind at 1.
  destruct (healer_agent env service a _ s2) as [[e | h] s3] eqn:H; [discriminate |].
  unfold mbind, now, history_append, mret. cbn [healing_history events].
  intros [= <- <-] _ _.
  exists p, h, a, s2, s3. cbv zeta.
  split; [reflexivity |]. split; [reflexivity |].
  split; [exact N |]. split; [exact H | reflexivity].
Qed.

(** A model that recommends the alias [scale_out]: the service is scaled,
    and the summary says [scale_out]. *)
Lemma heal_summary_keeps_recommendation_witness :
  exists report s',
    heal MoreSamples.alias_deployment "user-api" "High latency" Samples.fresh_agent
    = (inr report, s')
    /\ dict_lookup report "summary"
       = Some (VDict [ ("anomaly_detected", VBool true);
                       ("risk_score", VInt 60);
                       ("action_taken", VStr "scale_out");
                       ("success", VBool true) ])
    /\ map label (events s')
       = ["detect_anomaly"; "predict_risk"; "scale_service"; "sleep 10";
          "verify_health"].
Proof.
  destruct (heal MoreSamples.alias_deployment "user-api" "High latency"
              Samples.fresh_agent) as [[e | report] s'] eqn:E; [discriminate E |].
  destruct (heal_summary_keeps_recommendation MoreSamples.alias_deployment
              "user-api" "High latency" Samples.fresh_agent s' report
              (match dict_lookup report "detection" with
               | Some (VDict d) => d
               | _ => []
               end) E)
    as (prediction & healing & normalized & s2 & s3 & _).
  - injection E as <- <-. reflexivity.
  - injection E as <- <-. reflexivity.
  - exists report, s'. injection E as <- <-. repeat split.
Defined.

(** ** The alert message *)

(** X7. The alert message takes no part in the run: with another message the
    same calls are made with the same outcome, an exception is the same,
    and the reports differ in their [alert_message] at most. *)
Theorem alert_message_is_only_reported (env : AgentEnv) (service alert alert' : string)
    (s : agent) :
  match heal env service alert s, heal env service alert' s with
  | (inr report, s1), (inr report', s1') =>
      events s1 = events s1'
      /\ List.length (healing_history s1) = List.length (healing_history s1')
      /\ (forall k, k <> "alert_message" -> dict_lookup report k = dict_lookup report' k)
  | (inl e, s1), (inl e', s1') => e = e' /\ s1 = s1'
  | _, _ => False
  end.
Proof.
  rewrite !heal_stages.
  destruct (detector_agent env service 5 s) as [[e | d] s1]; [split; reflexivity |].
  destruct (truthy (dict_get d "anomaly_detected" VNone));
    [| split; [reflexivity |]; split; reflexivity].
  destruct (predictor_agent env service _ s1) as [[e | p] s2]; [split; reflexivity |].
  destruct (normalize_value _) as [e | a]; [split; reflexivity |].
  destruct (healer_agent env service a _ s2) as [[e | h] s3]; [split; reflexivity |].
  cbv zeta. cbn [healing_history events].
  split; [reflexivity |]. split; [rewrite !length_app; reflexivity |].
  intros k Hk. unfold incident_report. cbn [dict_lookup].
  destruct (String.eqb "success" k); [reflexivity |].
  destruct (String.eqb "service" k); [reflexivity |].
  destruct (String.eqb_spec "alert_message" k) as [E | _]; [congruence |].
  reflexivity.
Qed.

(** ** Limits of the history query *)

(** X8. The limit of the history query is not validated: for a negative
    limit, [get_history] and [GET /history] return the history without
    its [-limit] oldest reports, that is, all the newer ones. *)
Theorem get_history_negative_limit (s : agent) (limit : Z) :
  limit < 0 ->
  let remaining := skipn (Z.to_nat (- limit)) (healing_history s) in
  get_history limit s = (inr remaining, s)
  /\ history_endpoint limit s
     = (Body [ ("count", VInt (Z.of_nat (List.length remaining)));
               ("incidents", VList (map VDict remaining)) ], s)
  /\ Z.of_nat (List.length remaining)
     = Z.max 0 (Z.of_nat (List.length (healing_history s)) + limit).
Proof.
  intros Hneg remaining.
  assert (E : slice_from (healing_history s) (- limit) = remaining).
  { unfold slice_from, remaining.
    assert (F : (- limit <? 0) = false) by (apply Z.ltb_ge; lia).
    rewrite F.
    destruct (Z.le_ge_cases (- limit) (Z.of_nat (List.length (healing_history s))))
      as [Hle | Hge].
    - rewrite Z.min_l by exact Hle. reflexivity.
    - rewrite Z.min_r by lia. rewrite Nat2Z.id.
      rewrite skipn_all. symmetry. apply skipn_all2. lia. }
  split; [unfold get_history; rewrite E; reflexivity |].
  split; [unfold history_endpoint, get_history; rewrite E; reflexivity |].
  unfold remaining. rewrite length_skipn. lia.
Qed.

(** [limit = -1] on an agent with three incidents: the oldest is left
    out. *)
Lemma get_history_negative_limit_witness :
  -1 < 0
  /\ get_history (-1) Samples.seasoned_agent
     = (inr [Samples.incident "payment-service"; Samples.incident "order-api"],
        Samples.seasoned_agent).
Proof.
  split; [lia |].
  exact (proj1 (get_history_negative_limit Samples.seasoned_agent (-1) eq_refl)).
Defined.

End AgentMoreFacts.
(* ================================================================== *)
(** * Properties of the controller tools *)
(* ================================================================== *)

Module OpsFacts.
Import Py Cloud OpsProps.

(** ** Scaling and restarting *)

Lemma or_else_nonempty (a b : string) : b <> "" -> or_else a b <> "".
Proof.
  intros Hb. unfold or_else.
  destruct (String.eqb_spec a "") as [_ | Ha]; assumption.
Qed.

(** X14. The scale and restart tools of [mcp_tools.py] never raise, and report
    [success] exactly when the [gcloud] command ran and exited with
    status 0. A failure carries an [error] text, which is not empty when
    the command exited with another status (its error output, else its
    output, else a fixed text), and an [action] that tells a timeout of
    the scale command from its other failures. *)
Theorem tools_controller_outcomes (env : CloudEnv) (service : string)
    (min_instances max_instances target_cpu_utilization : Z) :
  let scaled :=
    McpToolsOps.scale_service env service min_instances max_instances
      target_cpu_utilization in
  let restarted := McpToolsOps.restart_service env service in
  let scaling :=
    subprocess_run env
      (McpToolsOps.scale_service_cmd env service min_instances max_instances) 60 in
  let restarting :=
    subprocess_run env (McpToolsOps.restart_service_cmd env service) 60 in
  (dict_lookup scaled "success" = Some (VBool (exit_0 scaling))
   /\ dict_lookup scaled "action"
      = Some (VStr (if exit_0 scaling then "scaled"
                    else if timed_out scaling then "scale_timeout"
                    else "scale_failed"))
   /\ if exit_0 scaling then dict_lookup scaled "error" = None
      else exists msg,
          dict_lookup scaled "error" = Some (VStr msg)
          /\ (forall result, scaling = inr result -> msg <> ""))
  /\ (dict_lookup restarted "success" = Some (VBool (exit_0 restarting))
      /\ dict_lookup restarted "action"
         = Some (VStr (if exit_0 restarting then "restarted" else "restart_failed"))
      /\ if exit_0 restarting then dict_lookup restarted "error" = None
         else exists msg,
             dict_lookup restarted "error" = Some (VStr msg)
             /\ (forall result, restarting = inr result -> msg <> "")).
Proof.
  cbv zeta. split.
  - unfold McpToolsOps.scale_service, exit_0, timed_out.
    destruct (subprocess_run env _ 60) as [e | result].
    + destruct (is_a e "TimeoutExpired"); [| destruct (is_a e "FileNotFoundError")];
        (split; [reflexivity |]; split; [reflexivity |];
         eexists; split; [reflexivity | discriminate]).
    + destruct (returncode result =? 0).
      * split; [reflexivity |]. split; reflexivity.
      * split; [reflexivity |]. split; [reflexivity |].
        eexists. split; [reflexivity |]. intros _ _.
        apply or_else_nonempty, or_else_nonempty. discriminate.
  - unfold McpToolsOps.restart_service, exit_0.
    destruct (subprocess_run env _ 60) as [e | result].
    + split; [reflexivity |]. split; [reflexivity |].
      eexists. split; [reflexivity | discriminate].
    + destruct (returncode result =? 0).
      * split; [reflexivity |]. split; reflexivity.
      * split; [reflexivity |]. split; [reflexivity |].
        eexists. split; [reflexivity |]. intros _ _.
        apply or_else_nonempty. discriminate.
Qed.

(** X15. The scale and restart endpoints of [mcp_server.py] answer with a body
    exactly when the [gcloud] command could be run: [success] tells
    whether it exited with status 0, and [error] is its error output as
    it is, empty or not. When the command cannot be run (no [gcloud], a
    timeout), the endpoint answers with an HTTP 500 that carries the
    message of the exception. *)
Theorem server_controller_outcomes (env : CloudEnv)
    (scale : McpServerOps.ScaleServiceRequest)
    (restart : McpServerOps.RestartServiceRequest) :
  answers_for (subprocess_run env (McpServerOps.scale_service_cmd env scale) 60)
    (McpServerOps.scale_service env scale)
  /\ answers_for (subprocess_run env (McpServerOps.restart_service_cmd env restart) 60)
       (McpServerOps.restart_service env restart).
Proof.
  unfold answers_for, McpServerOps.scale_service, McpServerOps.restart_service.
  split.
  - destruct (subprocess_run env _ 60) as [e | result]; [reflexivity |].
    destruct (Z.eqb_spec (returncode result) 0) as [E | E].
    + eexists. split; [reflexivity |]. split; [reflexivity | contradiction].
    + eexists. split; [reflexivity |]. split; reflexivity.
  - destruct (subprocess_run env _ 60) as [e | result]; [reflexivity |].
    destruct (Z.eqb_spec (returncode result) 0) as [E | E].
    + eexists. split; [reflexivity |]. split; [reflexivity | contradiction].
    + eexists. split; [reflexivity |]. split; reflexivity.
Qed.

(** ** Verifying *)

Lemma described_run (env : CloudEnv) (cmd : list string) (service_info : dict) :
  described env cmd = Some service_info ->
  exists result,
    subprocess_run env cmd 30 = inr result
    /\ (returncode result =? 0) = true
    /\ json_loads env (stdout result) = inr (VDict service_info).
Proof.
  unfold described.
  destruct (subprocess_run env cmd 30) as [e | result]; [discriminate |].
  destruct (returncode result =? 0) eqn:Hcode; [| discriminate].
  destruct (json_loads env (stdout result)) as [e | v] eqn:Hloads; [discriminate |].
  destruct v; try discriminate. intros [= ->]. exists result.
  split; [reflexivity |]. split; [exact Hcode | exact Hloads].
Qed.

Lemma any_ready_dicts (conditions : list dict) :
  McpServerOps.any_ready (map VDict conditions)
  = inr (existsb ready_condition conditions).
Proof.
  induction conditions as [| c conditions IH]; [reflexivity |].
  cbn [map McpServerOps.any_ready py_get bind ret existsb].
  unfold ready_condition at 1.
  destruct (RootAgent.eq_str (dict_get c "type" VNone) "Ready"); cbn [andb orb];
    [| exact IH].
  destruct (RootAgent.eq_str (dict_get c "status" VNone) "True"); cbn [orb];
    [reflexivity | exact IH].
Qed.

(** X16. When [gcloud run services describe] exits with status 0 and prints a
    description whose conditions are objects, the endpoint of
    [mcp_server.py] reports [ready] exactly when some condition, at any
    place of the list, has the type [Ready] and the status [True]; a
    description without conditions is one that is not ready. The body
    passes the conditions on as they are. *)
Theorem verify_health_endpoint_any_condition (env : CloudEnv) (service : string)
    (service_info status : dict) (conditions : list dict) :
  described env (McpServerOps.verify_health_cmd env (verify_request service))
  = Some service_info ->
  dict_get service_info "status" (VDict []) = VDict status ->
  dict_get status "conditions" (VList []) = VList (map VDict conditions) ->
  McpServerOps.verify_health_endpoint env (verify_request service)
  = McpServer.Body
      [ ("success", VBool true);
        ("service", VStr service);
        ("ready", VBool (existsb ready_condition conditions));
        ("url", dict_get status "url" VNone);
        ("region", VStr (McpServerOps.region env));
        ("conditions", VList (map VDict conditions));
        ("timestamp", VStr (isoformat_aware env (utcnow env 0))) ].
Proof.
  intros D Hstatus Hconditions.
  destruct (described_run env _ _ D) as (result & Hrun & Hcode & Hloads).
  unfold McpServerOps.verify_health_endpoint, McpServerOps.verify_health_endpoint_try.
  rewrite Hrun. cbn [bind]. rewrite Hcode, Hloads.
  cbn [bind py_get ret]. rewrite Hstatus.
  cbn [bind py_get ret]. rewrite Hconditions.
  cbn [bind py_iter ret]. rewrite any_ready_dicts.
  reflexivity.
Qed.

(** A service that is rolling out: no condition is ready. *)
Lemma verify_health_endpoint_any_condition_witness :
  exists body,
    McpServerOps.verify_health_endpoint
      (MoreSamples.controller MoreSamples.rolling_out) (verify_request "user-api")
    = McpServer.Body body
    /\ dict_lookup body "success" = Some (VBool true)
    /\ dict_lookup body "ready" = Some (VBool false).
Proof.
  eexists. split.
  - exact (verify_health_endpoint_any_condition
             (MoreSamples.controller MoreSamples.rolling_out) "user-api"
             _ _ MoreSamples.rolling_out eq_refl eq_refl eq_refl).
  - split; reflexivity.
Defined.

Lemma annotation_any_key (spec : value) (key key' : string) (v : value) :
  McpToolsOps.annotation spec key = inr v ->
  exists v', McpToolsOps.annotation spec key' = inr v'.
Proof.
  unfold McpToolsOps.annotation.
  destruct (py_get spec "template" (VDict [])) as [e | template]; [discriminate |].
  cbn [bind].
  destruct (py_get template "metadata" (VDict [])) as [e | metadata]; [discriminate |].
  cbn [bind].
  destruct (py_get metadata "annotations" (VDict [])) as [e | annotations];
    [discriminate |].
  cbn [bind]. destruct annotations; try discriminate. intros _. eexists. reflexivity.
Qed.

(** The run of the verify tool on a description. *)
Lemma verify_health_described (env : CloudEnv) (service : string)
    (service_info status : dict) :
  described env (McpToolsOps.verify_health_cmd env service) = Some service_info ->
  dict_get service_info "status" (VDict []) = VDict status ->
  McpToolsOps.verify_health_try env service
  = bind (py_index0 (dict_get status "conditions" (VList [VDict []]))) (fun condition =>
    bind (py_get condition "status" VNone) (fun condition_status =>
    bind (McpToolsOps.annotation (dict_get service_info "spec" (VDict []))
            "autoscaling.knative.dev/minScale") (fun min_scale =>
    bind (McpToolsOps.annotation (dict_get service_info "spec" (VDict []))
            "autoscaling.knative.dev/maxScale") (fun max_scale =>
    ret [ ("success", VBool true);
          ("service", VStr service);
          ("url", dict_get status "url" VNone);
          ("ready", VBool (RootAgent.eq_str condition_status "True"));
          ("latest_revision", dict_get status "latestReadyRevisionName" VNone);
          ("traffic", dict_get status "traffic" (VList []));
          ("scaling", VDict [ ("min_instances", min_scale);
                              ("max_instances", max_scale) ]);
          ("timestamp", VStr (isoformat env (utcnow env 0))) ])))).
Proof.
  intros D Hstatus.
  destruct (described_run env _ _ D) as (result & Hrun & Hcode & Hloads).
  unfold McpToolsOps.verify_health_try.
  rewrite Hrun. cbn [bind]. rewrite Hcode, Hloads.
  cbn [bind py_get ret]. rewrite Hstatus.
  cbn [bind py_get ret]. reflexivity.
Qed.

(** X17. When [gcloud run services describe] exits with status 0 and prints a
    description that lists conditions, the tool of [mcp_tools.py] reads
    the first of them only, and not its type: [ready] is true exactly
    when the status of the first condition is [True], whatever that
    condition is and whatever the others say. *)
Theorem verify_health_first_condition (env : CloudEnv) (service : string)
    (service_info status first : dict) (others : list value) :
  described env (McpToolsOps.verify_health_cmd env service) = Some service_info ->
  dict_get service_info "status" (VDict []) = VDict status ->
  dict_get status "conditions" (VList [VDict []]) = VList (VDict first :: others) ->
  scaling_readable service_info = true ->
  let r := McpToolsOps.verify_health env service in
  dict_lookup r "success" = Some (VBool true)
  /\ dict_lookup r "ready" = Some (VBool (status_true first)).
Proof.
  intros D Hstatus Hconditions Hscaling. cbv zeta.
  unfold McpToolsOps.verify_health.
  rewrite (verify_health_described env service _ _ D Hstatus), Hconditions.
  cbn [py_index0 bind ret py_get].
  unfold scaling_readable in Hscaling.
  destruct (McpToolsOps.annotation _ "autoscaling.knative.dev/minScale")
    as [e | min_scale] eqn:Hmin; [discriminate |].
  destruct (annotation_any_key _ _ "autoscaling.knative.dev/maxScale" _ Hmin)
    as (max_scale & ->).
  cbn [bind ret]. split; reflexivity.
Qed.

(** A service that is rolling out, its configuration ready before the
    service is: the tool reports it ready. *)
Lemma verify_health_first_condition_witness :
  let r := McpToolsOps.verify_health (MoreSamples.controller MoreSamples.rolling_out)
             "user-api" in
  dict_lookup r "success" = Some (VBool true)
  /\ dict_lookup r "ready" = Some (VBool true).
Proof.
  exact (verify_health_first_condition
           (MoreSamples.controller MoreSamples.rolling_out) "user-api" _ _
           (MoreSamples.condition "ConfigurationsReady" "True") _
           eq_refl eq_refl eq_refl eq_refl).
Defined.

Lemma same_describe_command (env : CloudEnv) (service : string) :
  getenv env "GCP_PROJECT_ID" = None ->
  McpServerOps.verify_health_cmd env (verify_request service)
  = McpToolsOps.verify_health_cmd env service.
Proof.
  intros H. unfold McpServerOps.verify_health_cmd, McpToolsOps.verify_health_cmd,
    McpServerOps.project_id, McpServerOps.region, McpToolsOps.region, getenv_default.
  rewrite H. reflexivity.
Qed.

(** X18. A description with an empty list of conditions: the tool of
    [mcp_tools.py] takes the first element of the list and fails, so
    that it reports the verification itself as failed, with the text of
    the [IndexError]; the endpoint of [mcp_server.py], run for the same
    project, reports a successful verification of a service that is not
    ready. *)
Theorem verify_health_without_conditions (env : CloudEnv) (service : string)
    (service_info status : dict) :
  getenv env "GCP_PROJECT_ID" = None ->
  described env (McpToolsOps.verify_health_cmd env service) = Some service_info ->
  dict_get service_info "status" (VDict []) = VDict status ->
  dict_lookup status "conditions" = Some (VList []) ->
  McpToolsOps.verify_health env service
  = [ ("success", VBool false);
      ("service", VStr service);
      ("error", VStr "list index out of range");
      ("timestamp", VStr (isoformat env (utcnow env 0))) ]
  /\ exists body,
       McpServerOps.verify_health_endpoint env (verify_request service)
       = McpServer.Body body
       /\ dict_lookup body "success" = Some (VBool true)
       /\ dict_lookup body "ready" = Some (VBool false).
Proof.
  intros Hproject D Hstatus Hconditions. split.
  - unfold McpToolsOps.verify_health.
    rewrite (verify_health_described env service _ _ D Hstatus).
    unfold dict_get at 1. rewrite Hconditions. reflexivity.
  - rewrite <- (same_describe_command env service Hproject) in D.
    destruct (described_run env _ _ D) as (result & Hrun & Hcode & Hloads).
    unfold McpServerOps.verify_health_endpoint, McpServerOps.verify_health_endpoint_try.
    rewrite Hrun. cbn [bind]. rewrite Hcode, Hloads.
    cbn [bind py_get ret]. rewrite Hstatus.
    cbn [bind py_get ret]. unfold dict_get at 1. rewrite Hconditions.
    cbn [bind py_iter ret McpServerOps.any_ready].
    eexists. split; [reflexivity |]. split; reflexivity.
Qed.

(** A service without conditions. *)
Lemma verify_health_without_conditions_witness :
  dict_lookup (McpToolsOps.verify_health (MoreSamples.controller []) "user-api") "error"
  = Some (VStr "list index out of range")
  /\ exists body,
       McpServerOps.verify_health_endpoint (MoreSamples.controller [])
         (verify_request "user-api") = McpServer.Body body
       /\ dict_lookup body "ready" = Some (VBool false).
Proof.
  destruct (verify_health_without_conditions (MoreSamples.controller []) "user-api"
              _ _ eq_refl eq_refl eq_refl eq_refl) as [Htool (body & Hbody & _ & Hready)].
  split; [rewrite Htool; reflexivity |].
  exists body. split; [exact Hbody | exact Hready].
Defined.

End OpsFacts.
(* ================================================================== *)
(** * The healer against the controller endpoints *)
(* ================================================================== *)

Module DeploymentFacts.
Import Py RootAgent Props AgentProps AgentMoreProps Cloud OpsProps.

(** A scale-up, step by step. *)
Lemma healer_scale_up_steps (env : AgentEnv) (service : string) (risk_score : Z)
    (s : agent) :
  let scaling := scale_call env service (tier risk_score) in
  let verifying := verify_call env service in
  let after (added : list event) :=
    {| healing_history := healing_history s; events := (events s ++ added)%list |} in
  healer_agent env service (VStr "scale_up") (VInt risk_score) s
  = match answer env (events s) scaling with
    | inl e => (inl e, after [scaling])
    | inr (VDict result) =>
        if truthy (dict_get result "success" VNone)
        then
          match answer env (events s ++ [scaling; Sleep 10]) verifying with
          | inl e => (inl e, after [scaling; Sleep 10; verifying])
          | inr (VDict verify_result) =>
              (inr (dict_set result "verification"
                      (VStr (if reports_ready verify_result
                             then "healthy" else "pending"))),
               after [scaling; Sleep 10; verifying])
          | inr v =>
              (inl (Exn AttributeError
                      ("'" ++ type_name v ++ "' object has no attribute 'get'")),
               after [scaling; Sleep 10; verifying])
          end
        else (inr result, after [scaling])
    | inr v =>
        (inl (Exn AttributeError
                ("'" ++ type_name v ++ "' object has no attribute 'get'")),
         after [scaling])
    end.
Proof.
  cbv zeta. unfold healer_agent. cbn [eq_str String.eqb Ascii.eqb Bool.eqb].
  unfold mbind at 1. unfold lift at 1. rewrite AgentFacts.scale_bounds_int.
  unfold answer, scale_call, verify_call.
  destruct (tier risk_score) as [min_instances max_instances]. cbn [fst snd].
  unfold mbind at 1. rewrite AgentFacts.call_mcp_tool_run.
  destruct (tool_result "scale_service" _) as [e | v]; [reflexivity |].
  unfold mbind at 1.
  destruct v; cbn [as_dict lift mret raise]; try reflexivity.
  destruct (truthy (dict_get d "success" VNone)); [| reflexivity].
  unfold mbind at 1. unfold sleep, emit at 1. cbn [healing_history events].
  unfold mbind at 1. rewrite AgentFacts.call_mcp_tool_run. cbn [healing_history events].
  rewrite <- !app_assoc. cbn [app].
  destruct (tool_result "verify_health" _) as [e | v]; [reflexivity |].
  unfold mbind at 1.
  destruct v; cbn [as_dict lift mret raise]; try reflexivity.
  unfold reports_ready.
  destruct (truthy (dict_get d0 "success" VNone)
            && truthy (dict_get d0 "ready" VNone)); reflexivity.
Qed.

(** What the agent makes of the answer of an endpoint. *)
Lemma delivered_answer (env : AgentEnv) (before : list event) (tool url : string)
    (parameters : dict) (r : McpServer.response) :
  delivered (outcome env before (Post tool url parameters)) r ->
  match r with
  | McpServer.Body body =>
      answer env before (Post tool url parameters) = inr (VDict body)
  | McpServer.HTTPException _ _ =>
      exists msg,
        answer env before (Post tool url parameters)
        = inr (VDict (http_failure tool msg))
  end.
Proof.
  unfold delivered, outcome, answer. destruct r as [body | code detail].
  - intros ->. reflexivity.
  - intros (msg & ->). exists msg. reflexivity.
Qed.

(** Only a description that [gcloud] printed is reported ready. *)
Lemma ready_reported_described (cenv : CloudEnv) (service : string) :
  ready_reported (McpServerOps.verify_health_endpoint cenv (verify_request service))
  = true ->
  exit_0 (subprocess_run cenv
            (McpServerOps.verify_health_cmd cenv (verify_request service)) 30)
  = true.
Proof.
  unfold McpServerOps.verify_health_endpoint, McpServerOps.verify_health_endpoint_try,
    exit_0.
  destruct (subprocess_run cenv _ 30) as [e | result]; cbn [bind]; [discriminate |].
  destruct (returncode result =? 0); [reflexivity | discriminate].
Qed.

(** X19. A scale-up of the healer of [root_agent.py] whose POSTs are answered
    by the endpoints of [mcp_server.py]. The healing succeeds exactly
    when the [gcloud] update ran and exited with status 0; only then
    does the healer wait and verify. The verification cannot fail the
    healing: it is [healthy] when the verify endpoint answers with a body
    that reports the service ready, which takes a [gcloud] description
    that exited with status 0, and [pending] in every other case, an
    HTTP 500 of the verify endpoint among them. *)
Theorem scale_up_against_the_server (env : AgentEnv) (cenv : CloudEnv)
    (service : string) (risk_score : Z) (s : agent) :
  let scaling := scale_call env service (tier risk_score) in
  let verifying := verify_call env service in
  let update :=
    subprocess_run cenv
      (McpServerOps.scale_service_cmd cenv (scale_request service (tier risk_score)))
      60 in
  let describe :=
    subprocess_run cenv
      (McpServerOps.verify_health_cmd cenv (verify_request service)) 30 in
  let verified := McpServerOps.verify_health_endpoint cenv (verify_request service) in
  delivered (outcome env (events s) scaling)
    (McpServerOps.scale_service cenv (scale_request service (tier risk_score))) ->
  delivered (outcome env (events s ++ [scaling; Sleep 10]) verifying) verified ->
  exists result,
    healer_agent env service (VStr "scale_up") (VInt risk_score) s
    = (inr result,
       {| healing_history := healing_history s;
          events := (events s ++ (if exit_0 update
                                  then [scaling; Sleep 10; verifying]
                                  else [scaling]))%list |})
    /\ dict_lookup result "success" = Some (VBool (exit_0 update))
    /\ dict_lookup result "verification"
       = (if exit_0 update
          then Some (VStr (if ready_reported verified then "healthy" else "pending"))
          else None)
    /\ (ready_reported verified = true -> exit_0 describe = true).
Proof.
  cbv zeta. intros Hscale Hverify.
  apply delivered_answer in Hscale. apply delivered_answer in Hverify.
  rewrite healer_scale_up_steps. cbv zeta.
  unfold scale_call, verify_call in *.
  unfold McpServerOps.scale_service in Hscale. unfold exit_0 at 1 2 3.
  destruct (subprocess_run cenv
              (McpServerOps.scale_service_cmd cenv
                 (scale_request service (tier risk_score))) 60) as [e | ran].
  { destruct Hscale as (msg & ->). cbn [http_failure dict_get dict_lookup String.eqb
      Ascii.eqb Bool.eqb truthy].
    eexists. split; [reflexivity |]. split; [reflexivity |].
    split; [reflexivity | apply ready_reported_described]. }
  destruct (returncode ran =? 0).
  2:{ rewrite Hscale. eexists. split; [reflexivity |]. split; [reflexivity |].
      split; [reflexivity | apply ready_reported_described]. }
  rewrite Hscale. cbn [dict_get dict_lookup String.eqb Ascii.eqb Bool.eqb truthy].
  destruct (McpServerOps.verify_health_endpoint cenv (verify_request service))
    as [body | code detail] eqn:V.
  - rewrite Hverify. cbn [ready_reported].
    eexists. split; [reflexivity |]. split; [reflexivity |].
    split; [reflexivity |].
    intros H. apply ready_reported_described. rewrite V. exact H.
  - destruct Hverify as (msg & ->). cbn [ready_reported].
    eexists. split; [reflexivity |]. split; [reflexivity |].
    split; [reflexivity | discriminate].
Qed.

(** A scale-up at risk 90 against a controller that scales: with a
    service that is rolling out, and with a description command that
    runs into its timeout, the verification is pending and the healing a
    success. *)
Lemma scale_up_against_the_server_witness :
  (exists result s',
      healer_agent (MoreSamples.controlled_deployment
                      (MoreSamples.controller MoreSamples.rolling_out))
        "user-api" (VStr "scale_up") (VInt 90) Samples.fresh_agent = (inr result, s')
      /\ dict_lookup result "success" = Some (VBool true)
      /\ dict_lookup result "verification" = Some (VStr "pending"))
  /\ (exists result s',
        healer_agent (MoreSamples.controlled_deployment MoreSamples.slow_controller)
          "user-api" (VStr "scale_up") (VInt 90) Samples.fresh_agent = (inr result, s')
        /\ dict_lookup result "success" = Some (VBool true)
        /\ dict_lookup result "verification" = Some (VStr "pending")
        /\ map label (events s') = ["scale_service"; "sleep 10"; "verify_health"]).
Proof.
  split.
  - destruct (scale_up_against_the_server
                (MoreSamples.controlled_deployment
                   (MoreSamples.controller MoreSamples.rolling_out))
                (MoreSamples.controller MoreSamples.rolling_out)
                "user-api" 90 Samples.fresh_agent eq_refl eq_refl)
      as (result & Hrun & Hsuccess & Hverification & _).
    exists result. eexists. split; [exact Hrun |].
    split; [exact Hsuccess | exact Hverification].
  - destruct (scale_up_against_the_server
                (MoreSamples.controlled_deployment MoreSamples.slow_controller)
                MoreSamples.slow_controller
                "user-api" 90 Samples.fresh_agent eq_refl
                (ex_intro _ _ eq_refl))
      as (result & Hrun & Hsuccess & Hverification & _).
    exists result. eexists. split; [exact Hrun |].
    split; [exact Hsuccess |]. split; [exact Hverification | reflexivity].
Defined.

(** X20. A restart of the healer of [root_agent.py] whose POST is answered by
    the restart endpoint of [mcp_server.py]: the POST is the only event,
    whatever the risk score is, the healing succeeds exactly when the
    [gcloud] update ran and exited with status 0, and a restart is not
    verified. *)
Theorem restart_against_the_server (env : AgentEnv) (cenv : CloudEnv)
    (service : string) (risk_score : value) (s : agent) :
  let restarting := restart_call env service in
  let update :=
    subprocess_run cenv
      (McpServerOps.restart_service_cmd cenv (restart_request service)) 60 in
  delivered (outcome env (events s) restarting)
    (McpServerOps.restart_service cenv (restart_request service)) ->
  exists result,
    healer_agent env service (VStr "restart") risk_score s
    = (inr result,
       {| healing_history := healing_history s;
          events := (events s ++ [restarting])%list |})
    /\ dict_lookup result "success" = Some (VBool (exit_0 update))
    /\ dict_lookup result "verification" = None.
Proof.
  cbv zeta. intros Hrestart. apply delivered_answer in Hrestart.
  unfold healer_agent. cbn [eq_str String.eqb Ascii.eqb Bool.eqb].
  unfold mbind at 1. rewrite AgentFacts.call_mcp_tool_run.
  unfold answer, restart_call in *.
  unfold McpServerOps.restart_service in Hrestart. unfold exit_0.
  destruct (subprocess_run cenv
              (McpServerOps.restart_service_cmd cenv (restart_request service)) 60)
    as [e | ran].
  { destruct Hrestart as (msg & ->).
    eexists. split; [reflexivity |]. split; reflexivity. }
  destruct (returncode ran =? 0); rewrite Hrestart;
    (eexists; split; [reflexivity |]; split; reflexivity).
Qed.

(** A restart on a host without [gcloud]: the endpoint answers with an
    HTTP 500, and the healing fails. *)
Lemma restart_against_the_server_witness :
  exists result s',
    healer_agent (MoreSamples.controlled_deployment MoreSamples.no_gcloud)
      "user-api" (VStr "restart") (VInt 90) Samples.fresh_agent = (inr result, s')
    /\ dict_lookup result "success" = Some (VBool false)
    /\ map label (events s') = ["restart_service"].
Proof.
  destruct (restart_against_the_server
              (MoreSamples.controlled_deployment MoreSamples.no_gcloud)
              MoreSamples.no_gcloud "user-api" (VInt 90) Samples.fresh_agent
              (ex_intro _ _ eq_refl))
    as (result & Hrun & Hsuccess & _).
  exists result. eexists. split; [exact Hrun |].
  split; [exact Hsuccess | reflexivity].
Defined.

End DeploymentFacts.
(* ================================================================== *)
(** * Properties of the metric tools *)
(* ================================================================== *)

Module StoreFacts.
Import Py Store Props StoreProps.

(** ** Reading metrics *)

Lemma float_if_numeric (x : option float) : numeric (McpToolsStore.float_if x) = true.
Proof.
  unfold McpToolsStore.float_if. destruct x as [f |]; [| reflexivity].
  destruct (float_truthy (Some f)); reflexivity.
Qed.

Lemma tools_entries_complete (env : StoreEnv) (rows : list Metric) :
  forallb complete_entry (map (fun row => VDict (McpToolsStore.metric_entry env row)) rows)
  = true.
Proof.
  induction rows as [| row rows IH]; [reflexivity |].
  cbn [map forallb]. rewrite IH, andb_true_r.
  unfold complete_entry, numeric_keys, McpToolsStore.metric_entry.
  cbn [forallb dict_get dict_lookup String.eqb Ascii.eqb Bool.eqb].
  rewrite !float_if_numeric. reflexivity.
Qed.

Lemma server_entries_complete (env : StoreEnv) (rows : list Metric) :
  forallb complete_entry (map (fun row => VDict (McpServerStore.metric_entry env row)) rows)
  = true.
Proof.
  induction rows as [| row rows IH]; [reflexivity |].
  cbn [map forallb]. rewrite IH. reflexivity.
Qed.

(** X21. In every result of [get_metrics], [count] is the number of entries
    of [metrics], which is the number of rows that the query returned and
    zero when the query failed; each entry has a number at every numeric
    key, since a [NULL] of the table is reported as a zero. The tool
    never raises; the endpoint answers a query that failed, and nothing
    else, with an HTTP 500. *)
Theorem get_metrics_counts_rows (env : StoreEnv) (service : string) (limit : Z) :
  let rows := query_metrics env service limit in
  (exists entries,
      lists_and_counts (McpToolsStore.get_metrics env service limit) entries
      /\ List.length entries = rows_returned rows)
  /\ match McpServerStore.get_metrics env service limit with
     | McpServer.Body body =>
         exists entries,
           lists_and_counts body entries
           /\ List.length entries = rows_returned rows
           /\ exists found, rows = inr found
     | McpServer.HTTPException code detail =>
         code = 500 /\ exists e, rows = inl e /\ detail = str_exn e
     end.
Proof.
  cbv zeta. unfold McpToolsStore.get_metrics, McpServerStore.get_metrics,
    lists_and_counts.
  destruct (query_metrics env service limit) as [e | [| row rows]]; cbn [rows_returned].
  - split.
    + exists []. repeat split.
    + split; [reflexivity |]. exists e. split; reflexivity.
  - split.
    + exists []. repeat split.
    + exists []. split; [repeat split |]. split; [reflexivity |]. eexists. reflexivity.
  - split.
    + eexists. split.
      * split; [reflexivity |]. split; [reflexivity |].
        apply (tools_entries_complete env (row :: rows)).
      * rewrite length_map. reflexivity.
    + eexists. split.
      * split; [reflexivity |]. split; [reflexivity |].
        apply (server_entries_complete env (row :: rows)).
      * split; [rewrite length_map; reflexivity |]. eexists. reflexivity.
Qed.

(** ** Ingesting metrics *)

Lemma numeric_number_gt_int (v : value) (n : Z) (b : bool) :
  py_gt_int v n = inr b -> numeric v = true /\ number_gt_int v n = b.
Proof.
  unfold number_gt_int. destruct v; cbn; try discriminate;
    intros [= <-]; split; reflexivity.
Qed.

Lemma tools_row_label (env : StoreEnv) (service : string) (fields row : dict) :
  McpToolsStore.ingest_row env service (VDict fields) = inr row ->
  numeric (dict_get fields "latency_ms" (VInt 0)) = true
  /\ dict_lookup row "status"
     = Some (VStr (label_of (dict_get fields "latency_ms" (VInt 0))))
  /\ dict_lookup row "service_id" = Some (VStr service).
Proof.
  unfold McpToolsStore.ingest_row. cbn [py_get bind ret]. intros H.
  destruct (py_float env (dict_get fields "latency_ms" (VInt 0))); cbn [bind] in H;
    [discriminate H |].
  destruct (py_int env (dict_get fields "kafka_lag" (VInt 0))); cbn [bind] in H;
    [discriminate H |].
  destruct (py_gt_int (dict_get fields "latency_ms" (VInt 0)) 500) as [e | degraded] eqn:G;
    cbn [bind] in H; [discriminate H |].
  apply numeric_number_gt_int in G as [Hnum Hgt].
  destruct (py_float env (dict_get fields "error_rate" (VInt 0))); cbn [bind] in H;
    [discriminate H |].
  destruct (py_float env (dict_get fields "cpu_usage" (VInt 0))); cbn [bind] in H;
    [discriminate H |].
  destruct (py_float env (dict_get fields "memory_usage" (VInt 0))); cbn [bind] in H;
    [discriminate H |].
  destruct (py_int env (dict_get fields "request_count" (VInt 0))); cbn [bind] in H;
    [discriminate H |].
  injection H as <-. unfold label_of. rewrite Hgt.
  split; [exact Hnum |]. split; reflexivity.
Qed.

Lemma server_row_label (env : StoreEnv) (service : string) (fields row : dict) :
  McpServerStore.ingest_row env service (VDict fields) = inr row ->
  numeric (dict_get fields "latency_ms" (VInt 0)) = true
  /\ dict_lookup row "status"
     = Some (VStr (label_of (dict_get fields "latency_ms" (VInt 0))))
  /\ dict_lookup row "service_id" = Some (VStr service).
Proof.
  unfold McpServerStore.ingest_row. cbn [py_get bind ret]. intros H.
  destruct (py_float env (dict_get fields "latency_ms" (VInt 0))); cbn [bind] in H;
    [discriminate H |].
  destruct (py_int env (dict_get fields "kafka_lag" (VInt 0))); cbn [bind] in H;
    [discriminate H |].
  destruct (py_gt_int (dict_get fields "latency_ms" (VInt 0)) 500) as [e | degraded] eqn:G;
    cbn [bind] in H; [discriminate H |].
  apply numeric_number_gt_int in G as [Hnum Hgt].
  destruct (py_float env (dict_get fields "error_rate" (VInt 0))); cbn [bind] in H;
    [discriminate H |].
  destruct (py_float env (dict_get fields "cpu_usage" (VInt 0))); cbn [bind] in H;
    [discriminate H |].
  destruct (py_float env (dict_get fields "memory_usage" (VInt 0))); cbn [bind] in H;
    [discriminate H |].
  destruct (py_int env (dict_get fields "request_count" (VInt 0))); cbn [bind] in H;
    [discriminate H |].
  injection H as <-. unfold label_of. rewrite Hgt.
  split; [exact Hnum |]. split; reflexivity.
Qed.

(** X22. Every row that [ingest_metrics] builds, in either implementation,
    comes from a JSON object whose [latency_ms] is a number (0 when it is
    missing), and is labelled by that number alone: [DEGRADED] when it is
    above 500, [OK] when it is not, at 500 for one, and never
    [CRITICAL]. A latency that is given as a string builds no row, even
    one that [float] can read: the comparison with 500 raises. *)
Theorem ingest_labels_by_latency (env : StoreEnv) (service : string)
    (metrics_data : value) (row : dict) :
  McpToolsStore.ingest_row env service metrics_data = inr row
  \/ McpServerStore.ingest_row env service metrics_data = inr row ->
  exists fields,
    metrics_data = VDict fields
    /\ numeric (dict_get fields "latency_ms" (VInt 0)) = true
    /\ dict_lookup row "status"
       = Some (VStr (label_of (dict_get fields "latency_ms" (VInt 0))))
    /\ dict_lookup row "service_id" = Some (VStr service).
Proof.
  intros H.
  destruct metrics_data as [| b | n | x | t | l | fields];
    try (destruct H as [H | H]; discriminate H).
  exists fields. split; [reflexivity |].
  destruct H as [H | H];
    [apply (tools_row_label env) | apply (server_row_label env)]; exact H.
Qed.

(** A latency of exactly 500, from the tool; a latency of 501, from the
    endpoint. *)
Lemma ingest_labels_by_latency_witness :
  (exists row,
      McpToolsStore.ingest_row
        (MoreSamples.store_env (inr []) (RootAgent.Json VNone) (inr []))
        "user-api" (MoreSamples.polled_metrics (VInt 500)) = inr row
      /\ dict_lookup row "status" = Some (VStr "OK"))
  /\ (exists row,
        McpServerStore.ingest_row
          (MoreSamples.store_env (inr []) (RootAgent.Json VNone) (inr []))
          "user-api" (MoreSamples.polled_metrics (VFloat 501%float)) = inr row
        /\ dict_lookup row "status" = Some (VStr "DEGRADED")).
Proof.
  split.
  - pose proof (ingest_labels_by_latency
                  (MoreSamples.store_env (inr []) (RootAgent.Json VNone) (inr []))
                  "user-api" (MoreSamples.polled_metrics (VInt 500)) _
                  (or_introl eq_refl)) as (fields & Hd & _ & Hs & _).
    injection Hd as <-. eexists. split; [reflexivity | exact Hs].
  - pose proof (ingest_labels_by_latency
                  (MoreSamples.store_env (inr []) (RootAgent.Json VNone) (inr []))
                  "user-api" (MoreSamples.polled_metrics (VFloat 501%float)) _
                  (or_intror eq_refl)) as (fields & Hd & _ & Hs & _).
    injection Hd as <-. eexists. split; [reflexivity | exact Hs].
Defined.


End StoreFacts.
